(** * Agenda and patient roster: the client-side decision logic

    A shallow embedding of the pure parts of [AgendaPage.jsx] (slot
    availability, closure matching, working-day navigation, patient
    suggestions) and of the patient roster page (status-change
    validation, roster filtering), followed by the properties proved
    about them.

    Conventions of the embedding:
    - a nullable JSON field is a [JS.value]; the JavaScript test [!x]
      is [negb (JS.truthy x)];
    - a JavaScript string is the bytes of its UTF-8 encoding;
    - a JavaScript [Date] is its time value, the milliseconds since
      1970-01-01T00:00:00Z, or is the Invalid Date; the local time zone
      is taken to be UTC;
    - a function that can throw returns a [JS.Completion];
    - React state is a record; a handler is a function from the state
      (and, for handlers that call the server, the server's answer) to
      the new state and the effects it produced. *)

From Stdlib Require Import ZArith NArith List Bool Ascii String Lia.
From Stdlib Require Import DecimalString DecimalN FinFun.
Import ListNotations.

Local Open Scope string_scope.

(* ================================================================= *)
(** ** JavaScript values and string primitives *)

Module JS.

(** The values a nullable string field of a JSON record can hold. *)
Inductive value : Type :=
| Null
| Undefined
| Str (s : string).

(** [Boolean(v)]: [null], [undefined] and the empty string are falsy. *)
Definition truthy (v : value) : bool :=
  match v with
  | Null | Undefined => false
  | Str s => negb (s =? "")
  end.

(** [v === s] for a string [s]. *)
Definition strict_eq (v : value) (s : string) : bool :=
  match v with
  | Str s' => s' =? s
  | Null | Undefined => false
  end.

(** Two values are the same value. *)
Definition value_eqb (v w : value) : bool :=
  match v, w with
  | Null, Null => true
  | Undefined, Undefined => true
  | Str a, Str b => a =? b
  | _, _ => false
  end.

(** *** Strings and [toLowerCase]

    A JavaScript string is held as the bytes of its UTF-8 encoding;
    it is taken to have no unpaired surrogate.  On such strings [===],
    [startsWith], [includes] and the test [length >= 1] give the same
    answers on the bytes as on the UTF-16 code units.

    [toLowerCase] is the lower-case conversion of the Unicode
    standard that ECMAScript prescribes: every code point is replaced
    by its lower-case mapping, the capital sigma by the final small
    sigma where the Final_Sigma condition holds.  The tables are those
    of Unicode 14.0. *)

(** An element of a decoded string: a code point, or a byte that is
    not part of a well-formed UTF-8 sequence. *)
Inductive element : Type :=
| Cp (n : N)
| Raw (b : ascii).

(** The payload of a continuation byte that no sequence has taken. *)
Definition continuation (u : element) : option N :=
  match u with
  | Raw b =>
      let n := N_of_ascii b in
      if ((0x80 <=? n) && (n <=? 0xBF))%N then Some (n - 0x80)%N else None
  | Cp _ => None
  end.

(** Decoding one more byte in front of a decoded string: an ASCII
    byte is a code point; a lead byte takes the continuation bytes
    that follow it when they make a code point in shortest form that
    is not a surrogate; any other byte stays as it is. *)
Definition decode_step (b : ascii) (rest : list element) : list element :=
  let n := N_of_ascii b in
  let ill := Raw b :: rest in
  if (n <? 0x80)%N then Cp n :: rest
  else if (n <? 0xC0)%N then ill
  else if (n <? 0xE0)%N then
    match rest with
    | u1 :: r =>
        match continuation u1 with
        | Some c1 =>
            let cp := ((n - 0xC0) * 64 + c1)%N in
            if (0x80 <=? cp)%N then Cp cp :: r else ill
        | None => ill
        end
    | _ => ill
    end
  else if (n <? 0xF0)%N then
    match rest with
    | u1 :: u2 :: r =>
        match continuation u1, continuation u2 with
        | Some c1, Some c2 =>
            let cp := (((n - 0xE0) * 64 + c1) * 64 + c2)%N in
            if ((0x800 <=? cp) && negb ((0xD800 <=? cp) && (cp <=? 0xDFFF)))%N
            then Cp cp :: r else ill
        | _, _ => ill
        end
    | _ => ill
    end
  else if (n <? 0xF8)%N then
    match rest with
    | u1 :: u2 :: u3 :: r =>
        match continuation u1, continuation u2, continuation u3 with
        | Some c1, Some c2, Some c3 =>
            let cp := ((((n - 0xF0) * 64 + c1) * 64 + c2) * 64 + c3)%N in
            if ((0x10000 <=? cp) && (cp <=? 0x10FFFF))%N
            then Cp cp :: r else ill
        | _, _, _ => ill
        end
    | _ => ill
    end
  else ill.

(** The code points of a string. *)
Fixpoint decode (s : string) : list element :=
  match s with
  | EmptyString => []
  | String b s' => decode_step b (decode s')
  end.

(** The UTF-8 bytes of a code point. *)
Definition encode_cp (n : N) : string :=
  if (n <? 0x80)%N then String (ascii_of_N n) EmptyString
  else if (n <? 0x800)%N then
    String (ascii_of_N (0xC0 + n / 64))
      (String (ascii_of_N (0x80 + n mod 64)) EmptyString)
  else if (n <? 0x10000)%N then
    String (ascii_of_N (0xE0 + n / 4096))
      (String (ascii_of_N (0x80 + (n / 64) mod 64))
         (String (ascii_of_N (0x80 + n mod 64)) EmptyString))
  else
    String (ascii_of_N (0xF0 + n / 262144))
      (String (ascii_of_N (0x80 + (n / 4096) mod 64))
         (String (ascii_of_N (0x80 + (n / 64) mod 64))
            (String (ascii_of_N (0x80 + n mod 64)) EmptyString))).

(** The string of a list of elements. *)
Fixpoint encode (l : list element) : string :=
  match l with
  | [] => EmptyString
  | Cp n :: r => encode_cp n ++ encode r
  | Raw b :: r => String b (encode r)
  end.

(** The code points with a lower-case mapping of one code point, in
    runs: from the first to the last code point of a run, every
    [step]-th one is mapped, the first to [target] and the others at
    the same distance. *)
Definition lowercaseMapping : list (N * N * N * N) :=
  [(0x41, 0x5A, 1, 0x61); (0xC0, 0xD6, 1, 0xE0); (0xD8, 0xDE, 1, 0xF8);
   (0x100, 0x12E, 2, 0x101); (0x132, 0x136, 2, 0x133); (0x139, 0x147, 2, 0x13A);
   (0x14A, 0x176, 2, 0x14B); (0x178, 0x178, 1, 0xFF); (0x179, 0x17D, 2, 0x17A);
   (0x181, 0x181, 1, 0x253); (0x182, 0x184, 2, 0x183); (0x186, 0x186, 1, 0x254);
   (0x187, 0x187, 1, 0x188); (0x189, 0x18A, 1, 0x256); (0x18B, 0x18B, 1, 0x18C);
   (0x18E, 0x18E, 1, 0x1DD); (0x18F, 0x18F, 1, 0x259); (0x190, 0x190, 1, 0x25B);
   (0x191, 0x191, 1, 0x192); (0x193, 0x193, 1, 0x260); (0x194, 0x194, 1, 0x263);
   (0x196, 0x196, 1, 0x269); (0x197, 0x197, 1, 0x268); (0x198, 0x198, 1, 0x199);
   (0x19C, 0x19C, 1, 0x26F); (0x19D, 0x19D, 1, 0x272); (0x19F, 0x19F, 1, 0x275);
   (0x1A0, 0x1A4, 2, 0x1A1); (0x1A6, 0x1A6, 1, 0x280); (0x1A7, 0x1A7, 1, 0x1A8);
   (0x1A9, 0x1A9, 1, 0x283); (0x1AC, 0x1AC, 1, 0x1AD); (0x1AE, 0x1AE, 1, 0x288);
   (0x1AF, 0x1AF, 1, 0x1B0); (0x1B1, 0x1B2, 1, 0x28A); (0x1B3, 0x1B5, 2, 0x1B4);
   (0x1B7, 0x1B7, 1, 0x292); (0x1B8, 0x1B8, 1, 0x1B9); (0x1BC, 0x1BC, 1, 0x1BD);
   (0x1C4, 0x1C4, 1, 0x1C6); (0x1C5, 0x1C5, 1, 0x1C6); (0x1C7, 0x1C7, 1, 0x1C9);
   (0x1C8, 0x1C8, 1, 0x1C9); (0x1CA, 0x1CA, 1, 0x1CC); (0x1CB, 0x1DB, 2, 0x1CC);
   (0x1DE, 0x1EE, 2, 0x1DF); (0x1F1, 0x1F1, 1, 0x1F3); (0x1F2, 0x1F4, 2, 0x1F3);
   (0x1F6, 0x1F6, 1, 0x195); (0x1F7, 0x1F7, 1, 0x1BF); (0x1F8, 0x21E, 2, 0x1F9);
   (0x220, 0x220, 1, 0x19E); (0x222, 0x232, 2, 0x223); (0x23A, 0x23A, 1, 0x2C65);
   (0x23B, 0x23B, 1, 0x23C); (0x23D, 0x23D, 1, 0x19A); (0x23E, 0x23E, 1, 0x2C66);
   (0x241, 0x241, 1, 0x242); (0x243, 0x243, 1, 0x180); (0x244, 0x244, 1, 0x289);
   (0x245, 0x245, 1, 0x28C); (0x246, 0x24E, 2, 0x247); (0x370, 0x372, 2, 0x371);
   (0x376, 0x376, 1, 0x377); (0x37F, 0x37F, 1, 0x3F3); (0x386, 0x386, 1, 0x3AC);
   (0x388, 0x38A, 1, 0x3AD); (0x38C, 0x38C, 1, 0x3CC); (0x38E, 0x38F, 1, 0x3CD);
   (0x391, 0x3A1, 1, 0x3B1); (0x3A3, 0x3AB, 1, 0x3C3); (0x3CF, 0x3CF, 1, 0x3D7);
   (0x3D8, 0x3EE, 2, 0x3D9); (0x3F4, 0x3F4, 1, 0x3B8); (0x3F7, 0x3F7, 1, 0x3F8);
   (0x3F9, 0x3F9, 1, 0x3F2); (0x3FA, 0x3FA, 1, 0x3FB); (0x3FD, 0x3FF, 1, 0x37B);
   (0x400, 0x40F, 1, 0x450); (0x410, 0x42F, 1, 0x430); (0x460, 0x480, 2, 0x461);
   (0x48A, 0x4BE, 2, 0x48B); (0x4C0, 0x4C0, 1, 0x4CF); (0x4C1, 0x4CD, 2, 0x4C2);
   (0x4D0, 0x52E, 2, 0x4D1); (0x531, 0x556, 1, 0x561); (0x10A0, 0x10C5, 1, 0x2D00);
   (0x10C7, 0x10C7, 1, 0x2D27); (0x10CD, 0x10CD, 1, 0x2D2D); (0x13A0, 0x13EF, 1, 0xAB70);
   (0x13F0, 0x13F5, 1, 0x13F8); (0x1C90, 0x1CBA, 1, 0x10D0); (0x1CBD, 0x1CBF, 1, 0x10FD);
   (0x1E00, 0x1E94, 2, 0x1E01); (0x1E9E, 0x1E9E, 1, 0xDF); (0x1EA0, 0x1EFE, 2, 0x1EA1);
   (0x1F08, 0x1F0F, 1, 0x1F00); (0x1F18, 0x1F1D, 1, 0x1F10); (0x1F28, 0x1F2F, 1, 0x1F20);
   (0x1F38, 0x1F3F, 1, 0x1F30); (0x1F48, 0x1F4D, 1, 0x1F40); (0x1F59, 0x1F5F, 2, 0x1F51);
   (0x1F68, 0x1F6F, 1, 0x1F60); (0x1F88, 0x1F8F, 1, 0x1F80); (0x1F98, 0x1F9F, 1, 0x1F90);
   (0x1FA8, 0x1FAF, 1, 0x1FA0); (0x1FB8, 0x1FB9, 1, 0x1FB0); (0x1FBA, 0x1FBB, 1, 0x1F70);
   (0x1FBC, 0x1FBC, 1, 0x1FB3); (0x1FC8, 0x1FCB, 1, 0x1F72); (0x1FCC, 0x1FCC, 1, 0x1FC3);
   (0x1FD8, 0x1FD9, 1, 0x1FD0); (0x1FDA, 0x1FDB, 1, 0x1F76); (0x1FE8, 0x1FE9, 1, 0x1FE0);
   (0x1FEA, 0x1FEB, 1, 0x1F7A); (0x1FEC, 0x1FEC, 1, 0x1FE5); (0x1FF8, 0x1FF9, 1, 0x1F78);
   (0x1FFA, 0x1FFB, 1, 0x1F7C); (0x1FFC, 0x1FFC, 1, 0x1FF3); (0x2126, 0x2126, 1, 0x3C9);
   (0x212A, 0x212A, 1, 0x6B); (0x212B, 0x212B, 1, 0xE5); (0x2132, 0x2132, 1, 0x214E);
   (0x2160, 0x216F, 1, 0x2170); (0x2183, 0x2183, 1, 0x2184); (0x24B6, 0x24CF, 1, 0x24D0);
   (0x2C00, 0x2C2F, 1, 0x2C30); (0x2C60, 0x2C60, 1, 0x2C61); (0x2C62, 0x2C62, 1, 0x26B);
   (0x2C63, 0x2C63, 1, 0x1D7D); (0x2C64, 0x2C64, 1, 0x27D); (0x2C67, 0x2C6B, 2, 0x2C68);
   (0x2C6D, 0x2C6D, 1, 0x251); (0x2C6E, 0x2C6E, 1, 0x271); (0x2C6F, 0x2C6F, 1, 0x250);
   (0x2C70, 0x2C70, 1, 0x252); (0x2C72, 0x2C72, 1, 0x2C73); (0x2C75, 0x2C75, 1, 0x2C76);
   (0x2C7E, 0x2C7F, 1, 0x23F); (0x2C80, 0x2CE2, 2, 0x2C81); (0x2CEB, 0x2CED, 2, 0x2CEC);
   (0x2CF2, 0x2CF2, 1, 0x2CF3); (0xA640, 0xA66C, 2, 0xA641); (0xA680, 0xA69A, 2, 0xA681);
   (0xA722, 0xA72E, 2, 0xA723); (0xA732, 0xA76E, 2, 0xA733); (0xA779, 0xA77B, 2, 0xA77A);
   (0xA77D, 0xA77D, 1, 0x1D79); (0xA77E, 0xA786, 2, 0xA77F); (0xA78B, 0xA78B, 1, 0xA78C);
   (0xA78D, 0xA78D, 1, 0x265); (0xA790, 0xA792, 2, 0xA791); (0xA796, 0xA7A8, 2, 0xA797);
   (0xA7AA, 0xA7AA, 1, 0x266); (0xA7AB, 0xA7AB, 1, 0x25C); (0xA7AC, 0xA7AC, 1, 0x261);
   (0xA7AD, 0xA7AD, 1, 0x26C); (0xA7AE, 0xA7AE, 1, 0x26A); (0xA7B0, 0xA7B0, 1, 0x29E);
   (0xA7B1, 0xA7B1, 1, 0x287); (0xA7B2, 0xA7B2, 1, 0x29D); (0xA7B3, 0xA7B3, 1, 0xAB53);
   (0xA7B4, 0xA7C2, 2, 0xA7B5); (0xA7C4, 0xA7C4, 1, 0xA794); (0xA7C5, 0xA7C5, 1, 0x282);
   (0xA7C6, 0xA7C6, 1, 0x1D8E); (0xA7C7, 0xA7C9, 2, 0xA7C8); (0xA7D0, 0xA7D0, 1, 0xA7D1);
   (0xA7D6, 0xA7D8, 2, 0xA7D7); (0xA7F5, 0xA7F5, 1, 0xA7F6); (0xFF21, 0xFF3A, 1, 0xFF41);
   (0x10400, 0x10427, 1, 0x10428); (0x104B0, 0x104D3, 1, 0x104D8); (0x10570, 0x1057A, 1, 0x10597);
   (0x1057C, 0x1058A, 1, 0x105A3); (0x1058C, 0x10592, 1, 0x105B3); (0x10594, 0x10595, 1, 0x105BB);
   (0x10C80, 0x10CB2, 1, 0x10CC0); (0x118A0, 0x118BF, 1, 0x118C0); (0x16E40, 0x16E5F, 1, 0x16E60);
   (0x1E900, 0x1E921, 1, 0x1E922)]%N.

(** The case-ignorable code points, in ranges. *)
Definition caseIgnorable : list (N * N) :=
  [(0x27, 0x27); (0x2E, 0x2E); (0x3A, 0x3A); (0x5E, 0x5E); (0x60, 0x60);
   (0xA8, 0xA8); (0xAD, 0xAD); (0xAF, 0xAF); (0xB4, 0xB4); (0xB7, 0xB8);
   (0x2B0, 0x36F); (0x374, 0x375); (0x37A, 0x37A); (0x384, 0x385); (0x387, 0x387);
   (0x483, 0x489); (0x559, 0x559); (0x55F, 0x55F); (0x591, 0x5BD); (0x5BF, 0x5BF);
   (0x5C1, 0x5C2); (0x5C4, 0x5C5); (0x5C7, 0x5C7); (0x5F4, 0x5F4); (0x600, 0x605);
   (0x610, 0x61A); (0x61C, 0x61C); (0x640, 0x640); (0x64B, 0x65F); (0x670, 0x670);
   (0x6D6, 0x6DD); (0x6DF, 0x6E8); (0x6EA, 0x6ED); (0x70F, 0x70F); (0x711, 0x711);
   (0x730, 0x74A); (0x7A6, 0x7B0); (0x7EB, 0x7F5); (0x7FA, 0x7FA); (0x7FD, 0x7FD);
   (0x816, 0x82D); (0x859, 0x85B); (0x888, 0x888); (0x890, 0x891); (0x898, 0x89F);
   (0x8C9, 0x902); (0x93A, 0x93A); (0x93C, 0x93C); (0x941, 0x948); (0x94D, 0x94D);
   (0x951, 0x957); (0x962, 0x963); (0x971, 0x971); (0x981, 0x981); (0x9BC, 0x9BC);
   (0x9C1, 0x9C4); (0x9CD, 0x9CD); (0x9E2, 0x9E3); (0x9FE, 0x9FE); (0xA01, 0xA02);
   (0xA3C, 0xA3C); (0xA41, 0xA42); (0xA47, 0xA48); (0xA4B, 0xA4D); (0xA51, 0xA51);
   (0xA70, 0xA71); (0xA75, 0xA75); (0xA81, 0xA82); (0xABC, 0xABC); (0xAC1, 0xAC5);
   (0xAC7, 0xAC8); (0xACD, 0xACD); (0xAE2, 0xAE3); (0xAFA, 0xAFF); (0xB01, 0xB01);
   (0xB3C, 0xB3C); (0xB3F, 0xB3F); (0xB41, 0xB44); (0xB4D, 0xB4D); (0xB55, 0xB56);
   (0xB62, 0xB63); (0xB82, 0xB82); (0xBC0, 0xBC0); (0xBCD, 0xBCD); (0xC00, 0xC00);
   (0xC04, 0xC04); (0xC3C, 0xC3C); (0xC3E, 0xC40); (0xC46, 0xC48); (0xC4A, 0xC4D);
   (0xC55, 0xC56); (0xC62, 0xC63); (0xC81, 0xC81); (0xCBC, 0xCBC); (0xCBF, 0xCBF);
   (0xCC6, 0xCC6); (0xCCC, 0xCCD); (0xCE2, 0xCE3); (0xD00, 0xD01); (0xD3B, 0xD3C);
   (0xD41, 0xD44); (0xD4D, 0xD4D); (0xD62, 0xD63); (0xD81, 0xD81); (0xDCA, 0xDCA);
   (0xDD2, 0xDD4); (0xDD6, 0xDD6); (0xE31, 0xE31); (0xE34, 0xE3A); (0xE46, 0xE4E);
   (0xEB1, 0xEB1); (0xEB4, 0xEBC); (0xEC6, 0xEC6); (0xEC8, 0xECD); (0xF18, 0xF19);
   (0xF35, 0xF35); (0xF37, 0xF37); (0xF39, 0xF39); (0xF71, 0xF7E); (0xF80, 0xF84);
   (0xF86, 0xF87); (0xF8D, 0xF97); (0xF99, 0xFBC); (0xFC6, 0xFC6); (0x102D, 0x1030);
   (0x1032, 0x1037); (0x1039, 0x103A); (0x103D, 0x103E); (0x1058, 0x1059); (0x105E, 0x1060);
   (0x1071, 0x1074); (0x1082, 0x1082); (0x1085, 0x1086); (0x108D, 0x108D); (0x109D, 0x109D);
   (0x10FC, 0x10FC); (0x135D, 0x135F); (0x1712, 0x1714); (0x1732, 0x1733); (0x1752, 0x1753);
   (0x1772, 0x1773); (0x17B4, 0x17B5); (0x17B7, 0x17BD); (0x17C6, 0x17C6); (0x17C9, 0x17D3);
   (0x17D7, 0x17D7); (0x17DD, 0x17DD); (0x180B, 0x180F); (0x1843, 0x1843); (0x1885, 0x1886);
   (0x18A9, 0x18A9); (0x1920, 0x1922); (0x1927, 0x1928); (0x1932, 0x1932); (0x1939, 0x193B);
   (0x1A17, 0x1A18); (0x1A1B, 0x1A1B); (0x1A56, 0x1A56); (0x1A58, 0x1A5E); (0x1A60, 0x1A60);
   (0x1A62, 0x1A62); (0x1A65, 0x1A6C); (0x1A73, 0x1A7C); (0x1A7F, 0x1A7F); (0x1AA7, 0x1AA7);
   (0x1AB0, 0x1ACE); (0x1B00, 0x1B03); (0x1B34, 0x1B34); (0x1B36, 0x1B3A); (0x1B3C, 0x1B3C);
   (0x1B42, 0x1B42); (0x1B6B, 0x1B73); (0x1B80, 0x1B81); (0x1BA2, 0x1BA5); (0x1BA8, 0x1BA9);
   (0x1BAB, 0x1BAD); (0x1BE6, 0x1BE6); (0x1BE8, 0x1BE9); (0x1BED, 0x1BED); (0x1BEF, 0x1BF1);
   (0x1C2C, 0x1C33); (0x1C36, 0x1C37); (0x1C78, 0x1C7D); (0x1CD0, 0x1CD2); (0x1CD4, 0x1CE0);
   (0x1CE2, 0x1CE8); (0x1CED, 0x1CED); (0x1CF4, 0x1CF4); (0x1CF8, 0x1CF9); (0x1D2C, 0x1D6A);
   (0x1D78, 0x1D78); (0x1D9B, 0x1DFF); (0x1FBD, 0x1FBD); (0x1FBF, 0x1FC1); (0x1FCD, 0x1FCF);
   (0x1FDD, 0x1FDF); (0x1FED, 0x1FEF); (0x1FFD, 0x1FFE); (0x200B, 0x200F); (0x2018, 0x2019);
   (0x2024, 0x2024); (0x2027, 0x2027); (0x202A, 0x202E); (0x2060, 0x2064); (0x2066, 0x206F);
   (0x2071, 0x2071); (0x207F, 0x207F); (0x2090, 0x209C); (0x20D0, 0x20F0); (0x2C7C, 0x2C7D);
   (0x2CEF, 0x2CF1); (0x2D6F, 0x2D6F); (0x2D7F, 0x2D7F); (0x2DE0, 0x2DFF); (0x2E2F, 0x2E2F);
   (0x3005, 0x3005); (0x302A, 0x302D); (0x3031, 0x3035); (0x303B, 0x303B); (0x3099, 0x309E);
   (0x30FC, 0x30FE); (0xA015, 0xA015); (0xA4F8, 0xA4FD); (0xA60C, 0xA60C); (0xA66F, 0xA672);
   (0xA674, 0xA67D); (0xA67F, 0xA67F); (0xA69C, 0xA69F); (0xA6F0, 0xA6F1); (0xA700, 0xA721);
   (0xA770, 0xA770); (0xA788, 0xA78A); (0xA7F2, 0xA7F4); (0xA7F8, 0xA7F9); (0xA802, 0xA802);
   (0xA806, 0xA806); (0xA80B, 0xA80B); (0xA825, 0xA826); (0xA82C, 0xA82C); (0xA8C4, 0xA8C5);
   (0xA8E0, 0xA8F1); (0xA8FF, 0xA8FF); (0xA926, 0xA92D); (0xA947, 0xA951); (0xA980, 0xA982);
   (0xA9B3, 0xA9B3); (0xA9B6, 0xA9B9); (0xA9BC, 0xA9BD); (0xA9CF, 0xA9CF); (0xA9E5, 0xA9E6);
   (0xAA29, 0xAA2E); (0xAA31, 0xAA32); (0xAA35, 0xAA36); (0xAA43, 0xAA43); (0xAA4C, 0xAA4C);
   (0xAA70, 0xAA70); (0xAA7C, 0xAA7C); (0xAAB0, 0xAAB0); (0xAAB2, 0xAAB4); (0xAAB7, 0xAAB8);
   (0xAABE, 0xAABF); (0xAAC1, 0xAAC1); (0xAADD, 0xAADD); (0xAAEC, 0xAAED); (0xAAF3, 0xAAF4);
   (0xAAF6, 0xAAF6); (0xAB5B, 0xAB5F); (0xAB69, 0xAB6B); (0xABE5, 0xABE5); (0xABE8, 0xABE8);
   (0xABED, 0xABED); (0xFB1E, 0xFB1E); (0xFBB2, 0xFBC2); (0xFE00, 0xFE0F); (0xFE13, 0xFE13);
   (0xFE20, 0xFE2F); (0xFE52, 0xFE52); (0xFE55, 0xFE55); (0xFEFF, 0xFEFF); (0xFF07, 0xFF07);
   (0xFF0E, 0xFF0E); (0xFF1A, 0xFF1A); (0xFF3E, 0xFF3E); (0xFF40, 0xFF40); (0xFF70, 0xFF70);
   (0xFF9E, 0xFF9F); (0xFFE3, 0xFFE3); (0xFFF9, 0xFFFB); (0x101FD, 0x101FD); (0x102E0, 0x102E0);
   (0x10376, 0x1037A); (0x10780, 0x10785); (0x10787, 0x107B0); (0x107B2, 0x107BA); (0x10A01, 0x10A03);
   (0x10A05, 0x10A06); (0x10A0C, 0x10A0F); (0x10A38, 0x10A3A); (0x10A3F, 0x10A3F); (0x10AE5, 0x10AE6);
   (0x10D24, 0x10D27); (0x10EAB, 0x10EAC); (0x10F46, 0x10F50); (0x10F82, 0x10F85); (0x11001, 0x11001);
   (0x11038, 0x11046); (0x11070, 0x11070); (0x11073, 0x11074); (0x1107F, 0x11081); (0x110B3, 0x110B6);
   (0x110B9, 0x110BA); (0x110BD, 0x110BD); (0x110C2, 0x110C2); (0x110CD, 0x110CD); (0x11100, 0x11102);
   (0x11127, 0x1112B); (0x1112D, 0x11134); (0x11173, 0x11173); (0x11180, 0x11181); (0x111B6, 0x111BE);
   (0x111C9, 0x111CC); (0x111CF, 0x111CF); (0x1122F, 0x11231); (0x11234, 0x11234); (0x11236, 0x11237);
   (0x1123E, 0x1123E); (0x112DF, 0x112DF); (0x112E3, 0x112EA); (0x11300, 0x11301); (0x1133B, 0x1133C);
   (0x11340, 0x11340); (0x11366, 0x1136C); (0x11370, 0x11374); (0x11438, 0x1143F); (0x11442, 0x11444);
   (0x11446, 0x11446); (0x1145E, 0x1145E); (0x114B3, 0x114B8); (0x114BA, 0x114BA); (0x114BF, 0x114C0);
   (0x114C2, 0x114C3); (0x115B2, 0x115B5); (0x115BC, 0x115BD); (0x115BF, 0x115C0); (0x115DC, 0x115DD);
   (0x11633, 0x1163A); (0x1163D, 0x1163D); (0x1163F, 0x11640); (0x116AB, 0x116AB); (0x116AD, 0x116AD);
   (0x116B0, 0x116B5); (0x116B7, 0x116B7); (0x1171D, 0x1171F); (0x11722, 0x11725); (0x11727, 0x1172B);
   (0x1182F, 0x11837); (0x11839, 0x1183A); (0x1193B, 0x1193C); (0x1193E, 0x1193E); (0x11943, 0x11943);
   (0x119D4, 0x119D7); (0x119DA, 0x119DB); (0x119E0, 0x119E0); (0x11A01, 0x11A0A); (0x11A33, 0x11A38);
   (0x11A3B, 0x11A3E); (0x11A47, 0x11A47); (0x11A51, 0x11A56); (0x11A59, 0x11A5B); (0x11A8A, 0x11A96);
   (0x11A98, 0x11A99); (0x11C30, 0x11C36); (0x11C38, 0x11C3D); (0x11C3F, 0x11C3F); (0x11C92, 0x11CA7);
   (0x11CAA, 0x11CB0); (0x11CB2, 0x11CB3); (0x11CB5, 0x11CB6); (0x11D31, 0x11D36); (0x11D3A, 0x11D3A);
   (0x11D3C, 0x11D3D); (0x11D3F, 0x11D45); (0x11D47, 0x11D47); (0x11D90, 0x11D91); (0x11D95, 0x11D95);
   (0x11D97, 0x11D97); (0x11EF3, 0x11EF4); (0x13430, 0x13438); (0x16AF0, 0x16AF4); (0x16B30, 0x16B36);
   (0x16B40, 0x16B43); (0x16F4F, 0x16F4F); (0x16F8F, 0x16F9F); (0x16FE0, 0x16FE1); (0x16FE3, 0x16FE4);
   (0x1AFF0, 0x1AFF3); (0x1AFF5, 0x1AFFB); (0x1AFFD, 0x1AFFE); (0x1BC9D, 0x1BC9E); (0x1BCA0, 0x1BCA3);
   (0x1CF00, 0x1CF2D); (0x1CF30, 0x1CF46); (0x1D167, 0x1D169); (0x1D173, 0x1D182); (0x1D185, 0x1D18B);
   (0x1D1AA, 0x1D1AD); (0x1D242, 0x1D244); (0x1DA00, 0x1DA36); (0x1DA3B, 0x1DA6C); (0x1DA75, 0x1DA75);
   (0x1DA84, 0x1DA84); (0x1DA9B, 0x1DA9F); (0x1DAA1, 0x1DAAF); (0x1E000, 0x1E006); (0x1E008, 0x1E018);
   (0x1E01B, 0x1E021); (0x1E023, 0x1E024); (0x1E026, 0x1E02A); (0x1E130, 0x1E13D); (0x1E2AE, 0x1E2AE);
   (0x1E2EC, 0x1E2EF); (0x1E8D0, 0x1E8D6); (0x1E944, 0x1E94B); (0x1F3FB, 0x1F3FF); (0xE0001, 0xE0001);
   (0xE0020, 0xE007F); (0xE0100, 0xE01EF)]%N.

(** The cased code points that are not case-ignorable, in ranges. *)
Definition casedLetter : list (N * N) :=
  [(0x41, 0x5A); (0x61, 0x7A); (0xAA, 0xAA); (0xB5, 0xB5); (0xBA, 0xBA);
   (0xC0, 0xD6); (0xD8, 0xF6); (0xF8, 0x1BA); (0x1BC, 0x1BF); (0x1C4, 0x293);
   (0x295, 0x2AF); (0x370, 0x373); (0x376, 0x377); (0x37B, 0x37D); (0x37F, 0x37F);
   (0x386, 0x386); (0x388, 0x38A); (0x38C, 0x38C); (0x38E, 0x3A1); (0x3A3, 0x3F5);
   (0x3F7, 0x481); (0x48A, 0x52F); (0x531, 0x556); (0x560, 0x588); (0x10A0, 0x10C5);
   (0x10C7, 0x10C7); (0x10CD, 0x10CD); (0x10D0, 0x10FA); (0x10FD, 0x10FF); (0x13A0, 0x13F5);
   (0x13F8, 0x13FD); (0x1C80, 0x1C88); (0x1C90, 0x1CBA); (0x1CBD, 0x1CBF); (0x1D00, 0x1D2B);
   (0x1D6B, 0x1D77); (0x1D79, 0x1D9A); (0x1E00, 0x1F15); (0x1F18, 0x1F1D); (0x1F20, 0x1F45);
   (0x1F48, 0x1F4D); (0x1F50, 0x1F57); (0x1F59, 0x1F59); (0x1F5B, 0x1F5B); (0x1F5D, 0x1F5D);
   (0x1F5F, 0x1F7D); (0x1F80, 0x1FB4); (0x1FB6, 0x1FBC); (0x1FBE, 0x1FBE); (0x1FC2, 0x1FC4);
   (0x1FC6, 0x1FCC); (0x1FD0, 0x1FD3); (0x1FD6, 0x1FDB); (0x1FE0, 0x1FEC); (0x1FF2, 0x1FF4);
   (0x1FF6, 0x1FFC); (0x2102, 0x2102); (0x2107, 0x2107); (0x210A, 0x2113); (0x2115, 0x2115);
   (0x2119, 0x211D); (0x2124, 0x2124); (0x2126, 0x2126); (0x2128, 0x2128); (0x212A, 0x212D);
   (0x212F, 0x2134); (0x2139, 0x2139); (0x213C, 0x213F); (0x2145, 0x2149); (0x214E, 0x214E);
   (0x2160, 0x217F); (0x2183, 0x2184); (0x24B6, 0x24E9); (0x2C00, 0x2C7B); (0x2C7E, 0x2CE4);
   (0x2CEB, 0x2CEE); (0x2CF2, 0x2CF3); (0x2D00, 0x2D25); (0x2D27, 0x2D27); (0x2D2D, 0x2D2D);
   (0xA640, 0xA66D); (0xA680, 0xA69B); (0xA722, 0xA76F); (0xA771, 0xA787); (0xA78B, 0xA78E);
   (0xA790, 0xA7CA); (0xA7D0, 0xA7D1); (0xA7D3, 0xA7D3); (0xA7D5, 0xA7D9); (0xA7F5, 0xA7F6);
   (0xA7FA, 0xA7FA); (0xAB30, 0xAB5A); (0xAB60, 0xAB68); (0xAB70, 0xABBF); (0xFB00, 0xFB06);
   (0xFB13, 0xFB17); (0xFF21, 0xFF3A); (0xFF41, 0xFF5A); (0x10400, 0x1044F); (0x104B0, 0x104D3);
   (0x104D8, 0x104FB); (0x10570, 0x1057A); (0x1057C, 0x1058A); (0x1058C, 0x10592); (0x10594, 0x10595);
   (0x10597, 0x105A1); (0x105A3, 0x105B1); (0x105B3, 0x105B9); (0x105BB, 0x105BC); (0x10C80, 0x10CB2);
   (0x10CC0, 0x10CF2); (0x118A0, 0x118DF); (0x16E40, 0x16E7F); (0x1D400, 0x1D454); (0x1D456, 0x1D49C);
   (0x1D49E, 0x1D49F); (0x1D4A2, 0x1D4A2); (0x1D4A5, 0x1D4A6); (0x1D4A9, 0x1D4AC); (0x1D4AE, 0x1D4B9);
   (0x1D4BB, 0x1D4BB); (0x1D4BD, 0x1D4C3); (0x1D4C5, 0x1D505); (0x1D507, 0x1D50A); (0x1D50D, 0x1D514);
   (0x1D516, 0x1D51C); (0x1D51E, 0x1D539); (0x1D53B, 0x1D53E); (0x1D540, 0x1D544); (0x1D546, 0x1D546);
   (0x1D54A, 0x1D550); (0x1D552, 0x1D6A5); (0x1D6A8, 0x1D6C0); (0x1D6C2, 0x1D6DA); (0x1D6DC, 0x1D6FA);
   (0x1D6FC, 0x1D714); (0x1D716, 0x1D734); (0x1D736, 0x1D74E); (0x1D750, 0x1D76E); (0x1D770, 0x1D788);
   (0x1D78A, 0x1D7A8); (0x1D7AA, 0x1D7C2); (0x1D7C4, 0x1D7CB); (0x1DF00, 0x1DF09); (0x1DF0B, 0x1DF1E);
   (0x1E900, 0x1E943); (0x1F130, 0x1F149); (0x1F150, 0x1F169); (0x1F170, 0x1F189)]%N.

Fixpoint in_ranges (n : N) (l : list (N * N)) : bool :=
  match l with
  | [] => false
  | (first, last) :: l' => ((first <=? n) && (n <=? last))%N || in_ranges n l'
  end.

Fixpoint lookup_lower (n : N) (l : list (N * N * N * N)) : option N :=
  match l with
  | [] => None
  | (first, last, step, target) :: l' =>
      if ((first <=? n) && (n <=? last) && ((n - first) mod step =? 0))%N
      then Some (target + (n - first))%N
      else lookup_lower n l'
  end.

(** The lower-case mapping of a code point: U+0130 is the only one
    mapped to two code points. *)
Definition lower_cp (n : N) : list N :=
  if (n =? 0x130)%N then [0x69; 0x307]%N
  else match lookup_lower n lowercaseMapping with
       | Some m => [m]
       | None => [n]
       end.

(** Whether a cased letter follows, after any number of case-ignorable
    code points. *)
Fixpoint cased_follows (l : list element) : bool :=
  match l with
  | Cp n :: r => if in_ranges n caseIgnorable then cased_follows r
                 else in_ranges n casedLetter
  | _ => false
  end.

(** Lower-casing the elements of a string; [afterCased] tells whether
    a cased letter precedes, before any number of case-ignorable code
    points.  A capital sigma (U+03A3) that follows a cased letter and
    is not followed by one becomes the final small sigma (U+03C2). *)
Fixpoint lower_elements (afterCased : bool) (l : list element) : list element :=
  match l with
  | [] => []
  | Raw b :: r => Raw b :: lower_elements false r
  | Cp n :: r =>
      let out :=
        if (n =? 0x3A3)%N
        then [if afterCased && negb (cased_follows r) then 0x3C2 else 0x3C3]%N
        else lower_cp n in
      let afterCased' :=
        if in_ranges n caseIgnorable then afterCased
        else in_ranges n casedLetter in
      (map Cp out ++ lower_elements afterCased' r)%list
  end.

(** [s.toLowerCase()]. *)
Definition toLowerCase (s : string) : string :=
  encode (lower_elements false (decode s)).

(** [s.startsWith(q)]. *)
Fixpoint startsWith (s q : string) {struct q} : bool :=
  match q, s with
  | EmptyString, _ => true
  | String _ _, EmptyString => false
  | String b q', String a s' => Ascii.eqb a b && startsWith s' q'
  end.

(** [s.includes(q)]: [q] occurs in [s] at some position. *)
Fixpoint includes (s q : string) : bool :=
  startsWith s q ||
  match s with
  | EmptyString => false
  | String _ s' => includes s' q
  end.

(** [arr.includes(x)] on an array of strings. *)
Definition array_includes (arr : list string) (x : string) : bool :=
  existsb (String.eqb x) arr.

(** [n.toString()] for a non-negative integer. *)
Definition toString (n : N) : string :=
  NilEmpty.string_of_uint (N.to_uint n).

(** ["0".repeat(k)]. *)
Fixpoint zeros (k : nat) : string :=
  match k with
  | O => EmptyString
  | S k' => String "0" (zeros k')
  end.

(** [s.padStart(w, "0")]. *)
Definition padStart0 (s : string) (w : nat) : string :=
  zeros (w - String.length s) ++ s.

(** [`${v}`]: a value inside a template string. *)
Definition template (v : value) : string :=
  match v with
  | Null => "null"
  | Undefined => "undefined"
  | Str s => s
  end.

(** [v || dflt] for a nullable string [v] and a string [dflt]. *)
Definition or_else (v : value) (dflt : string) : string :=
  match v with
  | Str s => if s =? "" then dflt else s
  | Null | Undefined => dflt
  end.

(** The outcome of code that can throw: its value, or the name of the
    error thrown. *)
Inductive Completion (A : Type) : Type :=
| Normal (a : A)
| Throw (error : string).

Arguments Normal {A} a.
Arguments Throw {A} error.

(** Reading a decimal numeral back; leading zeros are allowed. *)
Definition parseDecimal (s : string) : option N :=
  option_map N.of_uint (NilEmpty.uint_of_string s).

End JS.

(* ================================================================= *)
(** ** The date-fns functions the agenda uses

    [date-fns] is a dependency of the page, not part of its source.
    The page calls [isWeekend], [addDays] and [format] with the pattern
    ["yyyy-MM-dd"]; they are modelled here on the time value of a
    [Date], read in a local time zone that is UTC, with the proleptic
    Gregorian calendar computed from the day number. *)

Module DateFns.

(** The milliseconds of a day. *)
Definition msPerDay : Z := 86400000.

(** The largest time value a [Date] can hold: 100000000 days after
    1970-01-01T00:00:00Z, and as many before. *)
Definition maxTime : Z := 8640000000000000.

(** The time value of a [Date] that is not the Invalid Date. *)
Definition date : Type := Z.

(** The time values a [Date] can hold. *)
Definition validTime (t : date) : Prop := (- maxTime <= t <= maxTime)%Z.

(** A [Date] object: a time value, or the Invalid Date. *)
Inductive jsDate : Type :=
| DateOf (t : date)
| InvalidDate.

(** [TimeClip(t)]: a time beyond the range makes the Invalid Date. *)
Definition timeClip (t : Z) : jsDate :=
  if (Z.abs t <=? maxTime)%Z then DateOf t else InvalidDate.

(** [Day(t)]: the number of the day of [t], counted from 1970-01-01. *)
Definition dayOf (t : date) : Z := (t / msPerDay)%Z.

(** The time value of 00:00 of the day of number [day]. *)
Definition midnight (day : Z) : date := (day * msPerDay)%Z.

(** [addDays(d, n)] on a [Date] that is not invalid: [setDate] moves
    the time value by whole days and clips it. *)
Definition addDays (d : date) (n : Z) : jsDate :=
  if (n =? 0)%Z then DateOf d else timeClip (d + n * msPerDay).

(** [d.getDay()]: 0 is Sunday; 1970-01-01 was a Thursday. *)
Definition getDay (d : date) : Z := ((dayOf d + 4) mod 7)%Z.

(** [isWeekend(d)]: Saturday or Sunday. *)
Definition isWeekend (d : date) : bool :=
  ((getDay d =? 0) || (getDay d =? 6))%Z.

(** Month and day of month of a day of a year that starts on 1 March
    ([doy] in 0..365). *)
Definition month_day_of_doy (doy : Z) : Z * Z :=
  let mp := ((5 * doy + 2) / 153)%Z in
  let d := (doy - (153 * mp + 2) / 5 + 1)%Z in
  let m := (if mp <? 10 then mp + 3 else mp - 9)%Z in
  (m, d).

(** The day of the March-based year of a (month, day): inverse of
    [month_day_of_doy]. *)
Definition doy_of_month_day (m d : Z) : Z :=
  let mp := (if 2 <? m then m - 3 else m + 9)%Z in
  ((153 * mp + 2) / 5 + d - 1)%Z.

(** Year of era, month and day of month of a day of the 400-year era
    that starts on 0000-03-01 ([doe] in 0..146096): centuries of 36524
    days (the fourth has one more), in them groups of four years of
    1461 days, in them years of 365 days (the fourth has one more). *)
Definition civil_of_doe (doe : Z) : Z * Z * Z :=
  let c := Z.min (doe / 36524) 3 in
  let doc := (doe - c * 36524)%Z in
  let q := (doc / 1461)%Z in
  let doq := (doc mod 1461)%Z in
  let yq := Z.min (doq / 365) 3 in
  let doy := (doq - yq * 365)%Z in
  let '(m, d) := month_day_of_doy doy in
  ((c * 100 + q * 4 + yq)%Z, m, d).

(** The proleptic Gregorian (year, month, day) of a day number. *)
Definition civil_from_days (z : Z) : Z * Z * Z :=
  let z' := (z + 719468)%Z in
  let era := (z' / 146097)%Z in
  let doe := (z' mod 146097)%Z in
  let '(yoe, m, d) := civil_of_doe doe in
  ((yoe + era * 400 + (if m <=? 2 then 1 else 0))%Z, m, d).

(** The day of era of (year of era, month, day): inverse of
    [civil_of_doe]. *)
Definition doe_of_civil (yoe m d : Z) : Z :=
  (yoe * 365 + yoe / 4 - yoe / 100 + doy_of_month_day m d)%Z.

(** The day number of a (year, month, day): inverse of
    [civil_from_days]. *)
Definition days_from_civil (ymd : Z * Z * Z) : Z :=
  let '(y, m, d) := ymd in
  let y' := (y - (if m <=? 2 then 1 else 0))%Z in
  let era := (y' / 400)%Z in
  let yoe := (y' mod 400)%Z in
  (era * 146097 + doe_of_civil yoe m d - 719468)%Z.

(** date-fns [addLeadingZeros(n, w)] for a non-negative [n]. *)
Definition addLeadingZeros (n : N) (w : nat) : string :=
  JS.padStart0 (JS.toString n) w.

(** [f] holds of the [n] integers from [z] on. *)
Fixpoint all_from (n : nat) (z : Z) (f : Z -> bool) : bool :=
  match n with
  | O => true
  | S n' => f z && all_from n' (z + 1)%Z f
  end.

(** On a day of the year, [month_day_of_doy] yields a month in 1..12
    and a day in 1..31, and [doy_of_month_day] undoes it. *)
Definition doy_ok (doy : Z) : bool :=
  let '(m, d) := month_day_of_doy doy in
  ((1 <=? m) && (m <=? 12) && (1 <=? d) && (d <=? 31) &&
   (doy_of_month_day m d =? doy))%Z.

(** A number below 100 is rendered on exactly two characters. *)
Definition two_chars_ok (z : Z) : bool :=
  (String.length (addLeadingZeros (Z.to_N z) 2) =? 2)%nat.

(** [format(d, "yyyy-MM-dd")] on a [Date] that is not invalid; [yyyy]
    is the year of the era, so the year 0 is written as 1 and the
    year -1 as 2. *)
Definition format (d : date) : string :=
  let '(signedYear, m, dd) := civil_from_days (dayOf d) in
  let y := (if 0 <? signedYear then signedYear else 1 - signedYear)%Z in
  addLeadingZeros (Z.to_N y) 4 ++ "-" ++
  addLeadingZeros (Z.to_N m) 2 ++ "-" ++
  addLeadingZeros (Z.to_N dd) 2.

End DateFns.

(* ================================================================= *)
(** ** AgendaPage.jsx *)

Module Agenda.
Import DateFns.

(** An appointment of the day, as [GET /appointments] returns it. *)
Record Appointment : Type := mkAppointment {
  a_id : string;
  a_patient_id : string;
  a_data : string;
  a_ora : string;
  a_tipo : string;
  a_prestazioni : list string
}.

(** A closure record, as [GET /closed-slots] returns it: [ora] and
    [tipo] are nullable. *)
Record ClosedSlot : Type := mkClosedSlot {
  cs_id : string;
  cs_data : string;
  cs_ora : JS.value;
  cs_tipo : JS.value;
  cs_motivo : string
}.

(** A patient in care, as [GET /patients] returns it; the names are
    nullable. *)
Record Patient : Type := mkPatient {
  p_id : string;
  p_nome : JS.value;
  p_cognome : JS.value;
  p_tipo : string
}.

(** The [{ ora, tipo }] object kept in [selectedSlot]. *)
Record Slot : Type := mkSlot {
  slot_ora : string;
  slot_tipo : string
}.

(** A notification raised through [toast]. *)
Inductive Toast : Type :=
| ToastError (msg : string)
| ToastSuccess (msg : string).

(** The [useState] cells of the page that the modelled functions read
    or write, and the notifications raised so far. *)
Record State : Type := mkState {
  currentDate : date;
  appointments : list Appointment;
  patients : list Patient;
  holidays : list string;
  closedSlots : list ClosedSlot;
  dialogOpen : bool;
  reopenDialogOpen : bool;
  selectedSlot : option Slot;
  searchQuery : string;
  filteredPatients : list Patient;
  selectedPatient : option Patient;
  selectedPrestazioni : list string;
  toasts : list Toast
}.

(** The [while] loop of [getNextWorkingDay], run for at most [fuel]
    tests of its condition.  On the Invalid Date [isWeekend(d)] is
    false and [format(d, "yyyy-MM-dd")] throws a [RangeError]. *)
Fixpoint getNextWorkingDay_loop (fuel : nat) (d : jsDate) (holidayList : list string)
  : option (JS.Completion date) :=
  match fuel with
  | O => None
  | S fuel' =>
      match d with
      | InvalidDate => Some (JS.Throw "RangeError")
      | DateOf t =>
          if isWeekend t || JS.array_includes holidayList (format t)
          then getNextWorkingDay_loop fuel' (addDays t 1) holidayList
          else Some (JS.Normal t)
      end
  end.

(** [getNextWorkingDay(date, holidayList)] on a [date] that is not
    invalid. *)
Definition getNextWorkingDay (fuel : nat) (date : date) (holidayList : list string)
  : option (JS.Completion DateFns.date) :=
  let d := DateOf date in
  getNextWorkingDay_loop fuel d holidayList.

(** [isHoliday(date)]. *)
Definition isHoliday (st : State) (d : date) : bool :=
  let dateStr := format d in
  isWeekend d || JS.array_includes (holidays st) dateStr.

(** [getAppointmentsForSlot(ora, tipo)]. *)
Definition getAppointmentsForSlot (st : State) (ora tipo : string)
  : list Appointment :=
  filter (fun a => (a_ora a =? ora) && (a_tipo a =? tipo)) (appointments st).

(** The callback shared by [isSlotClosed] and [getClosedSlotInfo]:
    four tests in sequence, the first that holds returns [true]. *)
Definition closureCallback (ora tipo : string) (cs : ClosedSlot) : bool :=
  if negb (JS.truthy (cs_ora cs)) && negb (JS.truthy (cs_tipo cs)) then true
  else if negb (JS.truthy (cs_ora cs)) && JS.strict_eq (cs_tipo cs) tipo then true
  else if JS.strict_eq (cs_ora cs) ora && negb (JS.truthy (cs_tipo cs)) then true
  else if JS.strict_eq (cs_ora cs) ora && JS.strict_eq (cs_tipo cs) tipo then true
  else false.

(** [isSlotClosed(ora, tipo)]: [closedSlots.some(...)]. *)
Definition isSlotClosed (st : State) (ora tipo : string) : bool :=
  existsb (closureCallback ora tipo) (closedSlots st).

(** [getClosedSlotInfo(ora, tipo)]: [closedSlots.find(...)]; [None]
    stands for [undefined]. *)
Definition getClosedSlotInfo (st : State) (ora tipo : string)
  : option ClosedSlot :=
  find (closureCallback ora tipo) (closedSlots st).

(** [isDayClosed()]. *)
Definition isDayClosed (st : State) : bool :=
  existsb (fun cs => negb (JS.truthy (cs_ora cs)) && negb (JS.truthy (cs_tipo cs)))
          (closedSlots st).

Definition set_reopenDialogOpen (b : bool) (st : State) : State :=
  mkState (currentDate st) (appointments st) (patients st) (holidays st)
          (closedSlots st) (dialogOpen st) b (selectedSlot st)
          (searchQuery st) (filteredPatients st) (selectedPatient st)
          (selectedPrestazioni st) (toasts st).

Definition set_dialogOpen (b : bool) (st : State) : State :=
  mkState (currentDate st) (appointments st) (patients st) (holidays st)
          (closedSlots st) b (reopenDialogOpen st) (selectedSlot st)
          (searchQuery st) (filteredPatients st) (selectedPatient st)
          (selectedPrestazioni st) (toasts st).

Definition set_selectedSlot (s : option Slot) (st : State) : State :=
  mkState (currentDate st) (appointments st) (patients st) (holidays st)
          (closedSlots st) (dialogOpen st) (reopenDialogOpen st) s
          (searchQuery st) (filteredPatients st) (selectedPatient st)
          (selectedPrestazioni st) (toasts st).

Definition set_searchQuery (q : string) (st : State) : State :=
  mkState (currentDate st) (appointments st) (patients st) (holidays st)
          (closedSlots st) (dialogOpen st) (reopenDialogOpen st)
          (selectedSlot st) q (filteredPatients st) (selectedPatient st)
          (selectedPrestazioni st) (toasts st).

Definition set_filteredPatients (l : list Patient) (st : State) : State :=
  mkState (currentDate st) (appointments st) (patients st) (holidays st)
          (closedSlots st) (dialogOpen st) (reopenDialogOpen st)
          (selectedSlot st) (searchQuery st) l (selectedPatient st)
          (selectedPrestazioni st) (toasts st).

Definition set_selectedPatient (p : option Patient) (st : State) : State :=
  mkState (currentDate st) (appointments st) (patients st) (holidays st)
          (closedSlots st) (dialogOpen st) (reopenDialogOpen st)
          (selectedSlot st) (searchQuery st) (filteredPatients st) p
          (selectedPrestazioni st) (toasts st).

Definition set_selectedPrestazioni (l : list string) (st : State) : State :=
  mkState (currentDate st) (appointments st) (patients st) (holidays st)
          (closedSlots st) (dialogOpen st) (reopenDialogOpen st)
          (selectedSlot st) (searchQuery st) (filteredPatients st)
          (selectedPatient st) l (toasts st).

Definition set_closedSlots (l : list ClosedSlot) (st : State) : State :=
  mkState (currentDate st) (appointments st) (patients st) (holidays st)
          l (dialogOpen st) (reopenDialogOpen st)
          (selectedSlot st) (searchQuery st) (filteredPatients st)
          (selectedPatient st) (selectedPrestazioni st) (toasts st).

(** [toast.error(msg)]. *)
Definition toast_error (msg : string) (st : State) : State :=
  mkState (currentDate st) (appointments st) (patients st) (holidays st)
          (closedSlots st) (dialogOpen st) (reopenDialogOpen st)
          (selectedSlot st) (searchQuery st) (filteredPatients st)
          (selectedPatient st) (selectedPrestazioni st)
          (toasts st ++ [ToastError msg]).

(** [handleSlotClick(ora, tipo)]. *)
Definition handleSlotClick (st : State) (ora tipo : string) : State :=
  if isHoliday st (currentDate st) then st
  else if isSlotClosed st ora tipo then set_reopenDialogOpen true st
  else
    let existing := getAppointmentsForSlot st ora tipo in
    if (2 <=? List.length existing)%nat then
      toast_error "Slot pieno (max 2 pazienti)" st
    else
      set_dialogOpen true
        (set_selectedPrestazioni []
           (set_selectedPatient None
              (set_searchQuery ""
                 (set_selectedSlot (Some (mkSlot ora tipo)) st)))).

(** [name.toLowerCase().includes(query)] on a nullable name: calling
    [toLowerCase] on [null] or [undefined] throws a [TypeError]. *)
Definition lowerIncludes (name : JS.value) (query : string) : JS.Completion bool :=
  match name with
  | JS.Str s => JS.Normal (JS.includes (JS.toLowerCase s) query)
  | JS.Null | JS.Undefined => JS.Throw "TypeError"
  end.

(** The filter callback of the search effect; [||] does not look at
    the family name when the given name matches. *)
Definition suggestionCallback (searchQuery tipo : string) (p : Patient)
  : JS.Completion bool :=
  let matchesTipo := (p_tipo p =? tipo) || (p_tipo p =? "PICC_MED") in
  match lowerIncludes (p_nome p) (JS.toLowerCase searchQuery) with
  | JS.Throw e => JS.Throw e
  | JS.Normal true => JS.Normal (true && matchesTipo)
  | JS.Normal false =>
      match lowerIncludes (p_cognome p) (JS.toLowerCase searchQuery) with
      | JS.Throw e => JS.Throw e
      | JS.Normal matchesSearch => JS.Normal (matchesSearch && matchesTipo)
      end
  end.

(** [arr.filter(callback)] with a callback that can throw: the first
    throw ends the call. *)
Fixpoint array_filter {A : Type} (callback : A -> JS.Completion bool) (arr : list A)
  : JS.Completion (list A) :=
  match arr with
  | [] => JS.Normal []
  | x :: arr' =>
      match callback x with
      | JS.Throw e => JS.Throw e
      | JS.Normal keep =>
          match array_filter callback arr' with
          | JS.Throw e => JS.Throw e
          | JS.Normal l => JS.Normal (if keep then x :: l else l)
          end
      end
  end.

(** The effect on [searchQuery], [patients] and [selectedSlot] that
    recomputes [filteredPatients]; when the callback throws,
    [setFilteredPatients] is not reached. *)
Definition searchEffect (st : State) : JS.Completion State :=
  match selectedSlot st with
  | Some slot =>
      if (1 <=? String.length (searchQuery st))%nat then
        let tipo := slot_tipo slot in
        match array_filter (suggestionCallback (searchQuery st) tipo) (patients st) with
        | JS.Normal filtered => JS.Normal (set_filteredPatients filtered st)
        | JS.Throw e => JS.Throw e
        end
      else JS.Normal (set_filteredPatients [] st)
  | None => JS.Normal (set_filteredPatients [] st)
  end.

Definition set_currentDate (d : date) (st : State) : State :=
  mkState d (appointments st) (patients st) (holidays st)
          (closedSlots st) (dialogOpen st) (reopenDialogOpen st)
          (selectedSlot st) (searchQuery st) (filteredPatients st)
          (selectedPatient st) (selectedPrestazioni st) (toasts st).

(** [toast.success(msg)]. *)
Definition toast_success (msg : string) (st : State) : State :=
  mkState (currentDate st) (appointments st) (patients st) (holidays st)
          (closedSlots st) (dialogOpen st) (reopenDialogOpen st)
          (selectedSlot st) (searchQuery st) (filteredPatients st)
          (selectedPatient st) (selectedPrestazioni st)
          (toasts st ++ [ToastSuccess msg]).

(** The [while] loop of [goToNextDay], run for at most [fuel] tests of
    its condition. *)
Fixpoint goToNextDay_loop (fuel : nat) (newDate : jsDate) (holidays : list string)
  : option (JS.Completion date) :=
  match fuel with
  | O => None
  | S fuel' =>
      match newDate with
      | InvalidDate => Some (JS.Throw "RangeError")
      | DateOf t =>
          if isWeekend t || JS.array_includes holidays (format t)
          then goToNextDay_loop fuel' (addDays t 1) holidays
          else Some (JS.Normal t)
      end
  end.

(** [goToNextDay()]: when the loop throws, [setCurrentDate] is not
    reached. *)
Definition goToNextDay (fuel : nat) (st : State) : option (JS.Completion State) :=
  let newDate := addDays (currentDate st) 1 in
  match goToNextDay_loop fuel newDate (holidays st) with
  | Some (JS.Normal newDate') => Some (JS.Normal (set_currentDate newDate' st))
  | Some (JS.Throw e) => Some (JS.Throw e)
  | None => None
  end.

(** The updater of [toggleSlotOra(ora)], applied to the previous value
    of [closeSlotOre]. *)
Definition toggleSlotOra (ora : string) (prev : list string) : list string :=
  if JS.array_includes prev ora
  then filter (fun o => negb (o =? ora)) prev
  else prev ++ [ora].

(** The updater of [handlePrestazioneToggle(prestazioneId)], applied to
    the previous value of [selectedPrestazioni]. *)
Definition handlePrestazioneToggle (prestazioneId : string) (prev : list string)
  : list string :=
  if JS.array_includes prev prestazioneId
  then filter (fun p => negb (p =? prestazioneId)) prev
  else prev ++ [prestazioneId].

(** The updater of [handleEditPrestazioneToggle(prestazioneId)], applied
    to the previous value of [editPrestazioni]. *)
Definition handleEditPrestazioneToggle (prestazioneId : string) (prev : list string)
  : list string :=
  if JS.array_includes prev prestazioneId
  then filter (fun p => negb (p =? prestazioneId)) prev
  else prev ++ [prestazioneId].

(** [handlePatientSelect(patient)]. *)
Definition handlePatientSelect (patient : Patient) (st : State) : State :=
  let st1 := set_selectedPatient (Some patient) st in
  let st2 := set_searchQuery (JS.template (p_cognome patient) ++ " "
                              ++ JS.template (p_nome patient)) st1 in
  let st3 := set_filteredPatients [] st2 in
  let slotIsPicc :=
    match selectedSlot st with
    | Some slot => slot_tipo slot =? "PICC"
    | None => false
    end in
  if slotIsPicc && ((p_tipo patient =? "PICC") || (p_tipo patient =? "PICC_MED"))
  then set_selectedPrestazioni ["medicazione_semplice"; "irrigazione_catetere"] st3
  else st3.

(** The body of [POST /appointments]. *)
Record AppointmentBody : Type := mkAppointmentBody {
  ab_patient_id : string;
  ab_ambulatorio : string;
  ab_data : string;
  ab_ora : string;
  ab_tipo : string;
  ab_prestazioni : list string
}.

(** The [ora] key of the payload of [POST /closed-slots]: [null], one
    hour, or the array of the selected hours. *)
Inductive OraField : Type :=
| OraNull
| OraOne (ora : string)
| OraMany (ore : list string).

(** The payload of [POST /closed-slots]. *)
Record ClosePayload : Type := mkClosePayload {
  cp_data : string;
  cp_ambulatorio : string;
  cp_motivo : string;
  cp_ora : OraField;
  cp_tipo : JS.value
}.

(** The requests the handlers send, in order; [FetchData] is the call
    of [fetchData()]. *)
Inductive Request : Type :=
| PostAppointment (body : AppointmentBody)
| PostClosedSlot (payload : ClosePayload)
| FetchData.

(** The outcome of an awaited [apiClient.post]: resolved, with the
    [created] counter of [response.data] when there is one, or
    rejected with the [detail] of the error response. *)
Inductive PostResult : Type :=
| PostResolved (created : option N)
| PostRejected (detail : JS.value).

(** [handleAddAppointment()]; [api] answers the request it may send.
    Reading [selectedSlot.ora] of a null slot throws inside the [try],
    and the [catch] reports the error without a server detail. *)
Definition handleAddAppointment (ambulatorio : string)
           (api : AppointmentBody -> PostResult) (st : State)
  : State * list Request :=
  match selectedPatient st with
  | None => (toast_error "Seleziona un paziente" st, [])
  | Some patient =>
      if (List.length (selectedPrestazioni st) =? 0)%nat then
        (toast_error "Seleziona almeno una prestazione" st, [])
      else
        match selectedSlot st with
        | None => (toast_error (JS.or_else JS.Undefined "Errore nell'aggiunta") st, [])
        | Some slot =>
            let body :=
              mkAppointmentBody (p_id patient) ambulatorio
                                (format (currentDate st))
                                (slot_ora slot) (slot_tipo slot)
                                (selectedPrestazioni st) in
            match api body with
            | PostResolved _ =>
                (set_dialogOpen false (toast_success "Appuntamento aggiunto" st),
                 [PostAppointment body; FetchData])
            | PostRejected detail =>
                (toast_error (JS.or_else detail "Errore nell'aggiunta") st,
                 [PostAppointment body])
            end
        end
  end.

(** The [disabled] attribute of the button that calls
    [handleAddAppointment]. *)
Definition addButtonDisabled (st : State) : bool :=
  match selectedPatient st with
  | None => true
  | Some _ => (List.length (selectedPrestazioni st) =? 0)%nat
  end.

(** The [useState] cells of the dialog that closes the agenda. *)
Record CloseForm : Type := mkCloseForm {
  closeAgendaDialogOpen : bool;
  closeMode : string;
  closeSlotOre : list string;
  closeSlotTipo : string;
  closeMotivo : string
}.

(** [resetCloseForm()]. *)
Definition resetCloseForm (f : CloseForm) : CloseForm :=
  mkCloseForm (closeAgendaDialogOpen f) "slot" [] "both" "".

Definition set_closeAgendaDialogOpen (b : bool) (f : CloseForm) : CloseForm :=
  mkCloseForm b (closeMode f) (closeSlotOre f) (closeSlotTipo f) (closeMotivo f).

(** [handleCloseAgenda()]; [api] answers the request it may send. *)
Definition handleCloseAgenda (ambulatorio : string)
           (api : ClosePayload -> PostResult) (st : State) (f : CloseForm)
  : State * CloseForm * list Request :=
  let dateStr := format (currentDate st) in
  let motivo := JS.or_else (JS.Str (closeMotivo f)) "Chiuso" in
  let send (ora : OraField) (tipo : JS.value) :=
    let payload := mkClosePayload dateStr ambulatorio motivo ora tipo in
    match api payload with
    | PostResolved created =>
        let count :=
          match created with
          | Some n => if (n =? 0)%N then 1%N else n
          | None => 1%N
          end in
        (toast_success (if closeMode f =? "day" then "Giornata chiusa"
                        else JS.toString count ++ " slot chiusi") st,
         resetCloseForm (set_closeAgendaDialogOpen false f),
         [PostClosedSlot payload; FetchData])
    | PostRejected detail =>
        (toast_error (JS.or_else detail "Errore nella chiusura") st, f,
         [PostClosedSlot payload])
    end in
  if closeMode f =? "day" then send OraNull JS.Null
  else
    match closeSlotOre f with
    | [] => (toast_error "Seleziona almeno un orario" st, f, [])
    | [ora] =>
        send (OraOne ora)
             (if closeSlotTipo f =? "both" then JS.Null else JS.Str (closeSlotTipo f))
    | ore =>
        send (OraMany ore)
             (if closeSlotTipo f =? "both" then JS.Null else JS.Str (closeSlotTipo f))
    end.

(** The [disabled] attribute of the button that calls
    [handleCloseAgenda]. *)
Definition closeButtonDisabled (f : CloseForm) : bool :=
  (closeMode f =? "slot") && (List.length (closeSlotOre f) =? 0)%nat.

(** The [disabled] attribute ([isClosed]) of the button of an hour in
    the dialog that closes the agenda. *)
Definition hourButtonDisabled (st : State) (f : CloseForm) (ora : string) : bool :=
  isSlotClosed st ora (if closeSlotTipo f =? "both" then "PICC" else closeSlotTipo f).

(** The [onClick] of a cell of the grid. *)
Definition slotOnClick (st : State) (ora tipo : string) : State :=
  let holidayToday := isHoliday st (currentDate st) in
  if negb holidayToday then handleSlotClick st ora tipo else st.

(** Whether a cell of the grid shows the hint that a patient can be
    added: a closed cell shows only its closure; an open one shows the
    hint when the day is a working day and fewer than two appointments
    are in it. *)
Definition showsAddHint (st : State) (ora tipo : string) : bool :=
  let holidayToday := isHoliday st (currentDate st) in
  if isSlotClosed st ora tipo then false
  else negb holidayToday &&
       (List.length (getAppointmentsForSlot st ora tipo) <? 2)%nat.

End Agenda.

(* ================================================================= *)
(** ** The patient roster page *)

Module Pazienti.

(** A patient of the roster; the page reads [nome] and [cognome]
    through [?.], so they are nullable here. *)
Record Patient : Type := mkPatient {
  p_id : string;
  p_nome : JS.value;
  p_cognome : JS.value;
  p_tipo : JS.value
}.

(** The [allPatients] object: one list per lifecycle status. *)
Record AllPatients : Type := mkAllPatients {
  in_cura : list Patient;
  dimesso : list Patient;
  sospeso : list Patient
}.

(** The body of [PUT /patients/{id}]: [status] is always present, the
    other keys only when the handler adds them. *)
Record StatusUpdate : Type := mkStatusUpdate {
  su_status : string;
  su_discharge_reason : option string;
  su_discharge_notes : option string;
  su_suspend_notes : option string
}.

(** The body of [PUT /patients/batch/status]. *)
Record BatchStatusUpdate : Type := mkBatchStatusUpdate {
  bsu_patient_ids : list string;
  bsu_status : string;
  bsu_discharge_reason : string;
  bsu_discharge_notes : string;
  bsu_suspend_notes : string
}.

Inductive Body : Type :=
| SingleBody (b : StatusUpdate)
| BatchBody (b : BatchStatusUpdate).

(** The outcome of an awaited [apiClient.put]: the promise resolves
    with the counters of [response.data], or rejects. *)
Inductive Response : Type :=
| Resolved (updated errors : N)
| Rejected.

(** What a handler does to the outside, in order. *)
Inductive Event : Type :=
| ToastError (msg : string)
| ToastSuccess (msg : string)
| ToastWarning (msg : string)
| Put (url : string) (body : Body)
| FetchAllPatients.

(** The [useState] cells of the page that the modelled code reads or
    writes; [selectedPatients] is the [Set] of selected ids in
    insertion order. *)
Record State : Type := mkState {
  allPatients : AllPatients;
  searchQuery : string;
  activeTab : string;
  typeFilter : string;
  statusDialogOpen : bool;
  batchStatusDialogOpen : bool;
  selectedPatientForStatus : option Patient;
  newStatus : string;
  statusReason : string;
  statusNotes : string;
  selectionMode : bool;
  selectedPatients : list string
}.

(** [allPatients[activeTab]]. *)
Definition tab_lookup (all : AllPatients) (tab : string) : option (list Patient) :=
  if tab =? "in_cura" then Some (in_cura all)
  else if tab =? "dimesso" then Some (dimesso all)
  else if tab =? "sospeso" then Some (sospeso all)
  else None.

(** [v?.toLowerCase().includes(query)]; a nullish [v] short-circuits
    the chain to [undefined], which is falsy. *)
Definition lower_includes (v : JS.value) (query : string) : bool :=
  match v with
  | JS.Str s => JS.includes (JS.toLowerCase s) query
  | JS.Null | JS.Undefined => false
  end.

(** The callback of [filteredPatients]. *)
Definition rosterCallback (searchQuery typeFilter : string) (p : Patient) : bool :=
  if JS.truthy (JS.Str searchQuery) &&
     (let query := JS.toLowerCase searchQuery in
      negb (lower_includes (p_nome p) query) &&
      negb (lower_includes (p_cognome p) query))
  then false
  else if negb (typeFilter =? "all") then
    if (typeFilter =? "PICC") && negb (JS.strict_eq (p_tipo p) "PICC")
       && negb (JS.strict_eq (p_tipo p) "PICC_MED") then false
    else if (typeFilter =? "MED") && negb (JS.strict_eq (p_tipo p) "MED")
            && negb (JS.strict_eq (p_tipo p) "PICC_MED") then false
    else if (typeFilter =? "PICC_MED")
            && negb (JS.strict_eq (p_tipo p) "PICC_MED") then false
    else true
  else true.

(** [filteredPatients]: [allPatients[activeTab]?.filter(...) || []]. *)
Definition filteredPatients (st : State) : list Patient :=
  match tab_lookup (allPatients st) (activeTab st) with
  | Some l => filter (rosterCallback (searchQuery st) (typeFilter st)) l
  | None => []
  end.

(** [statusLabels[newStatus]] inside a template string. *)
Definition statusLabel (labels : list (string * string)) (status : string) : string :=
  match find (fun kv => fst kv =? status) labels with
  | Some kv => snd kv
  | None => "undefined"
  end.

Definition set_statusDialogOpen (b : bool) (st : State) : State :=
  mkState (allPatients st) (searchQuery st) (activeTab st) (typeFilter st)
          b (batchStatusDialogOpen st) (selectedPatientForStatus st)
          (newStatus st) (statusReason st) (statusNotes st)
          (selectionMode st) (selectedPatients st).

(** The three updates that close a batch operation. *)
Definition close_batch (st : State) : State :=
  mkState (allPatients st) (searchQuery st) (activeTab st) (typeFilter st)
          (statusDialogOpen st) false (selectedPatientForStatus st)
          (newStatus st) (statusReason st) (statusNotes st)
          false [].

(** [handleStatusChange()]; [api] answers the request it may send. *)
Definition handleStatusChange (api : string -> Body -> Response) (st : State)
  : State * list Event :=
  match selectedPatientForStatus st with
  | None => (st, [])
  | Some patient =>
      if (newStatus st =? "dimesso") && negb (JS.truthy (JS.Str (statusReason st))) then
        (st, [ToastError "Seleziona una motivazione per la dimissione"])
      else if (newStatus st =? "sospeso") && negb (JS.truthy (JS.Str (statusNotes st))) then
        (st, [ToastError "Inserisci una nota per la sospensione"])
      else if (newStatus st =? "dimesso") && (statusReason st =? "altro")
              && negb (JS.truthy (JS.Str (statusNotes st))) then
        (st, [ToastError "Inserisci una nota per specificare il motivo"])
      else
        let updateData :=
          if newStatus st =? "dimesso" then
            mkStatusUpdate (newStatus st) (Some (statusReason st))
                           (Some (statusNotes st)) None
          else if newStatus st =? "sospeso" then
            mkStatusUpdate (newStatus st) None None (Some (statusNotes st))
          else mkStatusUpdate (newStatus st) None None None in
        let url := "/patients/" ++ p_id patient in
        match api url (SingleBody updateData) with
        | Resolved _ _ =>
            let statusLabels :=
              [("in_cura", "ripreso in cura"); ("dimesso", "dimesso");
               ("sospeso", "sospeso")] in
            (set_statusDialogOpen false st,
             [Put url (SingleBody updateData);
              ToastSuccess ("Paziente " ++ statusLabel statusLabels (newStatus st));
              FetchAllPatients])
        | Rejected =>
            (st, [Put url (SingleBody updateData);
                  ToastError "Errore nel cambio stato"])
        end
  end.

(** [handleBatchStatusChange()]. *)
Definition handleBatchStatusChange (api : string -> Body -> Response) (st : State)
  : State * list Event :=
  if (List.length (selectedPatients st) =? 0)%nat then (st, [])
  else if (newStatus st =? "dimesso") && negb (JS.truthy (JS.Str (statusReason st))) then
    (st, [ToastError "Seleziona una motivazione per la dimissione"])
  else if (newStatus st =? "sospeso") && negb (JS.truthy (JS.Str (statusNotes st))) then
    (st, [ToastError "Inserisci una nota per la sospensione"])
  else
    let url := "/patients/batch/status" in
    let body :=
      BatchBody (mkBatchStatusUpdate (selectedPatients st) (newStatus st)
                   (statusReason st) (statusNotes st) (statusNotes st)) in
    match api url body with
    | Resolved updated errors =>
        let statusLabels :=
          [("in_cura", "ripresi in cura"); ("dimesso", "dimessi");
           ("sospeso", "sospesi")] in
        (close_batch st,
         ([Put url body;
           ToastSuccess (JS.toString updated ++ " pazienti "
                         ++ statusLabel statusLabels (newStatus st))]
          ++ (if (0 <? errors)%N
              then [ToastWarning (JS.toString errors ++ " pazienti non processati")]
              else [])
          ++ [FetchAllPatients])%list)
    | Rejected =>
        (st, [Put url body; ToastError "Errore nel cambio stato"])
    end.

Definition set_typeFilter (f : string) (st : State) : State :=
  mkState (allPatients st) (searchQuery st) (activeTab st) f
          (statusDialogOpen st) (batchStatusDialogOpen st)
          (selectedPatientForStatus st) (newStatus st) (statusReason st)
          (statusNotes st) (selectionMode st) (selectedPatients st).

Definition set_selectedPatients (sel : list string) (st : State) : State :=
  mkState (allPatients st) (searchQuery st) (activeTab st) (typeFilter st)
          (statusDialogOpen st) (batchStatusDialogOpen st)
          (selectedPatientForStatus st) (newStatus st) (statusReason st)
          (statusNotes st) (selectionMode st) sel.

(** The object [getCounts()] returns. *)
Record Counts : Type := mkCounts {
  c_in_cura : nat;
  c_dimesso : nat;
  c_sospeso : nat;
  c_picc_in_cura : nat;
  c_med_in_cura : nat
}.

(** [getCounts()]. *)
Definition getCounts (st : State) : Counts :=
  let all := allPatients st in
  mkCounts
    (List.length (in_cura all))
    (List.length (dimesso all))
    (List.length (sospeso all))
    (List.length (filter (fun p => JS.strict_eq (p_tipo p) "PICC"
                                   || JS.strict_eq (p_tipo p) "PICC_MED")
                         (in_cura all)))
    (List.length (filter (fun p => JS.strict_eq (p_tipo p) "MED"
                                   || JS.strict_eq (p_tipo p) "PICC_MED")
                         (in_cura all))).

(** The [onClick] of the counter card "PICC in cura". *)
Definition piccCardClick (st : State) : State :=
  set_typeFilter (if typeFilter st =? "PICC" then "all" else "PICC") st.

(** The [onClick] of the counter card "MED in cura". *)
Definition medCardClick (st : State) : State :=
  set_typeFilter (if typeFilter st =? "MED" then "all" else "MED") st.

(** A JavaScript [Set] of strings, as the list of its elements in
    insertion order: [s.has(x)]. *)
Definition set_has (s : list string) (x : string) : bool :=
  JS.array_includes s x.

(** [s.add(x)]. *)
Definition set_add (s : list string) (x : string) : list string :=
  if set_has s x then s else s ++ [x].

(** [s.delete(x)]. *)
Definition set_delete (s : list string) (x : string) : list string :=
  filter (fun y => negb (y =? x)) s.

(** [new Set(arr)]. *)
Definition set_of_array (arr : list string) : list string :=
  fold_left set_add arr [].

(** [togglePatientSelection(patientId, e)]. *)
Definition togglePatientSelection (patientId : string) (st : State) : State :=
  let newSelected := selectedPatients st in
  let newSelected' :=
    if set_has newSelected patientId
    then set_delete newSelected patientId
    else set_add newSelected patientId in
  set_selectedPatients newSelected' st.

(** [selectAllFiltered()]. *)
Definition selectAllFiltered (st : State) : State :=
  let newSelected := set_of_array (map p_id (filteredPatients st)) in
  set_selectedPatients newSelected st.

(** [deselectAll()]. *)
Definition deselectAll (st : State) : State :=
  set_selectedPatients [] st.

(** [getSelectedPatientNames()]. *)
Definition getSelectedPatientNames (st : State) : list string :=
  let selected :=
    filter (fun p => set_has (selectedPatients st) (p_id p)) (filteredPatients st) in
  map (fun p => JS.template (p_cognome p) ++ " " ++ JS.template (p_nome p)) selected.

(** [openStatusDialog(patient, targetStatus, e)]. *)
Definition openStatusDialog (patient : Patient) (targetStatus : string) (st : State)
  : State :=
  mkState (allPatients st) (searchQuery st) (activeTab st) (typeFilter st)
          true (batchStatusDialogOpen st) (Some patient) targetStatus "" ""
          (selectionMode st) (selectedPatients st).

(** [openBatchStatusDialog(action)]; the [batchAction] cell, which is
    not among the cells of [State], is threaded beside it. *)
Definition openBatchStatusDialog (action : string) (st : State)
           (batchAction : option string)
  : State * option string * list Event :=
  if (List.length (selectedPatients st) =? 0)%nat then
    (st, batchAction, [ToastWarning "Seleziona almeno un paziente"])
  else
    (mkState (allPatients st) (searchQuery st) (activeTab st) (typeFilter st)
             (statusDialogOpen st) true (selectedPatientForStatus st)
             (if action =? "suspend" then "sospeso"
              else if action =? "resume" then "in_cura" else "dimesso")
             "" "" (selectionMode st) (selectedPatients st),
     Some action, []).

(** An entry of the menu [getStatusActions] builds; [icon] names the
    component. *)
Record StatusAction : Type := mkStatusAction {
  sa_label : string;
  sa_icon : string;
  sa_status : string;
  sa_color : string
}.

(** [getStatusActions(patient)], on the [status] field it reads. *)
Definition getStatusActions (currentStatus : JS.value) : list StatusAction :=
  let actions : list StatusAction := [] in
  let actions :=
    if negb (JS.strict_eq currentStatus "in_cura")
    then (actions ++ [mkStatusAction "Riprendi in Cura" "Play" "in_cura"
                                     "text-green-600"])%list
    else actions in
  let actions :=
    if negb (JS.strict_eq currentStatus "sospeso")
    then (actions ++ [mkStatusAction "Sospendi" "Pause" "sospeso"
                                     "text-orange-600"])%list
    else actions in
  let actions :=
    if negb (JS.strict_eq currentStatus "dimesso")
    then (actions ++ [mkStatusAction "Dimetti" "UserX" "dimesso"
                                     "text-slate-600"])%list
    else actions in
  actions.

(** A row of the form that creates several patients. *)
Record BatchRow : Type := mkBatchRow {
  br_nome : string;
  br_cognome : string;
  br_tipo : string;
  br_tipo_impianto : string;
  br_data_inserimento_impianto : string
}.

(** A patient of the body of [POST /patients/batch]; the two implant
    keys are present only when the row has them. *)
Record NewPatient : Type := mkNewPatient {
  np_nome : string;
  np_cognome : string;
  np_tipo : string;
  np_ambulatorio : string;
  np_tipo_impianto : option string;
  np_data_inserimento_impianto : option string
}.

(** The outcome of the awaited [POST /patients/batch]. *)
Inductive BatchResult : Type :=
| BatchResolved (created impianti_created errors : N)
| BatchRejected (detail : JS.value).

(** What [handleBatchCreate] does to the outside, in order. *)
Inductive BatchEffect : Type :=
| Notify (e : Event)
| PostPatientsBatch (patients : list NewPatient).

(** The empty row of the form. *)
Definition emptyBatchRow : BatchRow := mkBatchRow "" "" "" "" "".

(** The callback of [validPatients]. *)
Definition rowComplete (p : BatchRow) : bool :=
  JS.truthy (JS.Str (br_nome p)) && JS.truthy (JS.Str (br_cognome p))
  && JS.truthy (JS.Str (br_tipo p)).

(** The object built for a row of [validPatients]. *)
Definition newPatientOfRow (ambulatorio : string) (p : BatchRow) : NewPatient :=
  mkNewPatient (br_nome p) (br_cognome p) (br_tipo p) ambulatorio
    (if JS.truthy (JS.Str (br_tipo_impianto p))
     then Some (br_tipo_impianto p) else None)
    (if JS.truthy (JS.Str (br_data_inserimento_impianto p))
     then Some (br_data_inserimento_impianto p) else None).

(** The [msg] that [handleBatchCreate] builds when patients were
    created. *)
Definition createdMessage (created impianti_created : N) : string :=
  let msg := JS.toString created ++ " pazienti creati con successo" in
  if (0 <? impianti_created)%N
  then msg ++ ", " ++ JS.toString impianti_created ++ " schede impianto create"
  else msg.

(** [handleBatchCreate()], on the cells [batchDialogOpen] and
    [batchPatients]; [api] answers the request it may send. *)
Definition handleBatchCreate (ambulatorio : string)
           (api : list NewPatient -> BatchResult)
           (batchDialogOpen : bool) (batchPatients : list BatchRow)
  : bool * list BatchRow * list BatchEffect :=
  let validPatients := filter rowComplete batchPatients in
  if (List.length validPatients =? 0)%nat then
    (batchDialogOpen, batchPatients,
     [Notify (ToastError "Inserisci almeno un paziente completo")])
  else
    let body := map (newPatientOfRow ambulatorio) validPatients in
    match api body with
    | BatchResolved created impianti_created errors =>
        (false, [emptyBatchRow],
         ([PostPatientsBatch body]
          ++ (if (0 <? created)%N
              then [Notify (ToastSuccess (createdMessage created impianti_created))]
              else [])
          ++ (if (0 <? errors)%N
              then [Notify (ToastWarning (JS.toString errors ++ " pazienti non creati"))]
              else [])
          ++ [Notify FetchAllPatients])%list)
    | BatchRejected detail =>
        (batchDialogOpen, batchPatients,
         [PostPatientsBatch body;
          Notify (ToastError (JS.or_else detail "Errore nella creazione"))])
    end.

(** [arr.filter((_, i) => keep(i))], with [i] counted from [start]. *)
Fixpoint filter_by_index {A : Type} (keep : nat -> bool) (start : nat) (arr : list A)
  : list A :=
  match arr with
  | [] => []
  | x :: arr' =>
      if keep start then x :: filter_by_index keep (S start) arr'
      else filter_by_index keep (S start) arr'
  end.

(** [addBatchPatientRow()], on the cell [batchPatients]. *)
Definition addBatchPatientRow (batchPatients : list BatchRow) : list BatchRow :=
  batchPatients ++ [emptyBatchRow].

(** [removeBatchPatientRow(index)], on the cell [batchPatients]. *)
Definition removeBatchPatientRow (index : nat) (batchPatients : list BatchRow)
  : list BatchRow :=
  if (1 <? List.length batchPatients)%nat
  then filter_by_index (fun i => negb (i =? index)%nat) 0 batchPatients
  else batchPatients.

End Pazienti.

(* ================================================================= *)
(** ** The vocabulary of the specification *)

Module Spec.
Import DateFns Agenda.

(** A nullable field is unset when the page's test [!x] holds of it:
    it is [null], [undefined] or the empty string. *)
Definition unset (v : JS.value) : Prop :=
  v = JS.Null \/ v = JS.Undefined \/ v = JS.Str "".

(** The wildcard rule: a record matches (hour, type) when its hour is
    unset or equal to the hour, and its type is unset or equal to the
    type. *)
Definition closure_matches (cs : ClosedSlot) (ora tipo : string) : Prop :=
  (unset (cs_ora cs) \/ cs_ora cs = JS.Str ora) /\
  (unset (cs_tipo cs) \/ cs_tipo cs = JS.Str tipo).

(** Follows the spec's words: [appointmentsForSlot(date, hour, type,
    appointments)] is the exact filter by all three keys. *)
Definition appointmentsForSlot (date ora tipo : string)
           (apps : list Appointment) : list Appointment :=
  filter (fun a => (a_data a =? date) && (a_ora a =? ora) && (a_tipo a =? tipo))
         apps.

(** Modelled from the spec: creating a closure record is done by the
    server ([POST /closed-slots]), which is not part of the client
    source; after the refetch the day's list holds the new record,
    here appended. *)
Definition closeSlot (r : ClosedSlot) (st : State) : State :=
  set_closedSlots (closedSlots st ++ [r]) st.

(** Two closure records are the same record: all fields agree. *)
Definition closedSlot_eqb (a b : ClosedSlot) : bool :=
  (cs_id a =? cs_id b) && (cs_data a =? cs_data b) &&
  JS.value_eqb (cs_ora a) (cs_ora b) && JS.value_eqb (cs_tipo a) (cs_tipo b) &&
  (cs_motivo a =? cs_motivo b).

(** Modelled from the spec: reopening deletes the specific closure
    record; the deletion is done by the server, which is not part of
    the client source.  After the refetch the day's list no longer
    holds that record. *)
Definition removeRecord (r : ClosedSlot) (st : State) : State :=
  set_closedSlots
    (filter (fun cs => negb (closedSlot_eqb cs r)) (closedSlots st)) st.

(** Modelled from the spec: the request the client sends to delete a
    record names it by id ([DELETE /closed-slots/{id}], sent by
    [handleReopenSlot]); after the refetch the day's list no longer
    holds the records with that id. *)
Definition reopenSlot (slotId : string) (st : State) : State :=
  set_closedSlots
    (filter (fun cs => negb (cs_id cs =? slotId)) (closedSlots st)) st.

(** [q] occurs in [s] as a contiguous substring. *)
Definition occurs_in (q s : string) : Prop :=
  exists pre post, s = pre ++ q ++ post.

(** A nullable name matches the text of a search box: it is a string
    whose lower-case form contains the lower-case form of the text. *)
Definition name_matches (v : JS.value) (q : string) : Prop :=
  exists s, v = JS.Str s /\ occurs_in (JS.toLowerCase q) (JS.toLowerCase s).

(** A string of ASCII characters only. *)
Fixpoint is_ascii (s : string) : Prop :=
  match s with
  | EmptyString => True
  | String c s' => (N_of_ascii c < 128)%N /\ is_ascii s'
  end.

(** The small letter of an ASCII capital letter; any other character
    is left as it is. *)
Definition small_letter (c : ascii) : ascii :=
  let n := N_of_ascii c in
  if ((65 <=? n) && (n <=? 90))%N then ascii_of_N (n + 32) else c.

Fixpoint small_letters (s : string) : string :=
  match s with
  | EmptyString => EmptyString
  | String c s' => String (small_letter c) (small_letters s')
  end.

(** Two ASCII strings are equal up to the case of their letters. *)
Definition eq_ci (a b : string) : Prop :=
  small_letters a = small_letters b.

(** [name] contains [q] case-insensitively: some substring of [name]
    equals [q] up to the case of its letters. *)
Definition contains_ci (name q : string) : Prop :=
  exists pre u post, name = pre ++ u ++ post /\ eq_ci u q.

(** A day is non-working when it is a weekend day or its calendar
    date string is in the holiday list. *)
Definition nonWorkingDay (holidayList : list string) (d : date) : Prop :=
  isWeekend d = true \/ In (format d) holidayList.

(** The same time of day, [k] days later. *)
Definition daysLater (d : date) (k : nat) : date :=
  (d + Z.of_nat k * msPerDay)%Z.

(** [r] is the first working day on or after [d]: it is [d] moved by
    some days, it is a working day, and every day passed over is
    not. *)
Definition firstWorkingDayFrom (holidayList : list string) (d r : date) : Prop :=
  exists k, r = daysLater d k /\ ~ nonWorkingDay holidayList r /\
  forall j, j < k -> nonWorkingDay holidayList (daysLater d j).

(** No day from [d] to the last one a [Date] can hold is a working
    day. *)
Definition noWorkingDayFrom (holidayList : list string) (d : date) : Prop :=
  forall k, (daysLater d k <= maxTime)%Z -> nonWorkingDay holidayList (daysLater d k).

(** How many times a day can be added to [d] before the time value
    leaves the range of [Date]. *)
Definition daysLeft (d : date) : nat := Z.to_nat ((maxTime - d) / msPerDay).

(** The time value of 0001-01-01T00:00, the first day of the first
    year that [yyyy] writes as itself. *)
Definition yearOne : date := midnight (-719162).

(** A roster patient matches the search box: the box is empty, or
    the given or the family name matches its text. *)
Definition roster_search_match (q : string) (p : Pazienti.Patient) : Prop :=
  q = "" \/ name_matches (Pazienti.p_nome p) q
         \/ name_matches (Pazienti.p_cognome p) q.

(** The list of the tab shown: one of the three lists of the roster,
    and no patient on any other value of [activeTab]. *)
Definition tab_patients (st : Pazienti.State) : list Pazienti.Patient :=
  if Pazienti.activeTab st =? "in_cura" then Pazienti.in_cura (Pazienti.allPatients st)
  else if Pazienti.activeTab st =? "dimesso" then Pazienti.dimesso (Pazienti.allPatients st)
  else if Pazienti.activeTab st =? "sospeso" then Pazienti.sospeso (Pazienti.allPatients st)
  else [].

(** The metadata a status change requires is missing: a discharge
    without a reason, or a suspension without a note. *)
Definition metadata_missing (st : Pazienti.State) : Prop :=
  (Pazienti.newStatus st = "dimesso" /\ Pazienti.statusReason st = "") \/
  (Pazienti.newStatus st = "sospeso" /\ Pazienti.statusNotes st = "").

(** A handler issued no [PUT]. *)
Definition no_put (evs : list Pazienti.Event) : Prop :=
  forall url body, ~ In (Pazienti.Put url body) evs.

End Spec.

(* ================================================================= *)
(** ** Sample data *)

Module Sample.
Import DateFns Agenda.

(** Wednesday 2025-01-15, nothing booked, nothing closed. *)
Definition day : State :=
  mkState (midnight 20103) [] [] [] [] false false None "" [] None [] [].

Definition with_closures (l : list ClosedSlot) : State :=
  set_closedSlots l day.

Definition with_appointments (l : list Appointment) : State :=
  mkState (midnight 20103) l [] [] [] false false None "" [] None [] [].

Definition whole_day : ClosedSlot :=
  mkClosedSlot "c1" "2025-01-15" JS.Null JS.Null "Chiuso".

Definition picc_only : ClosedSlot :=
  mkClosedSlot "c2" "2025-01-15" JS.Null (JS.Str "PICC") "Chiuso".

Definition nine_only : ClosedSlot :=
  mkClosedSlot "c3" "2025-01-15" (JS.Str "09:00") JS.Null "Chiuso".

Definition nine_picc : ClosedSlot :=
  mkClosedSlot "c4" "2025-01-15" (JS.Str "09:00") (JS.Str "PICC") "Chiuso".

Definition nine_med : ClosedSlot :=
  mkClosedSlot "c5" "2025-01-15" (JS.Str "09:00") (JS.Str "MED") "Chiuso".

(** An appointment of the following day, at 09:00 in the PICC column. *)
Definition apt_next_day : Appointment :=
  mkAppointment "a1" "p1" "2025-01-16" "09:00" "PICC" ["medicazione_semplice"].

Definition apt (id : string) : Appointment :=
  mkAppointment id "p1" "2025-01-15" "09:00" "PICC" ["medicazione_semplice"].

Definition rossi : Patient :=
  mkPatient "p1" (JS.Str "Mario") (JS.Str "Rossi") "PICC".
Definition bianchi : Patient :=
  mkPatient "p2" (JS.Str "Anna") (JS.Str "Bianchi") "MED".
Definition verdi : Patient :=
  mkPatient "p3" (JS.Str "Rosa") (JS.Str "Verdi") "PICC_MED".

Definition nicolo : Patient :=
  mkPatient "p5" (JS.Str "NICOLÒ") (JS.Str "Èrcoli") "PICC".


(** The dialog that closes the agenda, with the given form. *)
Definition close_form (mode : string) (ore : list string) (tipo motivo : string)
  : CloseForm :=
  mkCloseForm true mode ore tipo motivo.

(** A server that accepts every request. *)
Definition accepting_closure (payload : ClosePayload) : PostResult :=
  PostResolved (Some 1%N).

Definition accepting_appointment (body : AppointmentBody) : PostResult :=
  PostResolved None.

(** The booking dialog open on 09:00 PICC with a text in the search
    box. *)
Definition searching (q : string) : State :=
  mkState (midnight 20103) [] [rossi; bianchi; verdi] [] [] true false
          (Some (mkSlot "09:00" "PICC")) q [] None [] [].

End Sample.

Module RosterSample.
Import Pazienti.

Definition rossi : Patient :=
  mkPatient "p1" (JS.Str "Mario") (JS.Str "Rossi") (JS.Str "PICC").

Definition bianchi : Patient :=
  mkPatient "p2" (JS.Str "Anna") (JS.Str "Bianchi") (JS.Str "MED").

Definition verdi : Patient :=
  mkPatient "p3" (JS.Str "Rosa") (JS.Str "Verdi") (JS.Str "PICC_MED").

Definition roster : AllPatients :=
  mkAllPatients [rossi; bianchi; verdi] [] [].

(** The in-care tab with a type filter and an empty search box. *)
Definition filtered_by (typeFilter : string) : State :=
  mkState roster "" "in_cura" typeFilter false false None "" "" "" false [].

(** The status dialog open on [rossi] with the given form. *)
Definition status_form (newStatus reason notes : string) : State :=
  mkState roster "" "in_cura" "all" true false (Some rossi)
          newStatus reason notes false [].

(** The batch dialog open on two selected patients. *)
Definition batch_form (newStatus reason notes : string) : State :=
  mkState roster "" "in_cura" "all" false true None
          newStatus reason notes true ["p1"; "p2"].

(** A server that accepts every update. *)
Definition accepting (url : string) (body : Body) : Response :=
  Resolved 2 0.

(** Rows of the batch form: a complete one, one without a type, and a
    complete one with an implant. *)
Definition row_neri : BatchRow := mkBatchRow "Luca" "Neri" "PICC" "" "".
Definition row_untyped : BatchRow := mkBatchRow "Ada" "Gialli" "" "" "".
Definition row_blu : BatchRow := mkBatchRow "Ugo" "Blu" "PICC" "midline" "2025-01-10".

(** A server that creates one patient and refuses another. *)
Definition creating_one (patients : list NewPatient) : BatchResult :=
  BatchResolved 1 0 1.

End RosterSample.

(* ================================================================= *)
(** ** Facts about the JavaScript primitives *)

Import DateFns Agenda Spec.

Lemma falsy_unset (v : JS.value) : JS.truthy v = false <-> unset v.
Proof.
  unfold unset; destruct v as [| |s]; simpl.
  - intuition.
  - intuition.
  - rewrite negb_false_iff, String.eqb_eq.
    split; [intros ->; auto | intros [H|[H|H]]; congruence].
Qed.

Lemma strict_eq_true (v : JS.value) (s : string) :
  JS.strict_eq v s = true <-> v = JS.Str s.
Proof.
  destruct v as [| |s']; simpl; try (split; congruence).
  rewrite String.eqb_eq; split; congruence.
Qed.

Lemma array_includes_In (arr : list string) (x : string) :
  JS.array_includes arr x = true <-> In x arr.
Proof.
  unfold JS.array_includes; rewrite existsb_exists; split.
  - intros (y & Hy & E); apply String.eqb_eq in E; now subst.
  - intros H; exists x; split; [assumption | apply String.eqb_refl].
Qed.

Lemma startsWith_spec (s q : string) :
  JS.startsWith s q = true <-> exists post, s = q ++ post.
Proof.
  revert s; induction q as [|b q IH]; intros s; simpl.
  - split; [intros _; now exists s | reflexivity].
  - destruct s as [|a s].
    + split; [discriminate | intros (post & E); discriminate].
    + rewrite andb_true_iff, Ascii.eqb_eq, IH; split.
      * intros (-> & post & ->); now exists post.
      * intros (post & E); injection E as -> ->; split; [reflexivity | now exists post].
Qed.

Lemma includes_spec (s q : string) :
  JS.includes s q = true <-> occurs_in q s.
Proof.
  unfold occurs_in; induction s as [|a s IH].
  - simpl; rewrite orb_false_r, startsWith_spec; split.
    + intros (post & E); now exists "", post.
    + intros (pre & post & E); destruct pre; simpl in E.
      * now exists post.
      * discriminate.
  - cbn [JS.includes]; rewrite orb_true_iff, startsWith_spec, IH; split.
    + intros [(post & E) | (pre & post & E)].
      * now exists "", post.
      * exists (String a pre), post; simpl; now rewrite E.
    + intros (pre & post & E); destruct pre as [|c pre]; simpl in E.
      * left; now exists post.
      * right; injection E as _ E; now exists pre, post.
Qed.

(** *** Lower-casing *)

(** Known conversions: ASCII and accented capitals, Greek with the
    final sigma (at the end of a word, not when alone, not before a
    letter across a full stop), the capital I with dot, which becomes
    two code points, letters without case, Cyrillic. *)
Example toLowerCase_known :
  map JS.toLowerCase
    ["Rossi"; "NICOLÒ"; "ÉCOLE"; "ΝΙΚΟΣ"; "Σ"; "ΟΔΟΣ ΣΟΦΟΣ"; "ΑΣ.Σ";
     "İstanbul"; "Straße"; "ДОМ"; "D'ANGELO 2"; ""]
  = ["rossi"; "nicolò"; "école"; "νικος"; "σ"; "οδος σοφος"; "ασ.ς";
     "i̇stanbul"; "straße"; "дом"; "d'angelo 2"; ""].
Proof. vm_compute; reflexivity. Qed.

(** Decoding reads the UTF-8 sequences and keeps ill-formed bytes. *)
Example decode_known :
  JS.decode "aÒΣ€" = [JS.Cp 0x61; JS.Cp 0xD2; JS.Cp 0x3A3; JS.Cp 0x20AC]%N /\
  JS.encode (JS.decode "aÒΣ€") = "aÒΣ€" /\
  JS.decode (String (ascii_of_N 0xC3) "a") = [JS.Raw (ascii_of_N 0xC3); JS.Cp 0x61]%N.
Proof. vm_compute; repeat split. Qed.

Lemma small_letters_app (a b : string) :
  small_letters (a ++ b) = small_letters a ++ small_letters b.
Proof. induction a as [|c a IH]; simpl; [reflexivity | now rewrite IH]. Qed.

Lemma small_letters_split (s a b : string) :
  small_letters s = a ++ b ->
  exists s1 s2, s = s1 ++ s2 /\ small_letters s1 = a /\ small_letters s2 = b.
Proof.
  revert s; induction a as [|c a IH]; intros s E; simpl in E.
  - now exists "", s.
  - destruct s as [|x s]; simpl in E; [discriminate|].
    injection E as Ec E.
    destruct (IH _ E) as (s1 & s2 & -> & <- & <-).
    exists (String x s1), s2; simpl; now rewrite Ec.
Qed.

(** Containment of the strings in small letters is case-insensitive
    containment. *)
Lemma small_letters_contains_ci (name q : string) :
  occurs_in (small_letters q) (small_letters name) <-> contains_ci name q.
Proof.
  unfold occurs_in, contains_ci, eq_ci; split.
  - intros (pre & post & E).
    destruct (small_letters_split _ _ _ E) as (n1 & n23 & -> & <- & E').
    destruct (small_letters_split _ _ _ E') as (n2 & n3 & -> & E2 & <-).
    now exists n1, n2, n3.
  - intros (pre & u & post & -> & E).
    exists (small_letters pre), (small_letters post).
    now rewrite !small_letters_app, E.
Qed.

(** On the 128 ASCII code points the lower-case mapping is one code
    point, the small letter of a capital letter and the code point
    itself otherwise; none of them is the capital sigma. *)
Lemma lower_cp_ascii_table :
  forallb (fun k =>
             let n := N.of_nat k in
             negb (n =? 0x3A3)%N &&
             match JS.lower_cp n with
             | [m] => (m <? 128)%N &&
                      Ascii.eqb (ascii_of_N m) (small_letter (ascii_of_N n))
             | _ => false
             end)
          (seq 0 128) = true.
Proof. vm_cast_no_check (eq_refl true). Qed.

Lemma lower_cp_ascii (c : ascii) :
  (N_of_ascii c < 128)%N ->
  (N_of_ascii c =? 0x3A3)%N = false /\
  exists m, JS.lower_cp (N_of_ascii c) = [m] /\ (m < 128)%N /\
            ascii_of_N m = small_letter c.
Proof.
  intros Hc.
  pose proof (proj1 (forallb_forall _ _) lower_cp_ascii_table
                (N.to_nat (N_of_ascii c))) as H.
  cbv beta zeta in H; rewrite N2Nat.id, ascii_N_embedding in H.
  specialize (H ltac:(apply in_seq; lia)).
  apply andb_true_iff in H as (H1 & H2).
  split; [now apply negb_true_iff in H1|].
  destruct (JS.lower_cp (N_of_ascii c)) as [|m [|]]; try discriminate.
  apply andb_true_iff in H2 as (H2 & H3).
  exists m; split; [reflexivity | split].
  - now apply N.ltb_lt.
  - now apply Ascii.eqb_eq.
Qed.

Lemma decode_ascii_byte (c : ascii) (s : string) :
  (N_of_ascii c < 128)%N ->
  JS.decode (String c s) = JS.Cp (N_of_ascii c) :: JS.decode s.
Proof.
  intros Hc; cbn [JS.decode]; unfold JS.decode_step.
  now rewrite (proj2 (N.ltb_lt _ _) Hc).
Qed.

Lemma encode_cp_ascii (m : N) :
  (m < 128)%N -> JS.encode_cp m = String (ascii_of_N m) "".
Proof.
  intros Hm; unfold JS.encode_cp.
  now rewrite (proj2 (N.ltb_lt _ _) Hm).
Qed.

Lemma lower_elements_ascii (s : string) :
  is_ascii s ->
  forall afterCased,
    JS.encode (JS.lower_elements afterCased (JS.decode s)) = small_letters s.
Proof.
  induction s as [|c s IH]; intros Hs afterCased; [reflexivity|].
  destruct Hs as (Hc & Hs).
  rewrite (decode_ascii_byte c s Hc); cbn [JS.lower_elements].
  destruct (lower_cp_ascii c Hc) as (-> & m & -> & Hm & Em).
  cbn [map app JS.encode]; rewrite (encode_cp_ascii m Hm), Em, IH by assumption.
  reflexivity.
Qed.

(** On ASCII strings [toLowerCase] turns the capital letters into
    small ones and changes nothing else. *)
Lemma toLowerCase_ascii (s : string) :
  is_ascii s -> JS.toLowerCase s = small_letters s.
Proof. intros Hs; now apply lower_elements_ascii. Qed.

(** The test the pages perform, [name.toLowerCase().includes(
    query.toLowerCase())], is case-insensitive containment on ASCII
    strings. *)
Lemma lower_includes_ascii (name q : string) :
  is_ascii name -> is_ascii q ->
  (name_matches (JS.Str name) q <-> contains_ci name q).
Proof.
  intros Hn Hq; unfold name_matches.
  rewrite <- small_letters_contains_ci, <- (toLowerCase_ascii _ Hn),
          <- (toLowerCase_ascii _ Hq).
  split.
  - intros (s & [= <-] & H); exact H.
  - intros H; now exists name.
Qed.

(** *** Lower-casing around a space *)

Lemma space_not_ignorable : JS.in_ranges 32 JS.caseIgnorable = false.
Proof. vm_cast_no_check (eq_refl false). Qed.

Lemma space_not_cased : JS.in_ranges 32 JS.casedLetter = false.
Proof. vm_cast_no_check (eq_refl false). Qed.

Lemma lower_cp_space : JS.lower_cp 32 = [32%N].
Proof. vm_compute; reflexivity. Qed.

Lemma decode_step_space (b : ascii) (l r : list JS.element) :
  JS.decode_step b (l ++ JS.Cp 32 :: r) = (JS.decode_step b l ++ JS.Cp 32 :: r)%list.
Proof.
  unfold JS.decode_step.
  repeat match goal with
         | |- context [if ?c then _ else _] =>
             match c with
             | context [N_of_ascii b] => destruct c
             end
         end; try reflexivity;
    destruct l as [|u1 [|u2 [|u3 l]]]; cbn [app JS.continuation];
    repeat match goal with
           | |- context [match JS.continuation ?u with _ => _ end] =>
               destruct (JS.continuation u)
           | |- context [if ?c then _ else _] => destruct c
           | |- context [match ?x with [] => _ | _ :: _ => _ end] =>
               is_var x; destruct x
           end; reflexivity.
Qed.

Lemma decode_space (a b : string) :
  JS.decode (a ++ String " " b) = (JS.decode a ++ JS.Cp 32 :: JS.decode b)%list.
Proof.
  induction a as [|c a IH]; [reflexivity|].
  cbn [append JS.decode]; rewrite IH; apply decode_step_space.
Qed.

Lemma cased_follows_space (l r : list JS.element) :
  JS.cased_follows (l ++ JS.Cp 32 :: r) = JS.cased_follows l.
Proof.
  induction l as [|[n|b] l IH]; cbn [app JS.cased_follows].
  - now rewrite space_not_ignorable, space_not_cased.
  - now rewrite IH.
  - reflexivity.
Qed.

Lemma lower_elements_space (l r : list JS.element) :
  forall afterCased,
    JS.lower_elements afterCased (l ++ JS.Cp 32 :: r)
    = (JS.lower_elements afterCased l ++ JS.Cp 32 :: JS.lower_elements false r)%list.
Proof.
  induction l as [|[n|b] l IH]; intros afterCased; cbn [app JS.lower_elements].
  - change (32 =? 0x3A3)%N with false; cbv iota.
    now rewrite lower_cp_space, space_not_ignorable, space_not_cased.
  - now rewrite cased_follows_space, IH, app_assoc.
  - now rewrite IH.
Qed.

Lemma encode_app (l r : list JS.element) :
  JS.encode (l ++ r) = JS.encode l ++ JS.encode r.
Proof.
  induction l as [|[n|b] l IH]; cbn [app JS.encode].
  - reflexivity.
  - rewrite IH; generalize (JS.encode_cp n) as s; intros s.
    induction s as [|c s IHs]; simpl; [reflexivity | now rewrite IHs].
  - now rewrite IH.
Qed.

(** A space separates what [toLowerCase] does on its two sides. *)
Lemma toLowerCase_space (a b : string) :
  JS.toLowerCase (a ++ " " ++ b) = JS.toLowerCase a ++ " " ++ JS.toLowerCase b.
Proof.
  unfold JS.toLowerCase; cbn [append].
  now rewrite decode_space, lower_elements_space, encode_app.
Qed.

(* ================================================================= *)
(** ** Closure matching *)

Lemma closureCallback_spec (ora tipo : string) (cs : ClosedSlot) :
  closureCallback ora tipo cs = true <-> closure_matches cs ora tipo.
Proof.
  unfold closureCallback, closure_matches.
  rewrite <- !falsy_unset, <- !strict_eq_true.
  destruct (JS.truthy (cs_ora cs)), (JS.truthy (cs_tipo cs)),
           (JS.strict_eq (cs_ora cs) ora), (JS.strict_eq (cs_tipo cs) tipo);
    simpl; intuition congruence.
Qed.

Lemma closureCallback_false (ora tipo : string) (cs : ClosedSlot) :
  closureCallback ora tipo cs = false <-> ~ closure_matches cs ora tipo.
Proof.
  rewrite <- closureCallback_spec.
  destruct (closureCallback ora tipo cs); intuition congruence.
Qed.

Lemma isSlotClosed_spec (st : State) (ora tipo : string) :
  isSlotClosed st ora tipo = true <->
  exists cs, In cs (closedSlots st) /\ closure_matches cs ora tipo.
Proof.
  unfold isSlotClosed; rewrite existsb_exists.
  split; intros (cs & Hin & H); exists cs; split; trivial;
    now apply closureCallback_spec.
Qed.

Lemma isSlotClosed_false (st : State) (ora tipo : string) :
  isSlotClosed st ora tipo = false <->
  forall cs, In cs (closedSlots st) -> ~ closure_matches cs ora tipo.
Proof.
  split.
  - intros E cs Hin Hm.
    assert (isSlotClosed st ora tipo = true) by (apply isSlotClosed_spec; eauto).
    congruence.
  - intros H; destruct (isSlotClosed st ora tipo) eqn:E; [|reflexivity].
    apply isSlotClosed_spec in E as (cs & Hin & Hm); now apply H in Hm.
Qed.

Lemma unset_not_str (s : string) : s <> "" -> ~ unset (JS.Str s).
Proof. intros Hs [H|[H|H]]; congruence. Qed.

(** C1. [isSlotClosed(ora, tipo)] is true exactly when some record of
    the day's closure list has its hour unset or equal to [ora] and its
    type unset or equal to [tipo].  In particular: a record with both
    fields unset closes every (hour, type); a record with only a type
    closes that type at every hour and, alone, no other type; a record
    with only an hour closes both types at that hour and, alone, no
    other hour. *)
Theorem isSlotClosed_wildcard_rule :
  (forall st ora tipo,
      isSlotClosed st ora tipo = true <->
      exists cs, In cs (closedSlots st) /\
                 (unset (cs_ora cs) \/ cs_ora cs = JS.Str ora) /\
                 (unset (cs_tipo cs) \/ cs_tipo cs = JS.Str tipo)) /\
  (forall st cs, In cs (closedSlots st) ->
      unset (cs_ora cs) -> unset (cs_tipo cs) ->
      forall ora tipo, isSlotClosed st ora tipo = true) /\
  (forall st cs t, In cs (closedSlots st) ->
      unset (cs_ora cs) -> cs_tipo cs = JS.Str t ->
      forall ora, isSlotClosed st ora t = true) /\
  (forall st cs t, closedSlots st = [cs] ->
      unset (cs_ora cs) -> cs_tipo cs = JS.Str t -> t <> "" ->
      forall ora tipo, tipo <> t -> isSlotClosed st ora tipo = false) /\
  (forall st cs h, In cs (closedSlots st) ->
      cs_ora cs = JS.Str h -> unset (cs_tipo cs) ->
      forall tipo, isSlotClosed st h tipo = true) /\
  (forall st cs h, closedSlots st = [cs] ->
      cs_ora cs = JS.Str h -> h <> "" -> unset (cs_tipo cs) ->
      forall ora tipo, ora <> h -> isSlotClosed st ora tipo = false).
Proof.
  split; [exact isSlotClosed_spec|].
  split; [|split; [|split; [|split]]].
  - intros st cs Hin Ho Ht ora tipo.
    apply isSlotClosed_spec; exists cs; unfold closure_matches; auto.
  - intros st cs t Hin Ho Ht ora.
    apply isSlotClosed_spec; exists cs; unfold closure_matches; auto.
  - intros st cs t Hl Ho Ht Hne ora tipo Hd.
    apply isSlotClosed_false; rewrite Hl; intros c [<-|[]] (_ & [Hu|He]).
    + rewrite Ht in Hu; now apply unset_not_str in Hu.
    + congruence.
  - intros st cs h Hin Ho Ht tipo.
    apply isSlotClosed_spec; exists cs; unfold closure_matches; auto.
  - intros st cs h Hl Ho Hne Ht ora tipo Hd.
    apply isSlotClosed_false; rewrite Hl; intros c [<-|[]] ([Hu|He] & _).
    + rewrite Ho in Hu; now apply unset_not_str in Hu.
    + congruence.
Qed.

(** The wildcard rule at the sample records: the type-only record
    closes PICC at 10:30 and leaves MED open. *)
Lemma isSlotClosed_wildcard_rule_witness :
  isSlotClosed (Sample.with_closures [Sample.picc_only]) "10:30" "PICC" = true /\
  isSlotClosed (Sample.with_closures [Sample.picc_only]) "10:30" "MED" = false /\
  isSlotClosed (Sample.with_closures [Sample.whole_day]) "10:30" "MED" = true /\
  isSlotClosed (Sample.with_closures [Sample.nine_only]) "09:00" "MED" = true /\
  isSlotClosed (Sample.with_closures [Sample.nine_only]) "09:30" "MED" = false.
Proof.
  destruct isSlotClosed_wildcard_rule as (_ & Hall & Hty & Hty' & Hho & Hho').
  split; [|split; [|split; [|split]]].
  - apply (Hty _ Sample.picc_only "PICC"); simpl; unfold unset; auto.
  - apply (Hty' _ Sample.picc_only "PICC"); simpl; unfold unset; auto; discriminate.
  - apply (Hall _ Sample.whole_day); simpl; unfold unset; auto.
  - apply (Hho _ Sample.nine_only "09:00"); simpl; unfold unset; auto.
  - apply (Hho' _ Sample.nine_only "09:00"); simpl; unfold unset; auto; discriminate.
Defined.

Lemma find_first_match {A : Type} (f : A -> bool) (l : list A) (x : A) :
  find f l = Some x <->
  exists before after,
    l = (before ++ x :: after)%list /\ f x = true /\
    forall y, In y before -> f y = false.
Proof.
  induction l as [|a l IH]; simpl.
  - split; [discriminate | intros ([|b before] & after & E & _); discriminate].
  - destruct (f a) eqn:Fa.
    + split.
      * intros [= ->]; exists [], l; simpl; intuition.
      * intros ([|b before] & after & E & Fx & Hb); simpl in E.
        -- congruence.
        -- injection E as -> _.
           rewrite (Hb b (or_introl eq_refl)) in Fa; discriminate.
    + rewrite IH; split.
      * intros (before & after & -> & Fx & Hb).
        exists (a :: before), after; simpl; repeat split; trivial.
        intros y [<-|Hy]; auto.
      * intros ([|b before] & after & E & Fx & Hb); simpl in E.
        -- injection E as -> _; congruence.
        -- injection E as _ ->.
           exists before, after; repeat split; trivial.
           intros y Hy; apply Hb; now right.
Qed.

(** C6. [getClosedSlotInfo(ora, tipo)] returns the first record of the
    closure list, in list order, that matches (hour, type) under the
    wildcard rule, and nothing when no record matches; the result
    depends only on the list and the two keys. *)
Theorem getClosedSlotInfo_first_matching_record :
  forall st ora tipo,
    (forall cs,
        getClosedSlotInfo st ora tipo = Some cs <->
        exists before after,
          closedSlots st = (before ++ cs :: after)%list /\
          closure_matches cs ora tipo /\
          forall c, In c before -> ~ closure_matches c ora tipo) /\
    (getClosedSlotInfo st ora tipo = None <->
     forall c, In c (closedSlots st) -> ~ closure_matches c ora tipo) /\
    (forall st', closedSlots st' = closedSlots st ->
                 getClosedSlotInfo st' ora tipo = getClosedSlotInfo st ora tipo).
Proof.
  intros st ora tipo; unfold getClosedSlotInfo.
  split; [|split].
  - intros cs; rewrite find_first_match; split;
      intros (before & after & E & F & Hb); exists before, after;
      (split; [exact E | split]).
    + now apply closureCallback_spec.
    + intros c Hc; apply closureCallback_false; auto.
    + now apply closureCallback_spec.
    + intros c Hc; apply closureCallback_false; auto.
  - split.
    + intros H c Hc; apply closureCallback_false.
      now apply (find_none _ _ H).
    + intros H; destruct (find _ _) as [cs|] eqn:E; [|reflexivity].
      apply find_some in E as (Hin & F).
      apply closureCallback_spec in F; now apply H in F.
  - intros st' ->; reflexivity.
Qed.

(** With the whole-day record after the 09:00 one, the 09:00 record is
    the one reported for 09:00 and the whole-day one for 10:30. *)
Lemma getClosedSlotInfo_first_matching_record_witness :
  getClosedSlotInfo (Sample.with_closures [Sample.nine_picc; Sample.whole_day])
                    "09:00" "PICC" = Some Sample.nine_picc /\
  getClosedSlotInfo (Sample.with_closures [Sample.nine_picc; Sample.whole_day])
                    "10:30" "PICC" = Some Sample.whole_day.
Proof.
  split.
  - apply (proj1 (getClosedSlotInfo_first_matching_record
                    (Sample.with_closures [Sample.nine_picc; Sample.whole_day])
                    "09:00" "PICC")).
    exists [], [Sample.whole_day]; simpl; unfold closure_matches; simpl.
    split; [reflexivity | split; [auto | contradiction]].
  - apply (proj1 (getClosedSlotInfo_first_matching_record
                    (Sample.with_closures [Sample.nine_picc; Sample.whole_day])
                    "10:30" "PICC")).
    exists [Sample.nine_picc], []; simpl; unfold closure_matches, unset; simpl.
    split; [reflexivity | split; [auto|]].
    intros c [<-|[]] ([[H|[H|H]]|H] & _); simpl in H; discriminate.
Defined.

Lemma isSlotClosed_only_closedSlots (st st' : State) (ora tipo : string) :
  closedSlots st' = closedSlots st ->
  isSlotClosed st' ora tipo = isSlotClosed st ora tipo.
Proof. unfold isSlotClosed; now intros ->. Qed.

Lemma value_eqb_eq (v w : JS.value) : JS.value_eqb v w = true <-> v = w.
Proof.
  destruct v as [| |a], w as [| |b]; simpl; try (split; congruence).
  rewrite String.eqb_eq; split; congruence.
Qed.

Lemma closedSlot_eqb_eq (a b : ClosedSlot) : closedSlot_eqb a b = true <-> a = b.
Proof.
  unfold closedSlot_eqb.
  rewrite !andb_true_iff, !String.eqb_eq, !value_eqb_eq.
  destruct a, b; simpl; split; [intros ((((-> & ->) & ->) & ->) & ->) | intros [=]];
    subst; auto.
Qed.

Lemma reopen_after_close (r : ClosedSlot) (st : State) :
  (forall c, In c (closedSlots st) -> cs_id c <> cs_id r) ->
  closedSlots (reopenSlot (cs_id r) (closeSlot r st)) = closedSlots st.
Proof.
  intros Hfresh; unfold reopenSlot, closeSlot; simpl.
  rewrite filter_app; simpl; rewrite String.eqb_refl; simpl.
  rewrite app_nil_r.
  apply forallb_filter_id, forallb_forall; intros c Hc.
  apply negb_true_iff, String.eqb_neq; auto.
Qed.

Lemma remove_after_close (r : ClosedSlot) (st : State) :
  ~ In r (closedSlots st) ->
  closedSlots (removeRecord r (closeSlot r st)) = closedSlots st.
Proof.
  intros Hnew; unfold removeRecord, closeSlot; simpl.
  rewrite filter_app; simpl.
  rewrite (proj2 (closedSlot_eqb_eq r r) eq_refl); simpl.
  rewrite app_nil_r.
  apply forallb_filter_id, forallb_forall; intros c Hc.
  apply negb_true_iff; destruct (closedSlot_eqb c r) eqn:E; [|reflexivity].
  apply closedSlot_eqb_eq in E; subst; contradiction.
Qed.

(** C5. Round trip of a closure: when (hour, type) is open on the list
    of the day, appending a closure record for exactly that hour and
    type closes it, that record is the one [getClosedSlotInfo]
    reports, and removing the record gives back the original list, so
    [isSlotClosed] agrees with the original at every (hour, type): the
    slot is open again and every other closure is as before.  The
    deletion by id that the client requests does the same when no
    other record of the day has the id. *)
Theorem closure_round_trip :
  forall st ora tipo r,
    isSlotClosed st ora tipo = false ->
    cs_ora r = JS.Str ora -> cs_tipo r = JS.Str tipo ->
    isSlotClosed (closeSlot r st) ora tipo = true /\
    getClosedSlotInfo (closeSlot r st) ora tipo = Some r /\
    closedSlots (removeRecord r (closeSlot r st)) = closedSlots st /\
    (forall ora' tipo',
        isSlotClosed (removeRecord r (closeSlot r st)) ora' tipo' =
        isSlotClosed st ora' tipo') /\
    isSlotClosed (removeRecord r (closeSlot r st)) ora tipo = false /\
    ((forall c, In c (closedSlots st) -> cs_id c <> cs_id r) ->
     closedSlots (reopenSlot (cs_id r) (closeSlot r st)) = closedSlots st /\
     forall ora' tipo',
       isSlotClosed (reopenSlot (cs_id r) (closeSlot r st)) ora' tipo' =
       isSlotClosed st ora' tipo').
Proof.
  intros st ora tipo r Hopen Ho Ht.
  assert (Hr : closure_matches r ora tipo) by (unfold closure_matches; auto).
  assert (Hnew : ~ In r (closedSlots st)).
  { intros Hin; now apply (proj1 (isSlotClosed_false st ora tipo) Hopen r). }
  pose proof (remove_after_close r st Hnew) as Hback.
  split; [|split; [|split; [|split; [|split]]]].
  - apply isSlotClosed_spec; exists r; split; [|assumption].
    unfold closeSlot; simpl; apply in_or_app; right; now left.
  - unfold getClosedSlotInfo; apply find_first_match.
    exists (closedSlots st), []; split; [reflexivity | split].
    + now apply closureCallback_spec.
    + intros c Hc; apply closureCallback_false.
      now apply (proj1 (isSlotClosed_false st ora tipo) Hopen).
  - exact Hback.
  - intros; now apply isSlotClosed_only_closedSlots.
  - rewrite <- Hopen; now apply isSlotClosed_only_closedSlots.
  - intros Hfresh; pose proof (reopen_after_close r st Hfresh) as Hid.
    split; [exact Hid | intros; now apply isSlotClosed_only_closedSlots].
Qed.

(** On a day where only PICC is closed as a whole, closing 09:00 for
    MED and reopening it leaves 09:00 MED open. *)
Lemma closure_round_trip_witness :
  isSlotClosed
    (removeRecord Sample.nine_med
       (closeSlot Sample.nine_med (Sample.with_closures [Sample.picc_only])))
    "09:00" "MED" = false.
Proof.
  exact (proj1 (proj2 (proj2 (proj2 (proj2
           (closure_round_trip (Sample.with_closures [Sample.picc_only])
              "09:00" "MED" Sample.nine_med eq_refl eq_refl eq_refl)))))).
Defined.

(* ================================================================= *)
(** ** Appointments of a slot and the booking gate *)

(** C3, as the spec words it, fails: the page's function has no date
    key, so an appointment of another day that is in the list is kept,
    while the filter by all three keys drops it. *)
Lemma getAppointmentsForSlot_ignores_date :
  getAppointmentsForSlot (Sample.with_appointments [Sample.apt_next_day])
                         "09:00" "PICC"
  <> appointmentsForSlot
       (format (currentDate (Sample.with_appointments [Sample.apt_next_day])))
       "09:00" "PICC"
       (appointments (Sample.with_appointments [Sample.apt_next_day])).
Proof. vm_compute; discriminate. Qed.

(** C3, amended. [getAppointmentsForSlot(ora, tipo)] returns, in list
    order, exactly the appointments of the page's list whose hour and
    type equal the keys; the date is not examined.  On a list that
    holds only appointments of one date it coincides with the filter
    by date, hour and type. *)
Theorem getAppointmentsForSlot_filters_hour_and_type :
  forall st ora tipo,
    getAppointmentsForSlot st ora tipo =
      filter (fun a => (a_ora a =? ora) && (a_tipo a =? tipo)) (appointments st) /\
    (forall a, In a (getAppointmentsForSlot st ora tipo) <->
               In a (appointments st) /\ a_ora a = ora /\ a_tipo a = tipo) /\
    (forall date, (forall a, In a (appointments st) -> a_data a = date) ->
       getAppointmentsForSlot st ora tipo =
       appointmentsForSlot date ora tipo (appointments st)).
Proof.
  intros st ora tipo; unfold getAppointmentsForSlot.
  split; [reflexivity | split].
  - intros a; rewrite filter_In, andb_true_iff, !String.eqb_eq; tauto.
  - intros date Hd; unfold appointmentsForSlot.
    apply filter_ext_in; intros a Ha.
    rewrite (Hd a Ha), String.eqb_refl; reflexivity.
Qed.

Lemma getAppointmentsForSlot_filters_hour_and_type_witness :
  getAppointmentsForSlot (Sample.with_appointments [Sample.apt "a1"; Sample.apt "a2"])
                         "09:00" "PICC" =
  appointmentsForSlot "2025-01-15" "09:00" "PICC" [Sample.apt "a1"; Sample.apt "a2"].
Proof.
  apply (getAppointmentsForSlot_filters_hour_and_type
           (Sample.with_appointments [Sample.apt "a1"; Sample.apt "a2"]) "09:00" "PICC").
  intros a [<-|[<-|[]]]; reflexivity.
Defined.

Lemma isHoliday_spec (st : State) (d : date) :
  isHoliday st d = true <-> nonWorkingDay (holidays st) d.
Proof.
  unfold isHoliday, nonWorkingDay.
  now rewrite orb_true_iff, array_includes_In.
Qed.



(* ================================================================= *)
(** ** Patient suggestions in the booking dialog *)

(** On a patient whose names are strings the callback returns, and it
    keeps the patient when a name matches and the type is the slot's
    or PICC_MED. *)
Lemma suggestionCallback_spec (q tipo : string) (p : Patient) (nome cognome : string) :
  p_nome p = JS.Str nome -> p_cognome p = JS.Str cognome ->
  exists keep,
    suggestionCallback q tipo p = JS.Normal keep /\
    (keep = true <->
     (name_matches (p_nome p) q \/ name_matches (p_cognome p) q) /\
     (p_tipo p = tipo \/ p_tipo p = "PICC_MED")).
Proof.
  intros En Ec; unfold suggestionCallback, lowerIncludes, name_matches.
  rewrite En, Ec.
  assert (Hm : forall s, JS.includes (JS.toLowerCase s) (JS.toLowerCase q) = true <->
                         exists s', JS.Str s = JS.Str s' /\
                                    occurs_in (JS.toLowerCase q) (JS.toLowerCase s')).
  { intros s; rewrite includes_spec; split.
    - intros H; now exists s.
    - intros (s' & [= <-] & H); exact H. }
  destruct (JS.includes (JS.toLowerCase nome) _) eqn:In1.
  - eexists; split; [reflexivity|].
    rewrite <- !Hm, In1, andb_true_l, orb_true_iff, !String.eqb_eq; tauto.
  - eexists; split; [reflexivity|].
    rewrite <- !Hm, In1, andb_true_iff, orb_true_iff, !String.eqb_eq.
    intuition discriminate.
Qed.


Lemma array_filter_normal {A : Type} (f : A -> JS.Completion bool) (l : list A) :
  (forall x, In x l -> exists b, f x = JS.Normal b) ->
  array_filter f l
  = JS.Normal (filter (fun x => match f x with
                                | JS.Normal b => b
                                | JS.Throw _ => false
                                end) l).
Proof.
  induction l as [|x l IH]; intros H; [reflexivity|].
  cbn [array_filter filter].
  destruct (H x (or_introl eq_refl)) as (b & ->).
  rewrite IH by (intros y Hy; apply H; now right).
  reflexivity.
Qed.


Lemma array_filter_In {A : Type} (f : A -> JS.Completion bool) (l l' : list A) (x : A) :
  array_filter f l = JS.Normal l' -> In x l' -> In x l /\ f x = JS.Normal true.
Proof.
  revert l'; induction l as [|y l IH]; intros l'; cbn [array_filter].
  - intros [= <-] [].
  - destruct (f y) as [b|e] eqn:Fy; [|discriminate].
    destruct (array_filter f l) as [r|e]; [|discriminate].
    intros [= <-] Hx.
    destruct b; [destruct Hx as [<-|Hx]; [split; [now left | assumption]|]|];
      destruct (IH _ eq_refl Hx); split; auto; now right.
Qed.





(* ================================================================= *)
(** ** The roster filter *)

Lemma lower_includes_spec (v : JS.value) (q : string) :
  Pazienti.lower_includes v (JS.toLowerCase q) = true <-> name_matches v q.
Proof.
  unfold name_matches; destruct v as [| |s]; simpl.
  - split; [discriminate | intros (s & E & _); discriminate].
  - split; [discriminate | intros (s & E & _); discriminate].
  - rewrite includes_spec; split.
    + intros H; now exists s.
    + intros (s' & [= <-] & H); exact H.
Qed.

Lemma roster_search_spec (q : string) (p : Pazienti.Patient) :
  JS.truthy (JS.Str q) &&
  (negb (Pazienti.lower_includes (Pazienti.p_nome p) (JS.toLowerCase q)) &&
   negb (Pazienti.lower_includes (Pazienti.p_cognome p) (JS.toLowerCase q))) = false
  <-> roster_search_match q p.
Proof.
  unfold roster_search_match.
  rewrite <- !lower_includes_spec.
  cbn [JS.truthy]; destruct (String.eqb_spec q ""); cbn [negb andb].
  - intuition.
  - destruct (Pazienti.lower_includes (Pazienti.p_nome p) _),
             (Pazienti.lower_includes (Pazienti.p_cognome p) _);
      simpl; intuition congruence.
Qed.

Lemma rosterCallback_spec (q f : string) (p : Pazienti.Patient) :
  Pazienti.rosterCallback q f p = true <->
  roster_search_match q p /\
  (f = "PICC" -> Pazienti.p_tipo p = JS.Str "PICC" \/
                 Pazienti.p_tipo p = JS.Str "PICC_MED") /\
  (f = "MED" -> Pazienti.p_tipo p = JS.Str "MED" \/
                Pazienti.p_tipo p = JS.Str "PICC_MED") /\
  (f = "PICC_MED" -> Pazienti.p_tipo p = JS.Str "PICC_MED").
Proof.
  unfold Pazienti.rosterCallback.
  rewrite <- roster_search_spec, <- !strict_eq_true.
  destruct (JS.truthy (JS.Str q) && _); [split; [discriminate | intuition discriminate]|].
  destruct (String.eqb_spec f "all") as [->|Hall]; simpl.
  - intuition discriminate.
  - destruct (String.eqb_spec f "PICC") as [->|H1]; simpl.
    + destruct (JS.strict_eq (Pazienti.p_tipo p) "PICC"),
               (JS.strict_eq (Pazienti.p_tipo p) "PICC_MED"); simpl;
        intuition (discriminate || congruence).
    + destruct (String.eqb_spec f "MED") as [->|H2]; simpl.
      * destruct (JS.strict_eq (Pazienti.p_tipo p) "MED"),
                 (JS.strict_eq (Pazienti.p_tipo p) "PICC_MED"); simpl;
          intuition (discriminate || congruence).
      * destruct (String.eqb_spec f "PICC_MED") as [->|H3]; simpl.
        -- destruct (JS.strict_eq (Pazienti.p_tipo p) "PICC_MED"); simpl;
             intuition (discriminate || congruence).
        -- intuition congruence.
Qed.

(** The list [filteredPatients] filters is the one of the tab shown. *)
Lemma filteredPatients_tab (st : Pazienti.State) :
  Pazienti.filteredPatients st =
  filter (Pazienti.rosterCallback (Pazienti.searchQuery st) (Pazienti.typeFilter st))
         (tab_patients st).
Proof.
  unfold Pazienti.filteredPatients, Pazienti.tab_lookup, tab_patients.
  destruct (Pazienti.activeTab st =? "in_cura"); [reflexivity|].
  destruct (Pazienti.activeTab st =? "dimesso"); [reflexivity|].
  destruct (Pazienti.activeTab st =? "sospeso"); reflexivity.
Qed.

(** C10. The type filter of the roster selects by eligibility.  Of the
    patients of the tab shown that match the search box, the filter
    PICC keeps exactly those of type PICC or PICC_MED, the filter MED
    exactly those of type MED or PICC_MED, and the filter PICC_MED
    exactly those of type PICC_MED; the filter "all" keeps them all;
    the order is that of the tab's list.  A patient matches the search
    box when the box is empty or the lower-case form of a name
    contains that of the text, which on ASCII names and texts is
    case-insensitive containment. *)
Theorem filteredPatients_by_eligibility :
  forall st,
    (Pazienti.typeFilter st = "PICC" ->
     forall p, In p (Pazienti.filteredPatients st) <->
               In p (tab_patients st) /\
               roster_search_match (Pazienti.searchQuery st) p /\
               (Pazienti.p_tipo p = JS.Str "PICC" \/
                Pazienti.p_tipo p = JS.Str "PICC_MED")) /\
    (Pazienti.typeFilter st = "MED" ->
     forall p, In p (Pazienti.filteredPatients st) <->
               In p (tab_patients st) /\
               roster_search_match (Pazienti.searchQuery st) p /\
               (Pazienti.p_tipo p = JS.Str "MED" \/
                Pazienti.p_tipo p = JS.Str "PICC_MED")) /\
    (Pazienti.typeFilter st = "PICC_MED" ->
     forall p, In p (Pazienti.filteredPatients st) <->
               In p (tab_patients st) /\
               roster_search_match (Pazienti.searchQuery st) p /\
               Pazienti.p_tipo p = JS.Str "PICC_MED") /\
    (Pazienti.typeFilter st = "all" ->
     forall p, In p (Pazienti.filteredPatients st) <->
               In p (tab_patients st) /\
               roster_search_match (Pazienti.searchQuery st) p) /\
    (exists keep, Pazienti.filteredPatients st = filter keep (tab_patients st)) /\
    (forall name, is_ascii name -> is_ascii (Pazienti.searchQuery st) ->
                  (name_matches (JS.Str name) (Pazienti.searchQuery st) <->
                   contains_ci name (Pazienti.searchQuery st))).
Proof.
  intros st.
  pose proof (filteredPatients_tab st) as E.
  split; [|split; [|split; [|split; [|split]]]];
    [| | | |eexists; exact E|intros name; apply lower_includes_ascii];
    intros Hf p; rewrite E, filter_In, rosterCallback_spec, Hf;
    intuition (discriminate || congruence).
Qed.

(** On the sample roster the filter PICC shows the PICC and the
    PICC_MED patient and hides the MED one. *)
Lemma filteredPatients_by_eligibility_witness :
  In RosterSample.verdi (Pazienti.filteredPatients (RosterSample.filtered_by "PICC")) /\
  ~ In RosterSample.bianchi (Pazienti.filteredPatients (RosterSample.filtered_by "PICC")).
Proof.
  destruct (filteredPatients_by_eligibility (RosterSample.filtered_by "PICC"))
    as (H & _).
  specialize (H eq_refl); split.
  - apply H; simpl; unfold roster_search_match; auto 6.
  - intros Hb; apply H in Hb as (_ & _ & [Hb|Hb]); discriminate Hb.
Defined.

(* ================================================================= *)
(** ** Status-change validation *)

Lemma falsy_str (s : string) : negb (JS.truthy (JS.Str s)) = true <-> s = "".
Proof. simpl; now rewrite negb_involutive, String.eqb_eq. Qed.

Lemma no_put_toast (msg : string) : no_put [Pazienti.ToastError msg].
Proof. intros url body [H|[]]; discriminate. Qed.

Lemma no_put_nil : no_put [].
Proof. intros url body []. Qed.

(** C8. Submitting a status change, for one patient or for a batch,
    with the required metadata missing (a discharge without a reason,
    a suspension without a note) sends no PUT and leaves the state as
    it was; when a patient (a non-empty batch) is the target, the only
    effect is one error notice.  Every PUT the handlers do send carries
    the target status, the discharge reason and notes for a discharge,
    and the suspension note for a suspension; and with the metadata
    present the request is sent (for a single discharge with reason
    "altro" only if the note is given too). *)
Theorem status_change_requires_metadata :
  forall api st,
    (metadata_missing st ->
     no_put (snd (Pazienti.handleStatusChange api st)) /\
     fst (Pazienti.handleStatusChange api st) = st /\
     (Pazienti.selectedPatientForStatus st <> None ->
      exists msg, snd (Pazienti.handleStatusChange api st) = [Pazienti.ToastError msg])) /\
    (metadata_missing st ->
     no_put (snd (Pazienti.handleBatchStatusChange api st)) /\
     fst (Pazienti.handleBatchStatusChange api st) = st /\
     (Pazienti.selectedPatients st <> [] ->
      exists msg, snd (Pazienti.handleBatchStatusChange api st) = [Pazienti.ToastError msg])) /\
    (forall url body,
        In (Pazienti.Put url body) (snd (Pazienti.handleStatusChange api st)) ->
        exists patient b,
          Pazienti.selectedPatientForStatus st = Some patient /\
          url = "/patients/" ++ Pazienti.p_id patient /\
          body = Pazienti.SingleBody b /\
          Pazienti.su_status b = Pazienti.newStatus st /\
          (Pazienti.newStatus st = "dimesso" ->
           Pazienti.su_discharge_reason b = Some (Pazienti.statusReason st) /\
           Pazienti.su_discharge_notes b = Some (Pazienti.statusNotes st)) /\
          (Pazienti.newStatus st = "sospeso" ->
           Pazienti.su_suspend_notes b = Some (Pazienti.statusNotes st))) /\
    (forall url body,
        In (Pazienti.Put url body) (snd (Pazienti.handleBatchStatusChange api st)) ->
        exists b,
          url = "/patients/batch/status" /\
          body = Pazienti.BatchBody b /\
          Pazienti.bsu_patient_ids b = Pazienti.selectedPatients st /\
          Pazienti.bsu_status b = Pazienti.newStatus st /\
          Pazienti.bsu_discharge_reason b = Pazienti.statusReason st /\
          Pazienti.bsu_discharge_notes b = Pazienti.statusNotes st /\
          Pazienti.bsu_suspend_notes b = Pazienti.statusNotes st) /\
    (forall patient,
        Pazienti.selectedPatientForStatus st = Some patient ->
        ~ metadata_missing st ->
        ~ (Pazienti.newStatus st = "dimesso" /\ Pazienti.statusReason st = "altro" /\
           Pazienti.statusNotes st = "") ->
        exists body rest,
          snd (Pazienti.handleStatusChange api st) =
          Pazienti.Put ("/patients/" ++ Pazienti.p_id patient) body :: rest) /\
    (Pazienti.selectedPatients st <> [] ->
     ~ metadata_missing st ->
     exists body rest,
       snd (Pazienti.handleBatchStatusChange api st) =
       Pazienti.Put "/patients/batch/status" body :: rest).
Proof.
  intros api st; unfold metadata_missing.
  split; [|split; [|split; [|split; [|split]]]].
  - intros Hm; unfold Pazienti.handleStatusChange.
    destruct (Pazienti.selectedPatientForStatus st) as [patient|].
    2:{ split; [apply no_put_nil | split; [reflexivity | congruence]]. }
    destruct Hm as [(Hs & Hr) | (Hs & Hn)].
    + rewrite Hs, Hr; simpl.
      split; [apply no_put_toast | split; [reflexivity | eauto]].
    + rewrite Hs, Hn; simpl.
      split; [apply no_put_toast | split; [reflexivity | eauto]].
  - intros Hm; unfold Pazienti.handleBatchStatusChange.
    destruct (Pazienti.selectedPatients st) as [|i ids]; simpl.
    { split; [apply no_put_nil | split; [reflexivity | congruence]]. }
    destruct Hm as [(Hs & Hr) | (Hs & Hn)].
    + rewrite Hs, Hr; simpl.
      split; [apply no_put_toast | split; [reflexivity | eauto]].
    + rewrite Hs, Hn; simpl.
      split; [apply no_put_toast | split; [reflexivity | eauto]].
  - intros url body; unfold Pazienti.handleStatusChange.
    destruct (Pazienti.selectedPatientForStatus st) as [patient|]; [|intros []].
    destruct (String.eqb_spec (Pazienti.newStatus st) "dimesso") as [Hd|Hd];
      destruct (String.eqb_spec (Pazienti.newStatus st) "sospeso") as [Hs|Hs];
      destruct (negb (JS.truthy (JS.Str (Pazienti.statusReason st))));
      destruct (negb (JS.truthy (JS.Str (Pazienti.statusNotes st))));
      destruct (Pazienti.statusReason st =? "altro");
      cbn [andb snd]; try (intros [H|[]]; discriminate H);
      (destruct (api _ _); cbn [snd];
       (intros [H|[H|[H|[]]]] || intros [H|[H|[]]]); try discriminate H;
       injection H as <- <-; exists patient; eexists;
       (split; [reflexivity | split; [reflexivity | split; [reflexivity|]]]);
       cbn; (split; [reflexivity | split; intros; [try split|]; congruence])).
  - intros url body; unfold Pazienti.handleBatchStatusChange.
    destruct (List.length (Pazienti.selectedPatients st) =? 0)%nat; [intros []|].
    destruct ((Pazienti.newStatus st =? "dimesso") && _);
      [intros [H|[]]; discriminate H|].
    destruct ((Pazienti.newStatus st =? "sospeso") && _);
      [intros [H|[]]; discriminate H|].
    destruct (api _ _) as [updated errors|]; cbn [snd app].
    + intros [H|[H|H]]; try discriminate H.
      * injection H as <- <-; eexists; repeat split.
      * apply in_app_or in H as [H|[H|[]]]; [|discriminate H].
        destruct (0 <? errors)%N; [destruct H as [H|[]]; discriminate H | destruct H].
    + intros [H|[H|[]]]; try discriminate H.
      injection H as <- <-; eexists; repeat split.
  - intros patient Hp Hm Ha; unfold Pazienti.handleStatusChange, JS.truthy; rewrite Hp.
    destruct (String.eqb_spec (Pazienti.newStatus st) "dimesso") as [Hd|Hd];
      destruct (String.eqb_spec (Pazienti.newStatus st) "sospeso") as [Hs|Hs];
      destruct (String.eqb_spec (Pazienti.statusReason st) "") as [Hr|Hr];
      destruct (String.eqb_spec (Pazienti.statusNotes st) "") as [Hn|Hn];
      destruct (String.eqb_spec (Pazienti.statusReason st) "altro") as [Hal|Hal];
      simpl; try (exfalso; tauto); try congruence;
      destruct (api _ _); simpl; eauto.
  - intros Hne Hm; unfold Pazienti.handleBatchStatusChange.
    destruct (Pazienti.selectedPatients st) as [|i ids] eqn:Hsel; [congruence|].
    cbn [List.length Nat.eqb]; unfold JS.truthy.
    destruct (String.eqb_spec (Pazienti.newStatus st) "dimesso") as [Hd|Hd];
      destruct (String.eqb_spec (Pazienti.newStatus st) "sospeso") as [Hs|Hs];
      destruct (String.eqb_spec (Pazienti.statusReason st) "") as [Hr|Hr];
      destruct (String.eqb_spec (Pazienti.statusNotes st) "") as [Hn|Hn];
      simpl; try (exfalso; tauto); try congruence;
      destruct (api _ _); simpl; eauto.
Qed.

(** A discharge without a reason sends nothing, for one patient and
    for a batch; a suspension with its note is sent. *)
Lemma status_change_requires_metadata_witness :
  no_put (snd (Pazienti.handleStatusChange RosterSample.accepting
                 (RosterSample.status_form "dimesso" "" ""))) /\
  no_put (snd (Pazienti.handleBatchStatusChange RosterSample.accepting
                 (RosterSample.batch_form "dimesso" "" ""))) /\
  exists body rest,
    snd (Pazienti.handleStatusChange RosterSample.accepting
           (RosterSample.status_form "sospeso" "" "ferie")) =
    Pazienti.Put "/patients/p1" body :: rest.
Proof.
  split; [|split].
  - apply (status_change_requires_metadata RosterSample.accepting
             (RosterSample.status_form "dimesso" "" "")).
    left; split; reflexivity.
  - apply (status_change_requires_metadata RosterSample.accepting
             (RosterSample.batch_form "dimesso" "" "")).
    left; split; reflexivity.
  - apply (proj1 (proj2 (proj2 (proj2 (proj2
             (status_change_requires_metadata RosterSample.accepting
                (RosterSample.status_form "sospeso" "" "ferie")))))) RosterSample.rossi).
    + reflexivity.
    + intros [(H & _)|(_ & H)]; discriminate H.
    + intros (H & _); discriminate H.
Defined.

(* ================================================================= *)
(** ** Calendar facts *)

Lemma all_from_spec (f : Z -> bool) (n : nat) (z : Z) :
  all_from n z f = true ->
  forall x, (z <= x < z + Z.of_nat n)%Z -> f x = true.
Proof.
  revert z; induction n as [|n IH]; intros z H x Hx; [lia|].
  simpl in H; apply andb_true_iff in H as (Hz & H).
  destruct (Z.eq_dec x z) as [->|Hne]; [assumption|].
  apply (IH _ H); lia.
Qed.

Lemma doy_ok_year : all_from (Z.to_nat 366) 0 doy_ok = true.
Proof. vm_cast_no_check (eq_refl true). Qed.

Lemma two_chars_ok_hundred : all_from (Z.to_nat 100) 0 two_chars_ok = true.
Proof. vm_cast_no_check (eq_refl true). Qed.

Lemma doy_ok_all (doy : Z) : (0 <= doy < 366)%Z -> doy_ok doy = true.
Proof.
  intros H; apply (all_from_spec doy_ok (Z.to_nat 366) 0 doy_ok_year).
  rewrite Z2Nat.id; lia.
Qed.

Lemma two_chars_ok_all (z : Z) : (0 <= z < 100)%Z -> two_chars_ok z = true.
Proof.
  intros H; apply (all_from_spec two_chars_ok (Z.to_nat 100) 0 two_chars_ok_hundred).
  rewrite Z2Nat.id; lia.
Qed.

Ltac Zify.zify_post_hook ::= Z.to_euclidean_division_equations.

Lemma month_day_of_doy_range (doy m d : Z) :
  (0 <= doy < 366)%Z -> month_day_of_doy doy = (m, d) ->
  (1 <= m <= 12 /\ 1 <= d <= 31)%Z /\ doy_of_month_day m d = doy.
Proof.
  intros Hr E; pose proof (doy_ok_all doy Hr) as H.
  unfold doy_ok in H; rewrite E in H.
  repeat (apply andb_true_iff in H as (H & ?)).
  rewrite ?Z.leb_le, ?Z.ltb_lt, ?Z.eqb_eq in *; lia.
Qed.

Lemma civil_of_doe_range (doe yoe m d : Z) :
  (0 <= doe < 146097)%Z -> civil_of_doe doe = (yoe, m, d) ->
  (0 <= yoe < 400 /\ 1 <= m <= 12 /\ 1 <= d <= 31)%Z /\
  doe_of_civil yoe m d = doe.
Proof.
  unfold civil_of_doe, doe_of_civil; intros Hr.
  set (c := Z.min (doe / 36524) 3).
  set (doc := (doe - c * 36524)%Z).
  set (q := (doc / 1461)%Z).
  set (doq := (doc mod 1461)%Z).
  set (yq := Z.min (doq / 365) 3).
  set (doy := (doq - yq * 365)%Z).
  assert (Hc : (0 <= c <= 3)%Z) by (subst c; lia).
  assert (Hdoc : (0 <= doc <= 36524)%Z) by (subst doc c; lia).
  assert (Hq : (0 <= q <= 24)%Z) by (subst q; lia).
  assert (Hdoq : (0 <= doq <= 1460 /\ doc = q * 1461 + doq)%Z) by (subst doq q; lia).
  assert (Hyq : (0 <= yq <= 3)%Z) by (subst yq; lia).
  assert (Hdoy : (0 <= doy < 366)%Z) by (subst doy yq; lia).
  destruct (month_day_of_doy doy) as [m' d'] eqn:E.
  destruct (month_day_of_doy_range _ _ _ Hdoy E) as (Hmd & Hinv).
  intros [= <- <- <-]; rewrite Hinv.
  split; [lia|].
  replace ((c * 100 + q * 4 + yq) / 4)%Z with (c * 25 + q)%Z by lia.
  replace ((c * 100 + q * 4 + yq) / 100)%Z with c by lia.
  subst doy doc; lia.
Qed.

(** [days_from_civil] undoes [civil_from_days], so distinct days have
    distinct calendar dates. *)
Lemma days_from_civil_inverse (z : Z) : days_from_civil (civil_from_days z) = z.
Proof.
  unfold civil_from_days.
  assert (Hr : (0 <= (z + 719468) mod 146097 < 146097)%Z)
    by (apply Z.mod_pos_bound; lia).
  destruct (civil_of_doe ((z + 719468) mod 146097)) as [[yoe m] d] eqn:E.
  destruct (civil_of_doe_range _ _ _ _ Hr E) as ((Hy & Hm & Hd) & Hinv).
  unfold days_from_civil.
  set (era := ((z + 719468) / 146097)%Z) in *.
  assert (Ey : (yoe + era * 400 + (if m <=? 2 then 1 else 0)
                - (if m <=? 2 then 1 else 0) = yoe + era * 400)%Z)
    by (destruct (m <=? 2)%Z; lia).
  rewrite Ey.
  replace ((yoe + era * 400) / 400)%Z with era by lia.
  replace ((yoe + era * 400) mod 400)%Z with yoe by lia.
  rewrite Hinv; subst era; lia.
Qed.

(** From 0001-01-01 on the year is positive. *)
Lemma civil_from_days_range (z y m d : Z) :
  (-719162 <= z)%Z -> civil_from_days z = (y, m, d) ->
  (1 <= y /\ 1 <= m <= 12 /\ 1 <= d <= 31)%Z.
Proof.
  unfold civil_from_days; intros Hz E.
  assert (Hr : (0 <= (z + 719468) mod 146097 < 146097)%Z)
    by (apply Z.mod_pos_bound; lia).
  destruct (civil_of_doe ((z + 719468) mod 146097)) as [[yoe m'] d'] eqn:E'.
  destruct (civil_of_doe_range _ _ _ _ Hr E') as ((Hy & Hm & Hd) & Hinv).
  injection E as <- <- <-.
  unfold doe_of_civil, doy_of_month_day in Hinv.
  destruct (m' <=? 2)%Z eqn:M; destruct (2 <? m')%Z eqn:M'; lia.
Qed.

(** Known dates: the epoch, a leap day and the day after, the turn of
    a century that is not a leap year, the first five-digit year, the
    last day a [Date] can hold, and the days around the start of the
    year 1, where the year 0 is written as 1. *)
Example format_known_dates :
  map format (map midnight
    [0; 19782; 19783; 20103; 47540; 47541; 2932896; 2932897; 100000000;
     -1; -719162; -719163; -719528]%Z) =
  ["1970-01-01"; "2024-02-29"; "2024-03-01"; "2025-01-15";
   "2100-02-28"; "2100-03-01"; "9999-12-31"; "10000-01-01"; "275760-09-13";
   "1969-12-31"; "0001-01-01"; "0001-12-31"; "0001-01-01"].
Proof. vm_compute; reflexivity. Qed.

(** The time of day does not change the day. *)
Example format_time_of_day :
  format (midnight 20103 + 86399999)%Z = "2025-01-15" /\
  format (midnight 20103 - 1)%Z = "2025-01-14".
Proof. vm_compute; split; reflexivity. Qed.

(** Wednesday 2025-01-15 and the Saturday, Sunday and Monday after it;
    the last day a [Date] can hold is a Saturday. *)
Example isWeekend_known_days :
  map isWeekend (map midnight [20103; 20106; 20107; 20108; 100000000]%Z)
  = [false; true; true; false; true].
Proof. reflexivity. Qed.

(** Adding a day to the last [Date] makes the Invalid Date. *)
Example addDays_known :
  addDays (midnight 20103) 1 = DateOf (midnight 20104) /\
  addDays maxTime 1 = InvalidDate /\
  addDays (maxTime - 1)%Z 1 = InvalidDate /\
  addDays (maxTime - msPerDay)%Z 1 = DateOf maxTime.
Proof. repeat split. Qed.

(** *** Rendering of numbers *)

Lemma string_length_app (a b : string) :
  String.length (a ++ b) = String.length a + String.length b.
Proof. induction a as [|c a IH]; simpl; [reflexivity | now rewrite IH]. Qed.

Lemma string_app_inj_head (a1 a2 b1 b2 : string) :
  String.length a1 = String.length a2 -> a1 ++ b1 = a2 ++ b2 ->
  a1 = a2 /\ b1 = b2.
Proof.
  revert a2; induction a1 as [|c a1 IH]; intros [|c2 a2]; simpl;
    try discriminate; [tauto|].
  intros [= Hl] [= -> E].
  destruct (IH _ Hl E) as (-> & ->); tauto.
Qed.

Lemma string_app_inj_tail (a1 a2 b1 b2 : string) :
  String.length b1 = String.length b2 -> a1 ++ b1 = a2 ++ b2 ->
  a1 = a2 /\ b1 = b2.
Proof.
  intros Hl E; apply string_app_inj_head; [|assumption].
  apply (f_equal String.length) in E.
  rewrite !string_length_app in E; lia.
Qed.

Lemma parseDecimal_zeros (k : nat) (s : string) (n : N) :
  JS.parseDecimal s = Some n -> JS.parseDecimal (JS.zeros k ++ s) = Some n.
Proof.
  unfold JS.parseDecimal; intros H; induction k as [|k IH]; [assumption|].
  cbn [JS.zeros append NilEmpty.uint_of_string].
  destruct (NilEmpty.uint_of_string (JS.zeros k ++ s)) as [u|]; [|discriminate].
  exact IH.
Qed.

Lemma parseDecimal_addLeadingZeros (n : N) (w : nat) :
  JS.parseDecimal (addLeadingZeros n w) = Some n.
Proof.
  unfold addLeadingZeros, JS.padStart0; apply parseDecimal_zeros.
  unfold JS.parseDecimal, JS.toString.
  rewrite NilEmpty.usu; simpl; now rewrite Unsigned.of_to.
Qed.

Lemma addLeadingZeros_inj (a b : N) (w : nat) :
  addLeadingZeros a w = addLeadingZeros b w -> a = b.
Proof.
  intros E; apply (f_equal JS.parseDecimal) in E.
  rewrite !parseDecimal_addLeadingZeros in E; congruence.
Qed.

Lemma addLeadingZeros_two (z : Z) :
  (0 <= z < 100)%Z -> String.length (addLeadingZeros (Z.to_N z) 2) = 2.
Proof.
  intros H; apply two_chars_ok_all in H.
  now apply Nat.eqb_eq in H.
Qed.

(** [format(d, "yyyy-MM-dd")] tells apart the days from 0001-01-01 on. *)
Lemma format_inj (a b : date) :
  (yearOne <= a)%Z -> (yearOne <= b)%Z -> format a = format b -> dayOf a = dayOf b.
Proof.
  unfold format; intros Ha Hb E.
  assert (Da : (-719162 <= dayOf a)%Z)
    by (unfold dayOf, yearOne, midnight, msPerDay in *; lia).
  assert (Db : (-719162 <= dayOf b)%Z)
    by (unfold dayOf, yearOne, midnight, msPerDay in *; lia).
  destruct (civil_from_days (dayOf a)) as [[ya ma] da] eqn:Ea.
  destruct (civil_from_days (dayOf b)) as [[yb mb] db] eqn:Eb.
  destruct (civil_from_days_range _ _ _ _ Da Ea) as (Hya & Hma & Hda).
  destruct (civil_from_days_range _ _ _ _ Db Eb) as (Hyb & Hmb & Hdb).
  replace (0 <? ya)%Z with true in E by (symmetry; apply Z.ltb_lt; lia).
  replace (0 <? yb)%Z with true in E by (symmetry; apply Z.ltb_lt; lia).
  pose proof (addLeadingZeros_two ma ltac:(lia)) as Lma.
  pose proof (addLeadingZeros_two mb ltac:(lia)) as Lmb.
  pose proof (addLeadingZeros_two da ltac:(lia)) as Lda.
  pose proof (addLeadingZeros_two db ltac:(lia)) as Ldb.
  apply string_app_inj_tail in E as (Ey & E);
    [|cbn [append String.length]; rewrite !string_length_app;
      cbn [append String.length]; lia].
  cbn [append] in E; injection E as E.
  apply string_app_inj_head in E as (Em & E); [|lia].
  cbn [append] in E; injection E as Ed.
  apply addLeadingZeros_inj in Ey, Em, Ed.
  assert (Ec : civil_from_days (dayOf a) = civil_from_days (dayOf b)).
  { rewrite Ea, Eb; repeat f_equal; lia. }
  apply (f_equal days_from_civil) in Ec.
  now rewrite !days_from_civil_inverse in Ec.
Qed.

(** *** Working days *)

Lemma dayOf_daysLater (d : date) (k : nat) :
  dayOf (daysLater d k) = (dayOf d + Z.of_nat k)%Z.
Proof. unfold dayOf, daysLater, msPerDay; lia. Qed.

Lemma daysLater_0 (d : date) : daysLater d 0 = d.
Proof. unfold daysLater; lia. Qed.

Lemma daysLater_add (d : date) (j k : nat) :
  daysLater (daysLater d j) k = daysLater d (j + k).
Proof. unfold daysLater; lia. Qed.

Lemma daysLater_S (d : date) (k : nat) :
  daysLater (d + msPerDay)%Z k = daysLater d (S k).
Proof. unfold daysLater; lia. Qed.

Lemma daysLater_le (d : date) (j k : nat) :
  j <= k -> (daysLater d j <= daysLater d k)%Z.
Proof. unfold daysLater, msPerDay; lia. Qed.

Lemma isWeekend_week (d : date) (i : nat) :
  isWeekend (daysLater d (7 * i)) = isWeekend d.
Proof.
  unfold isWeekend, getDay; rewrite dayOf_daysLater.
  replace ((dayOf d + Z.of_nat (7 * i) + 4) mod 7)%Z with ((dayOf d + 4) mod 7)%Z by lia.
  reflexivity.
Qed.

Lemma weekday_within_three (d : date) :
  exists k, k < 3 /\ isWeekend (daysLater d k) = false.
Proof.
  unfold isWeekend, getDay.
  destruct (Z.eq_dec ((dayOf d + 4) mod 7) 6) as [H6|H6];
    [|destruct (Z.eq_dec ((dayOf d + 4) mod 7) 0) as [H0|H0]].
  - exists 2; split; [lia|]; rewrite dayOf_daysLater.
    apply orb_false_iff; split; apply Z.eqb_neq; lia.
  - exists 1; split; [lia|]; rewrite dayOf_daysLater.
    apply orb_false_iff; split; apply Z.eqb_neq; lia.
  - exists 0; split; [lia|]; rewrite daysLater_0.
    apply orb_false_iff; split; now apply Z.eqb_neq.
Qed.

Lemma forallb_false_exists {A : Type} (f : A -> bool) (l : list A) :
  forallb f l = false -> exists x, In x l /\ f x = false.
Proof.
  induction l as [|a l IH]; simpl; [discriminate|].
  destruct (f a) eqn:Fa; simpl.
  - intros H; destruct (IH H) as (x & Hx & Fx); eauto.
  - intros _; eauto.
Qed.

(** From the year 1 on, a finite holiday list cannot cover the same
    weekday of more weeks than it has entries. *)
Lemma weekday_off_the_list (holidayList : list string) (d : date) :
  (yearOne <= d)%Z -> isWeekend d = false ->
  exists i, i <= List.length holidayList /\
            ~ nonWorkingDay holidayList (daysLater d (7 * i)).
Proof.
  intros Hy Hd.
  set (n := List.length holidayList).
  set (day_of := fun i : nat => daysLater d (7 * i)).
  set (cands := map day_of (seq 0 (S n))).
  assert (Hlater : forall i, (yearOne <= day_of i)%Z).
  { intros i; pose proof (daysLater_le d 0 (7 * i) ltac:(lia)) as H.
    rewrite daysLater_0 in H; unfold day_of; lia. }
  assert (Hinj : Injective (fun i => format (day_of i))).
  { intros i j E; apply format_inj in E; [|apply Hlater..].
    unfold day_of in E; rewrite !dayOf_daysLater in E; lia. }
  destruct (forallb (fun c => JS.array_includes holidayList (format c)) cands) eqn:E.
  - exfalso.
    assert (Hincl : incl (map format cands) holidayList).
    { intros s Hs; apply in_map_iff in Hs as (c & <- & Hc).
      apply array_includes_In.
      exact (proj1 (forallb_forall _ _) E c Hc). }
    assert (Hnd : NoDup (map format cands)).
    { unfold cands; rewrite map_map.
      apply Injective_map_NoDup; [exact Hinj | apply seq_NoDup]. }
    pose proof (NoDup_incl_length Hnd Hincl) as Hlen.
    unfold cands in Hlen; rewrite !length_map, length_seq in Hlen.
    fold n in Hlen; lia.
  - apply forallb_false_exists in E as (c & Hc & Fc).
    apply in_map_iff in Hc as (i & <- & Hi); apply in_seq in Hi.
    exists i; split; [lia|].
    intros [Hw|Hh].
    + unfold day_of in Hw; rewrite isWeekend_week in Hw; congruence.
    + apply array_includes_In in Hh; unfold day_of in Fc; congruence.
Qed.

(** From the year 1 on, whatever the holiday list, a working day comes
    within [7 * length + 2] days. *)
Lemma working_day_ahead (holidayList : list string) (d : date) :
  (yearOne <= d)%Z ->
  exists k, k <= 7 * List.length holidayList + 2 /\
            ~ nonWorkingDay holidayList (daysLater d k).
Proof.
  intros Hy.
  destruct (weekday_within_three d) as (k & Hk & Hw).
  assert (Hyk : (yearOne <= daysLater d k)%Z).
  { pose proof (daysLater_le d 0 k ltac:(lia)) as H.
    rewrite daysLater_0 in H; lia. }
  destruct (weekday_off_the_list holidayList _ Hyk Hw) as (i & Hi & Hnw).
  exists (k + 7 * i); split; [lia|].
  now rewrite <- daysLater_add.
Qed.

Lemma loop_condition_spec (holidayList : list string) (d : date) :
  isWeekend d || JS.array_includes holidayList (format d) = true <->
  nonWorkingDay holidayList d.
Proof.
  unfold nonWorkingDay; now rewrite orb_true_iff, array_includes_In.
Qed.

Lemma addDays_one (d : date) : addDays d 1 = timeClip (d + msPerDay).
Proof. reflexivity. Qed.

Lemma timeClip_valid (t : Z) : validTime t -> timeClip t = DateOf t.
Proof.
  unfold validTime, timeClip; intros H.
  destruct (Z.leb_spec (Z.abs t) maxTime); [reflexivity | lia].
Qed.

Lemma timeClip_beyond (t : Z) : (maxTime < t)%Z -> timeClip t = InvalidDate.
Proof.
  unfold timeClip; intros H.
  destruct (Z.leb_spec (Z.abs t) maxTime); [lia | reflexivity].
Qed.

Lemma timeClip_cases (t : Z) :
  (timeClip t = DateOf t /\ validTime t) \/
  (timeClip t = InvalidDate /\ ~ validTime t).
Proof.
  unfold validTime, timeClip.
  destruct (Z.leb_spec (Z.abs t) maxTime); [left | right]; split; auto; lia.
Qed.

Lemma loop_invalid (holidayList : list string) (fuel : nat) :
  getNextWorkingDay_loop (S fuel) InvalidDate holidayList = Some (JS.Throw "RangeError").
Proof. reflexivity. Qed.

Lemma firstWorkingDayFrom_unique (holidayList : list string) (d r1 r2 : date) :
  firstWorkingDayFrom holidayList d r1 ->
  firstWorkingDayFrom holidayList d r2 -> r1 = r2.
Proof.
  intros (k1 & -> & W1 & M1) (k2 & -> & W2 & M2).
  destruct (Nat.lt_trichotomy k1 k2) as [H|[H|H]]; [|now subst|].
  - exfalso; apply W1, M2; lia.
  - exfalso; apply W2, M1; lia.
Qed.

(** Whenever the loop returns a date, it is the first working day. *)
Lemma getNextWorkingDay_sound (holidayList : list string) (fuel : nat) :
  forall d r, getNextWorkingDay_loop fuel (DateOf d) holidayList = Some (JS.Normal r) ->
              firstWorkingDayFrom holidayList d r.
Proof.
  induction fuel as [|fuel IH]; intros d r; simpl; [discriminate|].
  destruct (isWeekend d || JS.array_includes holidayList (format d)) eqn:C.
  - apply loop_condition_spec in C.
    rewrite addDays_one.
    destruct (timeClip_cases (d + msPerDay)) as [(-> & _)|(-> & _)].
    + intros H; apply IH in H as (k & -> & W & M).
      exists (S k); split; [apply daysLater_S | split].
      * exact W.
      * intros [|j] Hj; [now rewrite daysLater_0|].
        rewrite <- daysLater_S; apply M; lia.
    + destruct fuel; simpl; discriminate.
  - intros [= <-]; exists 0; split; [now rewrite daysLater_0 | split].
    + intros H; apply loop_condition_spec in H; congruence.
    + intros j Hj; lia.
Qed.

(** Whenever the loop throws, it throws the [RangeError] of [format]
    on the Invalid Date, having found no working day up to the last
    [Date]. *)
Lemma getNextWorkingDay_throws (holidayList : list string) (fuel : nat) :
  forall d e, validTime d ->
    getNextWorkingDay_loop fuel (DateOf d) holidayList = Some (JS.Throw e) ->
    e = "RangeError" /\ noWorkingDayFrom holidayList d.
Proof.
  induction fuel as [|fuel IH]; intros d e Hv; simpl; [discriminate|].
  destruct (isWeekend d || JS.array_includes holidayList (format d)) eqn:C;
    [|discriminate].
  apply loop_condition_spec in C.
  rewrite addDays_one.
  destruct (timeClip_cases (d + msPerDay)) as [(-> & Hv')|(-> & Hv')].
  - intros H; apply (IH _ _ Hv') in H as (-> & M).
    split; [reflexivity|].
    intros [|k] Hk; [now rewrite daysLater_0|].
    rewrite <- daysLater_S in *; now apply M.
  - destruct fuel; simpl; [discriminate|].
    intros [= <-]; split; [reflexivity|].
    intros [|k] Hk; [now rewrite daysLater_0|].
    exfalso; apply Hv'.
    pose proof (daysLater_le d 1 (S k) ltac:(lia)) as Hle.
    unfold validTime, daysLater, msPerDay in *; lia.
Qed.

(** A longer run of the loop has the same outcome. *)
Lemma getNextWorkingDay_loop_more (holidayList : list string) (fuel : nat) :
  forall d o fuel', getNextWorkingDay_loop fuel d holidayList = Some o ->
    fuel <= fuel' -> getNextWorkingDay_loop fuel' d holidayList = Some o.
Proof.
  induction fuel as [|fuel IH]; intros d o [|fuel'] H Hle;
    try discriminate; try lia.
  simpl in *; destruct d as [t|]; [|assumption].
  destruct (isWeekend t || _); [|assumption].
  apply IH; [assumption | lia].
Qed.

(** The loop ends before the time value leaves the range of [Date]. *)
Lemma getNextWorkingDay_ends (holidayList : list string) (n : nat) :
  forall d fuel, validTime d -> daysLeft d <= n -> n + 1 < fuel ->
    exists o, getNextWorkingDay_loop fuel (DateOf d) holidayList = Some o.
Proof.
  induction n as [|n IH]; intros d [|fuel] Hv Hn Hf; try lia;
    cbn [getNextWorkingDay_loop];
    (destruct (isWeekend d || _); [|eauto]);
    rewrite addDays_one;
    (destruct (timeClip_cases (d + msPerDay)) as [(-> & Hv')|(-> & Hv')];
     [|destruct fuel; [lia | simpl; eauto]]).
  - exfalso; unfold daysLeft, validTime, msPerDay, maxTime in *; lia.
  - apply IH; [assumption| |lia].
    unfold daysLeft, validTime, msPerDay, maxTime in *; lia.
Qed.

(** With a working day [k] days ahead, [k + 1] tests of the loop
    condition are enough. *)
Lemma getNextWorkingDay_complete (holidayList : list string) (k : nat) :
  forall d fuel,
    validTime d -> (daysLater d k <= maxTime)%Z ->
    ~ nonWorkingDay holidayList (daysLater d k) -> k < fuel ->
    exists r, getNextWorkingDay_loop fuel (DateOf d) holidayList = Some (JS.Normal r).
Proof.
  induction k as [|k IH]; intros d [|fuel] Hv Hr Hw Hf; try lia; simpl.
  - rewrite daysLater_0 in Hw.
    destruct (isWeekend d || _) eqn:C; [|eauto].
    apply loop_condition_spec in C; contradiction.
  - destruct (isWeekend d || _) eqn:C; [|eauto].
    rewrite addDays_one.
    assert (Hv' : validTime (d + msPerDay)%Z).
    { pose proof (daysLater_le d 1 (S k) ltac:(lia)) as Hle.
      unfold validTime, daysLater, msPerDay in *; lia. }
    rewrite (timeClip_valid _ Hv').
    apply IH; [assumption| | |lia]; now rewrite daysLater_S.
Qed.

Lemma daysLater_daysLeft (d : date) (k : nat) :
  validTime d -> (daysLater d k <= maxTime)%Z -> k <= daysLeft d.
Proof.
  unfold daysLater, daysLeft, validTime, msPerDay, maxTime; intros Hv Hk; lia.
Qed.

(** The outcome of the loop from a [Date] that is not invalid. *)
Lemma getNextWorkingDay_loop_outcome (holidayList : list string) (d : date) :
  validTime d ->
  exists o,
    (forall fuel, daysLeft d + 1 < fuel ->
                  getNextWorkingDay_loop fuel (DateOf d) holidayList = Some o) /\
    match o with
    | JS.Normal r => firstWorkingDayFrom holidayList d r
    | JS.Throw e => e = "RangeError" /\ noWorkingDayFrom holidayList d
    end /\
    ((yearOne <= d)%Z ->
     (daysLater d (7 * List.length holidayList + 2) <= maxTime)%Z ->
     exists r, o = JS.Normal r /\
       forall fuel, 7 * List.length holidayList + 2 < fuel ->
                    getNextWorkingDay_loop fuel (DateOf d) holidayList
                    = Some (JS.Normal r)).
Proof.
  intros Hv.
  destruct (getNextWorkingDay_ends holidayList (daysLeft d) d (daysLeft d + 2)
              Hv (Nat.le_refl _) ltac:(lia)) as (o & Ho).
  exists o; split; [|split].
  - intros fuel Hf.
    apply (getNextWorkingDay_loop_more _ _ _ _ _ Ho); lia.
  - destruct o as [r|e].
    + exact (getNextWorkingDay_sound _ _ _ _ Ho).
    + exact (getNextWorkingDay_throws _ _ _ _ Hv Ho).
  - intros Hy Hr.
    destruct (working_day_ahead holidayList d Hy) as (k & Hk & Hw).
    assert (Hrk : (daysLater d k <= maxTime)%Z).
    { pose proof (daysLater_le d k _ Hk); lia. }
    destruct (getNextWorkingDay_complete holidayList k d (S k) Hv Hrk Hw
                (Nat.lt_succ_diag_r k)) as (r & Er).
    pose proof (daysLater_daysLeft d k Hv Hrk) as Hkl.
    exists r; split.
    + pose proof (getNextWorkingDay_loop_more _ _ _ _ (daysLeft d + 2) Er ltac:(lia)) as E.
      congruence.
    + intros fuel Hf.
      apply (getNextWorkingDay_loop_more _ _ _ _ _ Er); lia.
Qed.

(** The last [Date] is a Saturday: with no holidays at all the loop
    adds a day to it, gets the Invalid Date, and [format] throws; no
    run of the loop, however long, returns a date.  So the loop does
    not return a working day for every starting date. *)
Lemma getNextWorkingDay_throws_at_last_date :
  validTime maxTime /\
  format maxTime = "275760-09-13" /\
  isWeekend maxTime = true /\
  getNextWorkingDay 2 maxTime [] = Some (JS.Throw "RangeError") /\
  ~ exists fuel r, getNextWorkingDay fuel maxTime [] = Some (JS.Normal r).
Proof.
  split; [unfold validTime, maxTime; lia|].
  split; [vm_compute; reflexivity|].
  split; [reflexivity|].
  split; [reflexivity|].
  intros (fuel & r & H).
  destruct fuel as [|[|fuel]]; vm_compute in H; discriminate.
Qed.

(** C4, amended.  From every date a [Date] can hold and with every
    holiday list the loop of [getNextWorkingDay] ends, within one test
    of its condition more than the days left up to the last [Date],
    in one of two ways: it returns the first day on or after the
    starting date that is neither a weekend day nor in the holiday
    list, or, when there is no such day up to the last [Date], it
    throws the [RangeError] of [format].  From a starting date in the
    year 1 or later that is at least [7 * length + 2] days before the
    last [Date], it returns, after at most [7 * length + 3] tests. *)
Theorem getNextWorkingDay_first_working_day_or_throws :
  forall d holidayList,
    validTime d ->
    exists o,
      (forall fuel, daysLeft d + 1 < fuel ->
                    getNextWorkingDay fuel d holidayList = Some o) /\
      match o with
      | JS.Normal r =>
          exists k, r = daysLater d k /\
            isWeekend r = false /\ ~ In (format r) holidayList /\
            forall j, j < k ->
              isWeekend (daysLater d j) = true \/
              In (format (daysLater d j)) holidayList
      | JS.Throw e =>
          e = "RangeError" /\
          forall k, (daysLater d k <= maxTime)%Z ->
            isWeekend (daysLater d k) = true \/
            In (format (daysLater d k)) holidayList
      end /\
      ((yearOne <= d)%Z ->
       (daysLater d (7 * List.length holidayList + 2) <= maxTime)%Z ->
       exists r, o = JS.Normal r /\
         forall fuel, 7 * List.length holidayList + 2 < fuel ->
                      getNextWorkingDay fuel d holidayList = Some (JS.Normal r)).
Proof.
  intros d holidayList Hv.
  destruct (getNextWorkingDay_loop_outcome holidayList d Hv) as (o & Hf & Ho & Hr).
  exists o; split; [exact Hf | split; [|exact Hr]].
  destruct o as [r|e]; [|exact Ho].
  destruct Ho as (k & -> & W & M); unfold nonWorkingDay in W.
  exists k; split; [reflexivity | split; [|split]].
  - destruct (isWeekend (daysLater d k)); [exfalso; auto | reflexivity].
  - auto.
  - exact M.
Qed.

(** From Saturday 2025-01-18, with Monday 2025-01-20 a holiday, the
    loop ends on Tuesday 2025-01-21. *)
Lemma getNextWorkingDay_first_working_day_or_throws_witness :
  getNextWorkingDay 10 (midnight 20106) ["2025-01-20"]
  = Some (JS.Normal (midnight 20109)) /\
  exists r, getNextWorkingDay 10 (midnight 20106) ["2025-01-20"] = Some (JS.Normal r) /\
            isWeekend r = false /\ ~ In (format r) ["2025-01-20"].
Proof.
  split; [reflexivity|].
  assert (Hv : validTime (midnight 20106)) by (vm_compute; split; discriminate).
  destruct (getNextWorkingDay_first_working_day_or_throws
              (midnight 20106) ["2025-01-20"] Hv) as (o & _ & Ho & Hr).
  destruct Hr as (r & -> & Hf);
    [vm_compute; discriminate | vm_compute; discriminate |].
  destruct Ho as (k & _ & Hw & Hh & _).
  exists r; split; [apply Hf; simpl; lia | split; assumption].
Defined.

(** C7. On a day that is neither a weekend day nor in the holiday
    list, [getNextWorkingDay] returns that day at the first test of
    its loop; in particular it returns its own results unchanged. *)
Theorem getNextWorkingDay_fixes_working_days :
  forall d holidayList,
    (isWeekend d = false -> ~ In (format d) holidayList ->
     forall fuel, getNextWorkingDay (S fuel) d holidayList = Some (JS.Normal d)) /\
    (forall fuel r, getNextWorkingDay fuel d holidayList = Some (JS.Normal r) ->
     forall fuel', getNextWorkingDay (S fuel') r holidayList = Some (JS.Normal r)).
Proof.
  intros d holidayList.
  assert (Hfix : forall x, ~ nonWorkingDay holidayList x ->
                 forall fuel, getNextWorkingDay (S fuel) x holidayList
                              = Some (JS.Normal x)).
  { intros x Hx fuel; unfold getNextWorkingDay; simpl.
    destruct (isWeekend x || _) eqn:C; [|reflexivity].
    apply loop_condition_spec in C; contradiction. }
  split.
  - intros Hw Hh; apply Hfix; intros [H|H]; [congruence | contradiction].
  - intros fuel r Hr; apply Hfix.
    destruct (getNextWorkingDay_sound _ _ _ _ Hr) as (k & _ & W & _).
    exact W.
Qed.

(** Wednesday 2025-01-15 with no holidays is returned as it is, and
    so is the Monday found from Saturday 2025-01-18. *)
Lemma getNextWorkingDay_fixes_working_days_witness :
  getNextWorkingDay 1 (midnight 20103) [] = Some (JS.Normal (midnight 20103)) /\
  getNextWorkingDay 1 (midnight 20108) ["2025-01-15"]
  = Some (JS.Normal (midnight 20108)).
Proof.
  split.
  - apply (proj1 (getNextWorkingDay_fixes_working_days (midnight 20103) [])).
    + reflexivity.
    + simpl; tauto.
  - apply (proj2 (getNextWorkingDay_fixes_working_days (midnight 20106) ["2025-01-15"]) 3).
    reflexivity.
Defined.

(* ================================================================= *)
(** ** Day navigation *)

Lemma goToNextDay_loop_getNextWorkingDay (holidayList : list string) (fuel : nat) :
  forall d, goToNextDay_loop fuel d holidayList
            = getNextWorkingDay_loop fuel d holidayList.
Proof.
  induction fuel as [|fuel IH]; intros d; simpl; [reflexivity|].
  destruct d as [t|]; [|reflexivity].
  now rewrite IH.
Qed.

(** X1. From every date a [Date] can hold the "next day" button ends
    in one of two ways.  Either it moves the agenda to the first
    working day strictly after the current date: it does not stay on
    the current date, does not land on a weekend day or holiday, skips
    no working day, keeps the time of day and changes nothing but the
    date.  Or, when no day after the current one up to the last [Date]
    is a working day, it throws the [RangeError] of [format] and
    changes nothing.  From a date in the year 1 or later that is at
    least [7 * length + 3] days before the last [Date] it moves, after
    at most [7 * length + 3] tests of the loop condition. *)
Theorem goToNextDay_first_working_day_after :
  forall st,
    validTime (currentDate st) ->
    exists o,
      (forall fuel, daysLeft (currentDate st) + 1 < fuel ->
                    goToNextDay fuel st = Some o) /\
      match o with
      | JS.Normal st' =>
          exists k, 0 < k /\
            st' = set_currentDate (daysLater (currentDate st) k) st /\
            isHoliday st' (currentDate st') = false /\
            forall j, 0 < j < k ->
              isWeekend (daysLater (currentDate st) j) = true \/
              In (format (daysLater (currentDate st) j)) (holidays st)
      | JS.Throw e =>
          e = "RangeError" /\
          forall k, 0 < k -> (daysLater (currentDate st) k <= maxTime)%Z ->
            isWeekend (daysLater (currentDate st) k) = true \/
            In (format (daysLater (currentDate st) k)) (holidays st)
      end /\
      ((yearOne <= currentDate st)%Z ->
       (daysLater (currentDate st) (7 * List.length (holidays st) + 3) <= maxTime)%Z ->
       exists st', o = JS.Normal st' /\
         forall fuel, 7 * List.length (holidays st) + 2 < fuel ->
                      goToNextDay fuel st = Some (JS.Normal st')).
Proof.
  intros st Hv.
  unfold goToNextDay; rewrite addDays_one.
  destruct (timeClip_cases (currentDate st + msPerDay)) as [(-> & Hv')|(-> & Hv')].
  - destruct (getNextWorkingDay_loop_outcome (holidays st) _ Hv')
      as (o & Hf & Ho & Hr).
    assert (Hleft : daysLeft (currentDate st + msPerDay)%Z <= daysLeft (currentDate st)).
    { unfold daysLeft, validTime, msPerDay, maxTime in *; lia. }
    destruct o as [r|e].
    + exists (JS.Normal (set_currentDate r st)); split; [|split].
      * intros fuel Hfuel.
        rewrite goToNextDay_loop_getNextWorkingDay, (Hf fuel); [reflexivity | lia].
      * destruct Ho as (k & -> & W & M).
        exists (S k); split; [lia | split; [now rewrite daysLater_S | split]].
        -- cbn [currentDate set_currentDate].
           destruct (isHoliday _ _) eqn:E; [|reflexivity].
           apply isHoliday_spec in E; contradiction.
        -- intros [|j] Hj; [lia|].
           rewrite <- daysLater_S; apply M; lia.
      * intros Hy Hrange.
        destruct Hr as (r' & [= <-] & Hf');
          [unfold msPerDay; lia
          |rewrite daysLater_S;
           replace (S (7 * List.length (holidays st) + 2))
             with (7 * List.length (holidays st) + 3) by lia; exact Hrange|].
        eexists; split; [reflexivity|].
        intros fuel Hfuel.
        now rewrite goToNextDay_loop_getNextWorkingDay, (Hf' fuel Hfuel).
    + exists (JS.Throw e); split; [|split].
      * intros fuel Hfuel.
        rewrite goToNextDay_loop_getNextWorkingDay, (Hf fuel); [reflexivity | lia].
      * destruct Ho as (-> & M); split; [reflexivity|].
        intros [|k] Hk Hle; [lia|].
        rewrite <- daysLater_S in *; now apply M.
      * intros Hy Hrange.
        destruct Hr as (r' & [=] & _);
          [unfold msPerDay; lia
          |rewrite daysLater_S;
           replace (S (7 * List.length (holidays st) + 2))
             with (7 * List.length (holidays st) + 3) by lia; exact Hrange].
  - exists (JS.Throw "RangeError"); split; [|split].
    + intros [|fuel] Hfuel; [lia | reflexivity].
    + split; [reflexivity|].
      intros k Hk Hle; exfalso; apply Hv'.
      pose proof (daysLater_le (currentDate st) 1 k ltac:(lia)) as H.
      unfold validTime, daysLater, msPerDay in *; lia.
    + intros _ Hrange; exfalso; apply Hv'.
      pose proof (daysLater_le (currentDate st) 1
                    (7 * List.length (holidays st) + 3) ltac:(lia)) as H.
      unfold validTime, daysLater, msPerDay in *; lia.
Qed.

(** From Friday 275760-09-12, the day before the last [Date], the
    button throws: the Saturday is skipped and no day follows it.  At
    any time of day the button keeps the time. *)
Example goToNextDay_known :
  goToNextDay 3 (set_currentDate (maxTime - msPerDay)%Z Sample.day)
  = Some (JS.Throw "RangeError") /\
  goToNextDay 5 (set_currentDate (midnight 20105 + 34200000)%Z Sample.day)
  = Some (JS.Normal (set_currentDate (midnight 20108 + 34200000)%Z Sample.day)).
Proof. split; reflexivity. Qed.

(** From Friday 2025-01-17 the button moves to Monday 2025-01-20. *)
Lemma goToNextDay_first_working_day_after_witness :
  goToNextDay 5 (set_currentDate (midnight 20105) Sample.day)
  = Some (JS.Normal (set_currentDate (midnight 20108) Sample.day)).
Proof.
  assert (Hv : validTime (currentDate (set_currentDate (midnight 20105) Sample.day)))
    by (vm_compute; split; discriminate).
  destruct (goToNextDay_first_working_day_after
              (set_currentDate (midnight 20105) Sample.day) Hv)
    as (o & _ & _ & Hr).
  destruct Hr as (st' & _ & Hf);
    [vm_compute; discriminate | vm_compute; discriminate |].
  pose proof (Hf 5 ltac:(simpl; lia)) as H.
  rewrite H; vm_compute in H.
  injection H as <-; reflexivity.
Defined.

(* ================================================================= *)
(** ** Closures: the day, the slot and the record shown *)

(** X2. When the day is closed as a whole, that is when some record
    has neither hour nor type, every slot of the grid is closed and
    has a record to show. *)
Theorem isDayClosed_closes_every_slot :
  forall st,
    (isDayClosed st = true <->
     exists cs, In cs (closedSlots st) /\ unset (cs_ora cs) /\ unset (cs_tipo cs)) /\
    (isDayClosed st = true ->
     forall ora tipo,
       isSlotClosed st ora tipo = true /\
       exists cs, getClosedSlotInfo st ora tipo = Some cs).
Proof.
  intros st.
  assert (Hspec : isDayClosed st = true <->
                  exists cs, In cs (closedSlots st) /\
                             unset (cs_ora cs) /\ unset (cs_tipo cs)).
  { unfold isDayClosed; rewrite existsb_exists.
    split; intros (cs & Hin & H); exists cs; split; trivial.
    - apply andb_true_iff in H as (Ho & Ht).
      apply negb_true_iff in Ho, Ht; now rewrite <- !falsy_unset.
    - destruct H as (Ho & Ht); apply falsy_unset in Ho, Ht.
      now rewrite Ho, Ht. }
  split; [exact Hspec|].
  intros Hday ora tipo.
  apply Hspec in Hday as (cs & Hin & Ho & Ht).
  assert (Hm : closure_matches cs ora tipo) by (unfold closure_matches; auto).
  split.
  - apply isSlotClosed_spec; eauto.
  - unfold getClosedSlotInfo.
    destruct (find (closureCallback ora tipo) (closedSlots st)) as [c|] eqn:E; [eauto|].
    apply (find_none _ _ E) in Hin.
    apply closureCallback_false in Hin; contradiction.
Qed.

Lemma isDayClosed_closes_every_slot_witness :
  isSlotClosed (Sample.with_closures [Sample.nine_picc; Sample.whole_day])
               "16:30" "MED" = true.
Proof.
  apply (proj2 (isDayClosed_closes_every_slot
                  (Sample.with_closures [Sample.nine_picc; Sample.whole_day]))
               eq_refl "16:30" "MED").
Defined.

(** X3. [isSlotClosed] and [getClosedSlotInfo] agree: a slot is closed
    exactly when there is a record to show for it, and the record
    shown is one of the day's list that matches the slot. *)
Theorem closed_slot_has_info :
  forall st ora tipo,
    (isSlotClosed st ora tipo = true <->
     exists cs, getClosedSlotInfo st ora tipo = Some cs) /\
    (isSlotClosed st ora tipo = false <-> getClosedSlotInfo st ora tipo = None) /\
    (forall cs, getClosedSlotInfo st ora tipo = Some cs ->
                In cs (closedSlots st) /\ closure_matches cs ora tipo).
Proof.
  intros st ora tipo; unfold isSlotClosed, getClosedSlotInfo.
  assert (Hsome : forall cs, find (closureCallback ora tipo) (closedSlots st) = Some cs ->
                             In cs (closedSlots st) /\ closure_matches cs ora tipo).
  { intros cs H; apply find_some in H as (Hin & H).
    split; [assumption | now apply closureCallback_spec]. }
  split; [|split; [|exact Hsome]].
  - rewrite existsb_exists; split.
    + intros (cs & Hin & H).
      destruct (find _ _) as [c|] eqn:E; [eauto|].
      rewrite (find_none _ _ E cs Hin) in H; discriminate.
    + intros (cs & H); apply find_some in H; eauto.
  - destruct (find _ _) as [c|] eqn:E.
    + apply find_some in E as (Hin & H).
      split; [|discriminate].
      intros Hf; assert (existsb (closureCallback ora tipo) (closedSlots st) = true)
        by (apply existsb_exists; eauto); congruence.
    + split; [reflexivity|]; intros _.
      destruct (existsb _ _) eqn:Ex; [|reflexivity].
      apply existsb_exists in Ex as (cs & Hin & H).
      rewrite (find_none _ _ E cs Hin) in H; discriminate.
Qed.

Lemma closed_slot_has_info_witness :
  In Sample.picc_only (closedSlots (Sample.with_closures [Sample.picc_only])) /\
  closure_matches Sample.picc_only "12:00" "PICC".
Proof.
  apply (proj2 (proj2 (closed_slot_has_info (Sample.with_closures [Sample.picc_only])
                         "12:00" "PICC")) Sample.picc_only eq_refl).
Defined.

(* ================================================================= *)
(** ** Toggling a selection *)

Lemma filter_neq_In (x y : string) (l : list string) :
  In y (filter (fun o => negb (o =? x)) l) <-> In y l /\ y <> x.
Proof.
  rewrite filter_In, negb_true_iff, String.eqb_neq; tauto.
Qed.

Lemma filter_neq_absent (x : string) (l : list string) :
  ~ In x l -> filter (fun o => negb (o =? x)) l = l.
Proof.
  intros H; apply forallb_filter_id, forallb_forall; intros y Hy.
  apply negb_true_iff, String.eqb_neq; congruence.
Qed.

(** X4. Toggling an hour (or a procedure) in a selection flips the
    membership of that element and of no other, keeps the selection
    free of duplicates, and keeps the order of the others.  Toggling
    twice an element that was absent gives back the selection; toggling
    twice one that was present moves it to the end.  The three toggles
    of the page are the same function. *)
Theorem toggle_flips_membership :
  forall x prev,
    (In x (toggleSlotOra x prev) <-> ~ In x prev) /\
    (forall y, y <> x -> (In y (toggleSlotOra x prev) <-> In y prev)) /\
    (NoDup prev -> NoDup (toggleSlotOra x prev)) /\
    (~ In x prev -> toggleSlotOra x (toggleSlotOra x prev) = prev) /\
    (In x prev ->
     toggleSlotOra x (toggleSlotOra x prev)
     = (filter (fun o => negb (o =? x)) prev ++ [x])%list) /\
    handlePrestazioneToggle x prev = toggleSlotOra x prev /\
    handleEditPrestazioneToggle x prev = toggleSlotOra x prev.
Proof.
  intros x prev; unfold toggleSlotOra.
  destruct (JS.array_includes prev x) eqn:E.
  - assert (Hin : In x prev) by now apply array_includes_In.
    assert (Hout : JS.array_includes (filter (fun o => negb (o =? x)) prev) x = false).
    { destruct (JS.array_includes (filter (fun o => negb (o =? x)) prev) x) eqn:E';
        [|reflexivity].
      apply array_includes_In, filter_neq_In in E'; tauto. }
    split; [|split; [|split; [|split; [|split; [|split]]]]].
    + rewrite filter_neq_In; tauto.
    + intros y Hy; rewrite filter_neq_In; tauto.
    + apply NoDup_filter.
    + contradiction.
    + intros _; now rewrite Hout.
    + unfold handlePrestazioneToggle; now rewrite E.
    + unfold handleEditPrestazioneToggle; now rewrite E.
  - assert (Hnin : ~ In x prev).
    { intros H; apply array_includes_In in H; congruence. }
    assert (Hnow : JS.array_includes (prev ++ [x]) x = true).
    { apply array_includes_In, in_or_app; right; now left. }
    split; [|split; [|split; [|split; [|split; [|split]]]]].
    + split; [tauto | intros _; apply in_or_app; right; now left].
    + intros y Hy; rewrite in_app_iff; simpl; split; [|tauto].
      intros [H|[H|[]]]; [assumption | congruence].
    + intros Hnd; apply NoDup_app; [assumption | repeat constructor; intros [] |].
      intros y Hy [<-|[]]; contradiction.
    + intros _; rewrite Hnow, filter_app; simpl.
      rewrite String.eqb_refl; simpl.
      now rewrite app_nil_r, filter_neq_absent.
    + contradiction.
    + unfold handlePrestazioneToggle; now rewrite E.
    + unfold handleEditPrestazioneToggle; now rewrite E.
Qed.

(** Selecting 10:00 after 09:00 and 09:30 and clicking it again leaves
    the two hours selected. *)
Lemma toggle_flips_membership_witness :
  toggleSlotOra "10:00" (toggleSlotOra "10:00" ["09:00"; "09:30"]) = ["09:00"; "09:30"] /\
  NoDup (toggleSlotOra "10:00" ["09:00"; "09:30"]).
Proof.
  destruct (toggle_flips_membership "10:00" ["09:00"; "09:30"])
    as (_ & _ & Hnd & Hback & _).
  split.
  - apply Hback; intros [H|[H|[]]]; discriminate H.
  - apply Hnd; repeat constructor; simpl; intuition discriminate.
Defined.

(* ================================================================= *)
(** ** Closing the agenda *)

Lemma or_else_nonempty (v : JS.value) (dflt : string) :
  dflt <> "" -> JS.or_else v dflt <> "".
Proof.
  intros Hd; destruct v as [| |s]; simpl; trivial.
  destruct (String.eqb_spec s ""); trivial.
Qed.

(** X5. Closing the agenda sends at most one POST and never touches
    the lists of the day itself.  In slot mode with no hour selected it
    sends nothing and reports the missing hour.  Every payload carries
    the current date, the site and the reason typed, or "Chiuso" when
    none was typed, so never an empty one; in day mode hour and type are null whatever is
    still selected in the form; in slot mode the hour is the single
    selected hour or the array of the selected hours, and the type is
    null exactly for "both".  The form is reset and the dialog closed
    only when the server accepts. *)
Theorem handleCloseAgenda_payload :
  forall ambulatorio api st f st' f' reqs,
    handleCloseAgenda ambulatorio api st f = (st', f', reqs) ->
    (closeMode f <> "day" -> closeSlotOre f = [] ->
     reqs = [] /\ f' = f /\ st' = toast_error "Seleziona almeno un orario" st) /\
    (closeMode f = "day" \/ closeSlotOre f <> [] ->
     exists payload,
       (reqs = [PostClosedSlot payload; FetchData] /\
        f' = mkCloseForm false "slot" [] "both" "" /\
        exists created, api payload = PostResolved created) \/
       (reqs = [PostClosedSlot payload] /\ f' = f /\
        exists detail, api payload = PostRejected detail)) /\
    (forall payload, In (PostClosedSlot payload) reqs ->
       cp_data payload = format (currentDate st) /\
       cp_ambulatorio payload = ambulatorio /\
       cp_motivo payload <> "" /\
       (closeMotivo f = "" -> cp_motivo payload = "Chiuso") /\
       (closeMotivo f <> "" -> cp_motivo payload = closeMotivo f) /\
       (closeMode f = "day" ->
        cp_ora payload = OraNull /\ cp_tipo payload = JS.Null) /\
       (closeMode f <> "day" ->
        (forall ora, closeSlotOre f = [ora] -> cp_ora payload = OraOne ora) /\
        (2 <= List.length (closeSlotOre f) ->
         cp_ora payload = OraMany (closeSlotOre f)) /\
        (closeSlotTipo f = "both" -> cp_tipo payload = JS.Null) /\
        (closeSlotTipo f <> "both" -> cp_tipo payload = JS.Str (closeSlotTipo f)))) /\
    closedSlots st' = closedSlots st /\ appointments st' = appointments st.
Proof.
  intros ambulatorio api st f st' f' reqs; unfold handleCloseAgenda.
  assert (Hmot : JS.or_else (JS.Str (closeMotivo f)) "Chiuso" <> "")
    by (apply or_else_nonempty; discriminate).
  assert (Hmot' : closeMotivo f <> "" ->
                  JS.or_else (JS.Str (closeMotivo f)) "Chiuso" = closeMotivo f).
  { intros H; simpl; destruct (String.eqb_spec (closeMotivo f) ""); congruence. }
  assert (Hdflt : closeMotivo f = "" ->
                  JS.or_else (JS.Str (closeMotivo f)) "Chiuso" = "Chiuso").
  { intros H; now rewrite H. }
  destruct (String.eqb_spec (closeMode f) "day") as [Hday|Hday].
  - destruct (api _) as [created|detail] eqn:Eapi; intros [= <- <- <-];
      (split; [congruence|]); (split; [intros _; eexists|]).
    + left; split; [reflexivity | split; [reflexivity | eauto]].
    + split; [|split; reflexivity].
      intros payload [[= <-]|[H|[]]]; [|discriminate H]; simpl.
      repeat split; auto; congruence.
    + right; split; [reflexivity | split; [reflexivity | eauto]].
    + split; [|split; reflexivity].
      intros payload [[= <-]|[]]; simpl.
      repeat split; auto; congruence.
  - destruct (closeSlotOre f) as [|ora [|ora' ore]] eqn:Eore.
    + intros [= <- <- <-].
      split; [auto|]; split; [intros [H|H]; congruence|].
      split; [intros payload []|split; reflexivity].
    + destruct (api _) as [created|detail] eqn:Eapi; intros [= <- <- <-];
        (split; [congruence|]); (split; [intros _; eexists|]).
      * left; split; [reflexivity | split; [reflexivity | eauto]].
      * split; [|split; reflexivity].
        intros payload [[= <-]|[H|[]]]; [|discriminate H]; simpl.
        destruct (String.eqb_spec (closeSlotTipo f) "both");
          repeat split; auto; try congruence; simpl; lia.
      * right; split; [reflexivity | split; [reflexivity | eauto]].
      * split; [|split; reflexivity].
        intros payload [[= <-]|[]]; simpl.
        destruct (String.eqb_spec (closeSlotTipo f) "both");
          repeat split; auto; try congruence; simpl; lia.
    + destruct (api _) as [created|detail] eqn:Eapi; intros [= <- <- <-];
        (split; [congruence|]); (split; [intros _; eexists|]).
      * left; split; [reflexivity | split; [reflexivity | eauto]].
      * split; [|split; reflexivity].
        intros payload [[= <-]|[H|[]]]; [|discriminate H]; simpl.
        destruct (String.eqb_spec (closeSlotTipo f) "both");
          repeat split; auto; congruence.
      * right; split; [reflexivity | split; [reflexivity | eauto]].
      * split; [|split; reflexivity].
        intros payload [[= <-]|[]]; simpl.
        destruct (String.eqb_spec (closeSlotTipo f) "both");
          repeat split; auto; congruence.
Qed.

(** In slot mode without hours nothing is sent; in day mode an hour
    and a type still selected in the form are not sent. *)
Lemma handleCloseAgenda_payload_witness :
  snd (handleCloseAgenda "pta_centro" Sample.accepting_closure Sample.day
         (Sample.close_form "slot" [] "PICC" "")) = [] /\
  snd (handleCloseAgenda "pta_centro" Sample.accepting_closure Sample.day
         (Sample.close_form "day" ["09:00"] "PICC" ""))
  = [PostClosedSlot (mkClosePayload "2025-01-15" "pta_centro" "Chiuso" OraNull JS.Null);
     FetchData] /\
  cp_motivo (mkClosePayload "2025-01-15" "pta_centro" "Chiuso" OraNull JS.Null) = "Chiuso".
Proof.
  split; [|split; [reflexivity|]].
  - destruct (handleCloseAgenda "pta_centro" Sample.accepting_closure Sample.day
                (Sample.close_form "slot" [] "PICC" "")) as [[st' f'] reqs] eqn:E.
    destruct (handleCloseAgenda_payload _ _ _ _ _ _ _ E) as (H & _).
    apply H; [discriminate | reflexivity].
  - destruct (handleCloseAgenda "pta_centro" Sample.accepting_closure Sample.day
                (Sample.close_form "day" ["09:00"] "PICC" "")) as [[st' f'] reqs] eqn:E.
    destruct (handleCloseAgenda_payload _ _ _ _ _ _ _ E) as (_ & _ & H & _).
    injection E as _ _ <-.
    apply (H (mkClosePayload "2025-01-15" "pta_centro" "Chiuso" OraNull JS.Null));
      [left; reflexivity | reflexivity].
Defined.

(* ================================================================= *)
(** ** Booking an appointment *)

(** X6. Adding an appointment sends a POST only when a patient and at
    least one procedure are selected, which is exactly when the button
    of the dialog is enabled; otherwise it only raises the error
    notice of what is missing.  The body sent carries the selected
    patient, the site, the current date as a calendar date string, the
    hour and type of the selected slot and the selected procedures.
    When the server accepts the body, the data are fetched again, a
    success is notified and the dialog closed; when it refuses, no
    fetch follows, the error of the server, or a default one, is
    notified and the dialog stays as it is.  The list of appointments
    is never changed locally. *)
Theorem handleAddAppointment_guard :
  forall ambulatorio api st st' reqs,
    handleAddAppointment ambulatorio api st = (st', reqs) ->
    (addButtonDisabled st = true <->
     selectedPatient st = None \/ selectedPrestazioni st = []) /\
    (selectedPatient st = None ->
     reqs = [] /\ st' = toast_error "Seleziona un paziente" st) /\
    (selectedPatient st <> None -> selectedPrestazioni st = [] ->
     reqs = [] /\ st' = toast_error "Seleziona almeno una prestazione" st) /\
    (addButtonDisabled st = false ->
     forall slot, selectedSlot st = Some slot ->
     exists patient,
       selectedPatient st = Some patient /\
       let body :=
         mkAppointmentBody (p_id patient) ambulatorio (format (currentDate st))
                           (slot_ora slot) (slot_tipo slot) (selectedPrestazioni st) in
       (forall created, api body = PostResolved created ->
          reqs = [PostAppointment body; FetchData] /\
          st' = set_dialogOpen false (toast_success "Appuntamento aggiunto" st)) /\
       (forall detail, api body = PostRejected detail ->
          reqs = [PostAppointment body] /\
          st' = toast_error (JS.or_else detail "Errore nell'aggiunta") st)) /\
    (forall body, In (PostAppointment body) reqs -> ab_prestazioni body <> []) /\
    appointments st' = appointments st.
Proof.
  intros ambulatorio api st st' reqs; unfold handleAddAppointment, addButtonDisabled.
  assert (Hlen : forall l : list string, (List.length l =? 0)%nat = true <-> l = []).
  { intros [|x l]; simpl; split; congruence. }
  destruct (selectedPatient st) as [patient|].
  - destruct (List.length (selectedPrestazioni st) =? 0)%nat eqn:El.
    + intros [= <- <-].
      split; [rewrite <- Hlen; tauto|].
      split; [discriminate|].
      split; [auto|].
      split; [discriminate|].
      split; [intros body []|reflexivity].
    + assert (Hne : selectedPrestazioni st <> []).
      { intros H; apply Hlen in H; congruence. }
      destruct (selectedSlot st) as [slot|].
      * destruct (api _) as [created|detail] eqn:Eapi; intros [= <- <-];
          (split; [split; [discriminate | intros [H|H]; congruence]|]);
          (split; [discriminate|]);
          (split; [intros _ H; contradiction|]);
          (split; [intros _ slot' [= <-]; exists patient; split; [reflexivity|];
                   cbv zeta; rewrite Eapi; split; intros x [= <-]; split; reflexivity|]);
          (split; [|reflexivity]).
        -- intros body [[= <-]|[H|[]]]; [assumption | discriminate H].
        -- intros body [[= <-]|[]]; assumption.
      * intros [= <- <-].
        split; [split; [discriminate | intros [H|H]; congruence]|].
        split; [discriminate|].
        split; [intros _ H; contradiction|].
        split; [intros _ slot' H; discriminate H|].
        split; [intros body []|reflexivity].
  - intros [= <- <-].
    split; [tauto|].
    split; [auto|].
    split; [congruence|].
    split; [discriminate|].
    split; [intros body []|reflexivity].
Qed.

(** With "ro" typed and no patient picked nothing is sent and the
    missing patient is reported. *)
Lemma handleAddAppointment_guard_witness :
  handleAddAppointment "pta_centro" Sample.accepting_appointment (Sample.searching "ro")
  = (toast_error "Seleziona un paziente" (Sample.searching "ro"), []).
Proof.
  destruct (handleAddAppointment "pta_centro" Sample.accepting_appointment
              (Sample.searching "ro")) as [st' reqs] eqn:E.
  destruct (handleAddAppointment_guard _ _ _ _ _ E) as (_ & H & _).
  destruct (H eq_refl) as (-> & ->); reflexivity.
Defined.

(** X7. The booking flow for a PICC slot needs no choice of procedure:
    clicking a free PICC slot of a working day, picking a PICC or
    PICC_MED patient and confirming sends the appointment for that
    patient, date and slot with the simple dressing and the catheter
    flush.  On a slot of another type, or with a patient of another
    type, no procedure is pre-selected and confirming sends nothing. *)
Theorem booking_flow_preselects_picc_procedures :
  forall ambulatorio api st ora tipo p,
    ~ nonWorkingDay (holidays st) (currentDate st) ->
    isSlotClosed st ora tipo = false ->
    List.length (getAppointmentsForSlot st ora tipo) < 2 ->
    let st1 := handleSlotClick st ora tipo in
    let st2 := handlePatientSelect p st1 in
    let out := handleAddAppointment ambulatorio api st2 in
    (tipo = "PICC" -> p_tipo p = "PICC" \/ p_tipo p = "PICC_MED" ->
     exists rest,
       snd out =
       PostAppointment
         (mkAppointmentBody (p_id p) ambulatorio (format (currentDate st)) ora "PICC"
            ["medicazione_semplice"; "irrigazione_catetere"]) :: rest) /\
    (tipo <> "PICC" \/ (p_tipo p <> "PICC" /\ p_tipo p <> "PICC_MED") ->
     selectedPrestazioni st2 = [] /\
     snd out = [] /\
     toasts (fst out) = (toasts st ++ [ToastError "Seleziona almeno una prestazione"])%list).
Proof.
  intros ambulatorio api st ora tipo p Hw Hc Hn.
  assert (Hclick : handleSlotClick st ora tipo =
                   mkState (currentDate st) (appointments st) (patients st) (holidays st)
                           (closedSlots st) true (reopenDialogOpen st)
                           (Some (mkSlot ora tipo)) "" (filteredPatients st) None []
                           (toasts st)).
  { unfold handleSlotClick.
    destruct (isHoliday st (currentDate st)) eqn:Hh;
      [apply isHoliday_spec in Hh; contradiction|].
    rewrite Hc.
    destruct (2 <=? List.length (getAppointmentsForSlot st ora tipo))%nat eqn:E;
      [apply Nat.leb_le in E; lia | reflexivity]. }
  cbv zeta; rewrite Hclick; split.
  - intros -> Hp; unfold handlePatientSelect; simpl.
    assert (Hp' : (p_tipo p =? "PICC") || (p_tipo p =? "PICC_MED") = true).
    { apply orb_true_iff; rewrite !String.eqb_eq; exact Hp. }
    rewrite Hp'; unfold handleAddAppointment; simpl.
    destruct (api _); simpl; eauto.
  - intros Hno; unfold handlePatientSelect; simpl.
    assert (Hoff : (tipo =? "PICC") &&
                   ((p_tipo p =? "PICC") || (p_tipo p =? "PICC_MED")) = false).
    { destruct Hno as [Ht|(H1 & H2)].
      - apply String.eqb_neq in Ht; now rewrite Ht.
      - apply String.eqb_neq in H1, H2; rewrite H1, H2; apply andb_false_r. }
    rewrite Hoff; unfold handleAddAppointment; simpl; auto.
Qed.

Lemma booking_flow_preselects_picc_procedures_witness :
  exists rest,
    snd (handleAddAppointment "pta_centro" Sample.accepting_appointment
           (handlePatientSelect Sample.verdi
              (handleSlotClick (Sample.searching "") "09:00" "PICC"))) =
    PostAppointment
      (mkAppointmentBody "p3" "pta_centro" "2025-01-15" "09:00" "PICC"
         ["medicazione_semplice"; "irrigazione_catetere"]) :: rest.
Proof.
  apply (proj1 (booking_flow_preselects_picc_procedures
                  "pta_centro" Sample.accepting_appointment (Sample.searching "")
                  "09:00" "PICC" Sample.verdi
                  ltac:(intros [H|H]; [discriminate H | exact H])
                  eq_refl ltac:(simpl; lia))).
  - reflexivity.
  - right; reflexivity.
Defined.

Lemma includes_length (s q : string) :
  JS.includes s q = true -> String.length q <= String.length s.
Proof.
  intros H; apply includes_spec in H as (pre & post & ->).
  rewrite !string_length_app; lia.
Qed.

(** The lower-case form of "surname name" is contained in that of
    neither part. *)
Lemma full_name_in_no_part (cognome nome : string) :
  JS.includes (JS.toLowerCase nome) (JS.toLowerCase (cognome ++ " " ++ nome)) = false /\
  JS.includes (JS.toLowerCase cognome) (JS.toLowerCase (cognome ++ " " ++ nome)) = false.
Proof.
  rewrite toLowerCase_space.
  split.
  - destruct (JS.includes (JS.toLowerCase nome) _) eqn:E; [|reflexivity].
    apply includes_length in E.
    rewrite string_length_app in E; simpl in E; lia.
  - destruct (JS.includes (JS.toLowerCase cognome) _) eqn:E; [|reflexivity].
    apply includes_length in E.
    rewrite string_length_app in E; simpl in E; lia.
Qed.

(** X8. Picking a patient who has a given and a family name writes
    "surname name" into the search box and empties the suggestions.
    When the search effect then runs on that text, the patient just
    picked is not among the suggestions it stores, whatever the
    letters of the names; and it stores a list whenever every patient
    of the page's list has both names. *)
Theorem picked_patient_not_suggested_again :
  forall st p nome cognome,
    p_nome p = JS.Str nome -> p_cognome p = JS.Str cognome ->
    searchQuery (handlePatientSelect p st) = cognome ++ " " ++ nome /\
    filteredPatients (handlePatientSelect p st) = [] /\
    selectedPatient (handlePatientSelect p st) = Some p /\
    (forall st', searchEffect (handlePatientSelect p st) = JS.Normal st' ->
                 ~ In p (filteredPatients st')) /\
    ((forall r, In r (patients st) ->
                exists n c, p_nome r = JS.Str n /\ p_cognome r = JS.Str c) ->
     exists st', searchEffect (handlePatientSelect p st) = JS.Normal st').
Proof.
  intros st p nome cognome En Ec.
  assert (Hq : searchQuery (handlePatientSelect p st) = cognome ++ " " ++ nome).
  { unfold handlePatientSelect; rewrite En, Ec; destruct (_ && _); reflexivity. }
  assert (Hp : patients (handlePatientSelect p st) = patients st).
  { unfold handlePatientSelect; destruct (_ && _); reflexivity. }
  split; [exact Hq | split; [|split; [|split]]].
  - unfold handlePatientSelect; destruct (_ && _); reflexivity.
  - unfold handlePatientSelect; destruct (_ && _); reflexivity.
  - intros st'; unfold searchEffect.
    destruct (selectedSlot (handlePatientSelect p st)) as [slot|];
      [|intros [= <-]; simpl; tauto].
    destruct (1 <=? _)%nat; [|intros [= <-]; simpl; tauto].
    destruct (array_filter _ _) as [filtered|e] eqn:E; [|discriminate].
    intros [= <-]; cbn [filteredPatients set_filteredPatients].
    intros Hin; destruct (array_filter_In _ _ _ _ E Hin) as (_ & Hcall).
    rewrite Hq in Hcall.
    unfold suggestionCallback, lowerIncludes in Hcall.
    rewrite En, Ec in Hcall.
    destruct (full_name_in_no_part cognome nome) as (H1 & H2).
    rewrite H1, H2 in Hcall; discriminate.
  - intros Hnames; unfold searchEffect.
    destruct (selectedSlot (handlePatientSelect p st)) as [slot|]; [|eauto].
    destruct (1 <=? _)%nat; [|eauto].
    rewrite array_filter_normal; [eauto|].
    rewrite Hp; intros r Hr.
    destruct (Hnames r Hr) as (n & c & En' & Ec').
    destruct (suggestionCallback_spec (searchQuery (handlePatientSelect p st))
                (slot_tipo slot) r _ _ En' Ec') as (b & Eb & _).
    now exists b.
Qed.

(* ================================================================= *)
(** ** The grid *)

(** X9. A cell of the grid shows the hint to add a patient exactly
    when a click on it opens the booking dialog on that slot; on every
    other cell a click leaves the booking dialog and the selected slot
    as they are.  The test of the non-working day made before calling
    [handleSlotClick] changes nothing. *)
Theorem add_hint_iff_click_books :
  forall st ora tipo,
    slotOnClick st ora tipo = handleSlotClick st ora tipo /\
    (showsAddHint st ora tipo = true ->
     slotOnClick st ora tipo =
     mkState (currentDate st) (appointments st) (patients st) (holidays st)
             (closedSlots st) true (reopenDialogOpen st)
             (Some (mkSlot ora tipo)) "" (filteredPatients st) None []
             (toasts st)) /\
    (showsAddHint st ora tipo = false ->
     dialogOpen (slotOnClick st ora tipo) = dialogOpen st /\
     selectedSlot (slotOnClick st ora tipo) = selectedSlot st /\
     selectedPatient (slotOnClick st ora tipo) = selectedPatient st).
Proof.
  intros st ora tipo; unfold slotOnClick, showsAddHint, handleSlotClick.
  destruct (isHoliday st (currentDate st)); simpl.
  - destruct (isSlotClosed st ora tipo); repeat split; discriminate.
  - destruct (isSlotClosed st ora tipo); [repeat split; discriminate|].
    destruct (List.length (getAppointmentsForSlot st ora tipo)) as [|[|n]];
      simpl; repeat split; discriminate.
Qed.

Lemma add_hint_iff_click_books_witness :
  dialogOpen (slotOnClick Sample.day "09:00" "PICC") = true /\
  selectedSlot (slotOnClick (Sample.with_closures [Sample.picc_only]) "09:00" "PICC")
  = None.
Proof.
  split.
  - rewrite (proj1 (proj2 (add_hint_iff_click_books Sample.day "09:00" "PICC")) eq_refl).
    reflexivity.
  - apply (proj2 (proj2 (add_hint_iff_click_books
                           (Sample.with_closures [Sample.picc_only]) "09:00" "PICC"))
                 eq_refl).
Defined.

(** After picking Rossi while "ro" is typed, the search effect stores
    no suggestion at all. *)
Lemma picked_patient_not_suggested_again_witness :
  searchQuery (handlePatientSelect Sample.rossi (Sample.searching "ro")) = "Rossi Mario" /\
  exists st',
    searchEffect (handlePatientSelect Sample.rossi (Sample.searching "ro"))
    = JS.Normal st' /\
    ~ In Sample.rossi (filteredPatients st').
Proof.
  destruct (picked_patient_not_suggested_again
              (Sample.searching "ro") Sample.rossi "Mario" "Rossi" eq_refl eq_refl)
    as (Hq & _ & _ & Hnot & Hruns).
  split; [exact Hq|].
  destruct Hruns as (st' & E).
  { intros r [<-|[<-|[<-|[]]]]; simpl; eauto. }
  exists st'; split; [exact E | exact (Hnot st' E)].
Defined.

(* ================================================================= *)
(** ** The roster: counters and selection *)

Lemma rosterCallback_no_search (f : string) (p : Pazienti.Patient) :
  Pazienti.rosterCallback "" f p =
  if f =? "all" then true
  else if f =? "PICC" then
    JS.strict_eq (Pazienti.p_tipo p) "PICC" || JS.strict_eq (Pazienti.p_tipo p) "PICC_MED"
  else if f =? "MED" then
    JS.strict_eq (Pazienti.p_tipo p) "MED" || JS.strict_eq (Pazienti.p_tipo p) "PICC_MED"
  else if f =? "PICC_MED" then JS.strict_eq (Pazienti.p_tipo p) "PICC_MED"
  else true.
Proof.
  unfold Pazienti.rosterCallback; simpl.
  destruct (f =? "all"); simpl; [reflexivity|].
  destruct (String.eqb_spec f "PICC") as [->|H1]; simpl.
  - destruct (JS.strict_eq (Pazienti.p_tipo p) "PICC"),
             (JS.strict_eq (Pazienti.p_tipo p) "PICC_MED"); reflexivity.
  - destruct (String.eqb_spec f "MED") as [->|H2]; simpl.
    + destruct (JS.strict_eq (Pazienti.p_tipo p) "MED"),
               (JS.strict_eq (Pazienti.p_tipo p) "PICC_MED"); reflexivity.
    + destruct (f =? "PICC_MED"); simpl; [|reflexivity].
      destruct (JS.strict_eq (Pazienti.p_tipo p) "PICC_MED"); reflexivity.
Qed.

Lemma filter_length_le {A : Type} (f : A -> bool) (l : list A) :
  List.length (filter f l) <= List.length l.
Proof.
  induction l as [|a l IH]; simpl; [lia|]; destruct (f a); simpl; lia.
Qed.

Lemma filter_or_length {A : Type} (f g : A -> bool) (l : list A) :
  (forall x, In x l -> f x || g x = true) ->
  List.length l <= List.length (filter f l) + List.length (filter g l).
Proof.
  induction l as [|a l IH]; intros H; simpl; [lia|].
  assert (Ha := H a (or_introl eq_refl)).
  assert (IH' := IH (fun x Hx => H x (or_intror Hx))).
  destruct (f a), (g a); simpl in *; try discriminate; lia.
Qed.

(** X10. The counter cards tell how many rows their filter shows: on
    the in-care tab with an empty search box, a click on the PICC (MED)
    card that was not active shows exactly as many patients as the
    card counts, and a click on the active card goes back to all the
    in-care patients.  A PICC_MED patient is counted on both cards, so
    neither card exceeds the total, and when every patient has one of
    the three types the two cards together reach it. *)
Theorem counters_count_filtered_rows :
  forall st,
    Pazienti.activeTab st = "in_cura" -> Pazienti.searchQuery st = "" ->
    (Pazienti.typeFilter st <> "PICC" ->
     List.length (Pazienti.filteredPatients (Pazienti.piccCardClick st))
     = Pazienti.c_picc_in_cura (Pazienti.getCounts st)) /\
    (Pazienti.typeFilter st <> "MED" ->
     List.length (Pazienti.filteredPatients (Pazienti.medCardClick st))
     = Pazienti.c_med_in_cura (Pazienti.getCounts st)) /\
    (Pazienti.typeFilter st = "PICC" ->
     Pazienti.filteredPatients (Pazienti.piccCardClick st)
     = Pazienti.in_cura (Pazienti.allPatients st)) /\
    (Pazienti.typeFilter st = "MED" ->
     Pazienti.filteredPatients (Pazienti.medCardClick st)
     = Pazienti.in_cura (Pazienti.allPatients st)) /\
    Pazienti.c_picc_in_cura (Pazienti.getCounts st)
      <= Pazienti.c_in_cura (Pazienti.getCounts st) /\
    Pazienti.c_med_in_cura (Pazienti.getCounts st)
      <= Pazienti.c_in_cura (Pazienti.getCounts st) /\
    ((forall p, In p (Pazienti.in_cura (Pazienti.allPatients st)) ->
                Pazienti.p_tipo p = JS.Str "PICC" \/ Pazienti.p_tipo p = JS.Str "MED" \/
                Pazienti.p_tipo p = JS.Str "PICC_MED") ->
     Pazienti.c_in_cura (Pazienti.getCounts st)
     <= Pazienti.c_picc_in_cura (Pazienti.getCounts st)
        + Pazienti.c_med_in_cura (Pazienti.getCounts st)).
Proof.
  intros st Htab Hq.
  assert (Hf : forall f,
             Pazienti.filteredPatients (Pazienti.set_typeFilter f st) =
             filter (Pazienti.rosterCallback "" f)
                    (Pazienti.in_cura (Pazienti.allPatients st))).
  { intros f; unfold Pazienti.filteredPatients; simpl.
    now rewrite Htab, Hq. }
  unfold Pazienti.piccCardClick, Pazienti.medCardClick.
  split; [|split; [|split; [|split; [|split; [|split]]]]].
  - intros H; apply String.eqb_neq in H; rewrite H, Hf; simpl.
    f_equal; apply filter_ext; intros p; apply rosterCallback_no_search.
  - intros H; apply String.eqb_neq in H; rewrite H, Hf; simpl.
    f_equal; apply filter_ext; intros p; apply rosterCallback_no_search.
  - intros ->; simpl; rewrite Hf.
    apply forallb_filter_id, forallb_forall; intros p _.
    apply rosterCallback_no_search.
  - intros ->; simpl; rewrite Hf.
    apply forallb_filter_id, forallb_forall; intros p _.
    apply rosterCallback_no_search.
  - simpl; apply filter_length_le.
  - simpl; apply filter_length_le.
  - intros Hty; simpl; apply filter_or_length; intros p Hp.
    destruct (Hty p Hp) as [H|[H|H]]; rewrite H; reflexivity.
Qed.

(** On the sample roster (one PICC, one MED, one PICC_MED patient) a
    click on the PICC card shows two rows. *)
Lemma counters_count_filtered_rows_witness :
  List.length (Pazienti.filteredPatients
                 (Pazienti.piccCardClick (RosterSample.filtered_by "all"))) = 2.
Proof.
  rewrite (proj1 (counters_count_filtered_rows (RosterSample.filtered_by "all")
                    eq_refl eq_refl) ltac:(discriminate)).
  reflexivity.
Defined.

Lemma set_add_In (s : list string) (x y : string) :
  In y (Pazienti.set_add s x) <-> In y s \/ y = x.
Proof.
  unfold Pazienti.set_add, Pazienti.set_has.
  destruct (JS.array_includes s x) eqn:E.
  - apply array_includes_In in E; split; [tauto | intros [H| ->]; assumption].
  - rewrite in_app_iff; simpl; intuition.
Qed.

Lemma set_add_NoDup (s : list string) (x : string) :
  NoDup s -> NoDup (Pazienti.set_add s x).
Proof.
  intros Hnd; unfold Pazienti.set_add, Pazienti.set_has.
  destruct (JS.array_includes s x) eqn:E; [assumption|].
  apply NoDup_app; [assumption | repeat constructor; intros [] |].
  intros y Hy [<-|[]].
  apply array_includes_In in Hy; congruence.
Qed.

Lemma set_of_array_fold (arr : list string) :
  forall acc,
    (forall y, In y (fold_left Pazienti.set_add arr acc) <-> In y acc \/ In y arr) /\
    (NoDup acc -> NoDup (fold_left Pazienti.set_add arr acc)).
Proof.
  induction arr as [|x arr IH]; intros acc; simpl.
  - split; [intros y; tauto | trivial].
  - destruct (IH (Pazienti.set_add acc x)) as (Hin & Hnd); split.
    + intros y; rewrite Hin, set_add_In; intuition.
    + intros H; apply Hnd, set_add_NoDup, H.
Qed.

Lemma filter_neq_length (x : string) (l : list string) :
  NoDup l -> In x l ->
  S (List.length (filter (fun y => negb (y =? x)) l)) = List.length l.
Proof.
  induction l as [|a l IH]; intros Hnd Hin; [destruct Hin|].
  inversion Hnd as [|? ? Ha Hl]; subst; simpl.
  destruct (String.eqb_spec a x) as [->|Hne]; simpl.
  - now rewrite filter_neq_absent.
  - destruct Hin as [H|H]; [congruence|].
    now rewrite IH.
Qed.

(** X11. Ticking a patient in selection mode flips that patient in the
    set of selected ids and changes no other; on a set without
    duplicates the count shown goes up or down by one and the set stays
    without duplicates; nothing else on the page changes. *)
Theorem togglePatientSelection_flips_one :
  forall patientId st,
    let st' := Pazienti.togglePatientSelection patientId st in
    (In patientId (Pazienti.selectedPatients st') <->
     ~ In patientId (Pazienti.selectedPatients st)) /\
    (forall y, y <> patientId ->
               (In y (Pazienti.selectedPatients st') <->
                In y (Pazienti.selectedPatients st))) /\
    (NoDup (Pazienti.selectedPatients st) ->
     NoDup (Pazienti.selectedPatients st') /\
     (In patientId (Pazienti.selectedPatients st) ->
      S (List.length (Pazienti.selectedPatients st'))
      = List.length (Pazienti.selectedPatients st)) /\
     (~ In patientId (Pazienti.selectedPatients st) ->
      List.length (Pazienti.selectedPatients st')
      = S (List.length (Pazienti.selectedPatients st)))) /\
    Pazienti.filteredPatients st' = Pazienti.filteredPatients st.
Proof.
  intros patientId st; cbv zeta.
  unfold Pazienti.togglePatientSelection, Pazienti.set_has, Pazienti.set_delete.
  destruct (JS.array_includes (Pazienti.selectedPatients st) patientId) eqn:E; simpl.
  - assert (Hin : In patientId (Pazienti.selectedPatients st))
      by now apply array_includes_In.
    split; [rewrite filter_neq_In; tauto|].
    split; [intros y Hy; rewrite filter_neq_In; tauto|].
    split; [|reflexivity].
    intros Hnd; split; [now apply NoDup_filter|].
    split; [intros _; now apply filter_neq_length | contradiction].
  - assert (Hnin : ~ In patientId (Pazienti.selectedPatients st)).
    { intros H; apply array_includes_In in H; congruence. }
    split; [rewrite set_add_In; tauto|].
    split; [intros y Hy; rewrite set_add_In; tauto|].
    split; [|reflexivity].
    intros Hnd; split; [now apply set_add_NoDup|].
    split; [contradiction|].
    intros _; unfold Pazienti.set_add, Pazienti.set_has; rewrite E.
    rewrite length_app; simpl; lia.
Qed.

Lemma togglePatientSelection_flips_one_witness :
  List.length (Pazienti.selectedPatients
                 (Pazienti.togglePatientSelection "p1"
                    (RosterSample.batch_form "sospeso" "" ""))) = 1.
Proof.
  pose proof (togglePatientSelection_flips_one "p1"
                (RosterSample.batch_form "sospeso" "" "")) as H.
  cbv zeta in H; destruct H as (_ & _ & H & _).
  destruct H as (_ & H & _).
  - simpl; repeat constructor; simpl; intuition discriminate.
  - specialize (H ltac:(simpl; auto)).
    simpl in H |- *; congruence.
Defined.

(** X12. "Select all" replaces the selection by the ids of the rows
    shown, each once: every row shown is selected, nothing that is not
    shown stays selected, and the names listed for the batch dialogs
    are then the names of all the rows shown, in order.  After
    "deselect" no name is listed. *)
Theorem selectAllFiltered_selects_rows_shown :
  forall st,
    (forall id, In id (Pazienti.selectedPatients (Pazienti.selectAllFiltered st)) <->
                exists p, In p (Pazienti.filteredPatients st) /\ Pazienti.p_id p = id) /\
    NoDup (Pazienti.selectedPatients (Pazienti.selectAllFiltered st)) /\
    List.length (Pazienti.selectedPatients (Pazienti.selectAllFiltered st))
      <= List.length (Pazienti.filteredPatients st) /\
    Pazienti.getSelectedPatientNames (Pazienti.selectAllFiltered st) =
      map (fun p => JS.template (Pazienti.p_cognome p) ++ " "
                    ++ JS.template (Pazienti.p_nome p))
          (Pazienti.filteredPatients st) /\
    Pazienti.getSelectedPatientNames (Pazienti.deselectAll st) = [].
Proof.
  intros st.
  destruct (set_of_array_fold (map Pazienti.p_id (Pazienti.filteredPatients st)) [])
    as (Hin & Hnd).
  assert (Hsel : Pazienti.selectedPatients (Pazienti.selectAllFiltered st) =
                 fold_left Pazienti.set_add
                           (map Pazienti.p_id (Pazienti.filteredPatients st)) [])
    by reflexivity.
  assert (Hids : forall id,
             In id (Pazienti.selectedPatients (Pazienti.selectAllFiltered st)) <->
             exists p, In p (Pazienti.filteredPatients st) /\ Pazienti.p_id p = id).
  { intros id; rewrite Hsel, Hin, in_map_iff; simpl.
    split; [intros [[]|(p & E & Hp)] | intros (p & Hp & E)]; eauto. }
  assert (Hnodup : NoDup (Pazienti.selectedPatients (Pazienti.selectAllFiltered st))).
  { rewrite Hsel; apply Hnd; constructor. }
  split; [exact Hids | split; [exact Hnodup | split; [|split]]].
  - rewrite <- (length_map Pazienti.p_id (Pazienti.filteredPatients st)).
    apply NoDup_incl_length; [exact Hnodup|].
    intros id Hid; apply Hids in Hid as (p & Hp & <-); now apply in_map.
  - unfold Pazienti.getSelectedPatientNames.
    change (Pazienti.filteredPatients (Pazienti.selectAllFiltered st))
      with (Pazienti.filteredPatients st).
    f_equal; apply forallb_filter_id, forallb_forall; intros p Hp.
    apply array_includes_In, Hids; eauto.
  - unfold Pazienti.getSelectedPatientNames, Pazienti.deselectAll; simpl.
    change (Pazienti.filteredPatients (Pazienti.set_selectedPatients [] st))
      with (Pazienti.filteredPatients st).
    generalize (Pazienti.filteredPatients st); clear; intros l.
    induction l as [|p l IH]; [reflexivity | exact IH].
Qed.

Lemma selectAllFiltered_selects_rows_shown_witness :
  In "p3" (Pazienti.selectedPatients
             (Pazienti.selectAllFiltered (RosterSample.filtered_by "PICC"))).
Proof.
  apply (proj1 (selectAllFiltered_selects_rows_shown (RosterSample.filtered_by "PICC"))).
  exists RosterSample.verdi; split; [simpl; auto | reflexivity].
Defined.

(* ================================================================= *)
(** ** The roster: status changes *)

(** X13. The status menu of a patient never offers the status the
    patient already has, and offers each of the other statuses among
    in care, suspended and discharged once, in that order; a patient
    with one of the three statuses gets two entries. *)
Theorem getStatusActions_offers_other_statuses :
  forall currentStatus,
    (forall a, In a (Pazienti.getStatusActions currentStatus) ->
               currentStatus <> JS.Str (Pazienti.sa_status a)) /\
    (forall s, In s ["in_cura"; "sospeso"; "dimesso"] ->
               currentStatus <> JS.Str s ->
               In s (map Pazienti.sa_status (Pazienti.getStatusActions currentStatus))) /\
    map Pazienti.sa_status (Pazienti.getStatusActions currentStatus) =
      filter (fun s => negb (JS.strict_eq currentStatus s))
             ["in_cura"; "sospeso"; "dimesso"] /\
    (In currentStatus [JS.Str "in_cura"; JS.Str "sospeso"; JS.Str "dimesso"] ->
     List.length (Pazienti.getStatusActions currentStatus) = 2).
Proof.
  intros currentStatus.
  assert (Hmap : map Pazienti.sa_status (Pazienti.getStatusActions currentStatus) =
                 filter (fun s => negb (JS.strict_eq currentStatus s))
                        ["in_cura"; "sospeso"; "dimesso"]).
  { unfold Pazienti.getStatusActions; simpl.
    destruct (JS.strict_eq currentStatus "in_cura"),
             (JS.strict_eq currentStatus "sospeso"),
             (JS.strict_eq currentStatus "dimesso"); reflexivity. }
  split; [|split; [|split; [exact Hmap|]]].
  - intros a Ha E.
    assert (Hs : In (Pazienti.sa_status a)
                    (map Pazienti.sa_status (Pazienti.getStatusActions currentStatus)))
      by now apply in_map.
    rewrite Hmap in Hs; apply filter_In in Hs as (_ & Hs).
    apply negb_true_iff in Hs.
    apply strict_eq_true in E; congruence.
  - intros s Hs Hne; rewrite Hmap; apply filter_In; split; [assumption|].
    apply negb_true_iff.
    destruct (JS.strict_eq currentStatus s) eqn:E; [|reflexivity].
    apply strict_eq_true in E; contradiction.
  - intros [<-|[<-|[<-|[]]]]; reflexivity.
Qed.

Lemma getStatusActions_offers_other_statuses_witness :
  In "dimesso" (map Pazienti.sa_status (Pazienti.getStatusActions (JS.Str "sospeso"))).
Proof.
  apply (proj1 (proj2 (getStatusActions_offers_other_statuses (JS.Str "sospeso")))).
  - simpl; auto.
  - discriminate.
Defined.

(** X14. A status dialog that was just opened is on the status asked
    for, with an empty reason and an empty note, so confirming it at
    once sends the update only for a return to care: for a discharge
    nothing is sent and the missing reason is reported, for a
    suspension nothing is sent and the missing note is reported.  The
    same holds for the batch dialog, which opens only on a non-empty
    selection, on the status "sospeso" for the action suspend, on
    "in_cura" for resume and on "dimesso" for every other action; on
    an empty selection it only warns. *)
Theorem fresh_status_dialog_confirms_only_resume :
  forall api st,
    (forall p target,
        let st1 := Pazienti.openStatusDialog p target st in
        let out := Pazienti.handleStatusChange api st1 in
        Pazienti.newStatus st1 = target /\
        Pazienti.statusReason st1 = "" /\ Pazienti.statusNotes st1 = "" /\
        Pazienti.selectedPatientForStatus st1 = Some p /\
        Pazienti.statusDialogOpen st1 = true /\
        (target = "dimesso" ->
         out = (st1, [Pazienti.ToastError "Seleziona una motivazione per la dimissione"])) /\
        (target = "sospeso" ->
         out = (st1, [Pazienti.ToastError "Inserisci una nota per la sospensione"])) /\
        (target <> "dimesso" -> target <> "sospeso" ->
         exists rest,
           snd out =
           Pazienti.Put ("/patients/" ++ Pazienti.p_id p)
             (Pazienti.SingleBody (Pazienti.mkStatusUpdate target None None None))
           :: rest)) /\
    (forall action batchAction,
        Pazienti.selectedPatients st = [] ->
        Pazienti.openBatchStatusDialog action st batchAction =
        (st, batchAction, [Pazienti.ToastWarning "Seleziona almeno un paziente"])) /\
    (forall action batchAction st1 batchAction1 evs,
        Pazienti.selectedPatients st <> [] ->
        Pazienti.openBatchStatusDialog action st batchAction = (st1, batchAction1, evs) ->
        evs = [] /\ batchAction1 = Some action /\
        Pazienti.batchStatusDialogOpen st1 = true /\
        Pazienti.statusReason st1 = "" /\ Pazienti.statusNotes st1 = "" /\
        Pazienti.selectedPatients st1 = Pazienti.selectedPatients st /\
        (action = "suspend" ->
         Pazienti.newStatus st1 = "sospeso" /\
         Pazienti.handleBatchStatusChange api st1
         = (st1, [Pazienti.ToastError "Inserisci una nota per la sospensione"])) /\
        (action = "resume" ->
         Pazienti.newStatus st1 = "in_cura" /\
         exists rest,
           snd (Pazienti.handleBatchStatusChange api st1) =
           Pazienti.Put "/patients/batch/status"
             (Pazienti.BatchBody
                (Pazienti.mkBatchStatusUpdate (Pazienti.selectedPatients st)
                                              "in_cura" "" "" ""))
           :: rest) /\
        (action <> "suspend" -> action <> "resume" ->
         Pazienti.newStatus st1 = "dimesso" /\
         Pazienti.handleBatchStatusChange api st1
         = (st1, [Pazienti.ToastError "Seleziona una motivazione per la dimissione"]))).
Proof.
  intros api st; split; [|split].
  - intros p target; cbv zeta.
    do 5 (split; [reflexivity|]).
    unfold Pazienti.handleStatusChange, Pazienti.openStatusDialog; simpl.
    split; [|split].
    + intros ->; reflexivity.
    + intros ->; reflexivity.
    + intros H1 H2; apply String.eqb_neq in H1, H2; rewrite H1, H2; simpl.
      destruct (api _ _); simpl; eauto.
  - intros action batchAction Hsel; unfold Pazienti.openBatchStatusDialog.
    now rewrite Hsel.
  - intros action batchAction st1 batchAction1 evs Hsel.
    unfold Pazienti.openBatchStatusDialog.
    destruct (Pazienti.selectedPatients st) as [|i ids] eqn:E; [congruence|].
    cbn [List.length Nat.eqb]; intros [= <- <- <-].
    do 6 (split; [reflexivity|]).
    unfold Pazienti.handleBatchStatusChange; simpl.
    split; [|split].
    + intros ->; split; reflexivity.
    + intros ->; split; [reflexivity|].
      simpl; destruct (api _ _); simpl; eauto.
    + intros Hs Hr; apply String.eqb_neq in Hs, Hr; rewrite Hs, Hr.
      split; reflexivity.
Qed.

(** Asking to suspend Rossi and confirming at once sends nothing and
    asks for the note. *)
Lemma fresh_status_dialog_confirms_only_resume_witness :
  snd (Pazienti.handleStatusChange RosterSample.accepting
         (Pazienti.openStatusDialog RosterSample.rossi "sospeso"
            (RosterSample.filtered_by "all")))
  = [Pazienti.ToastError "Inserisci una nota per la sospensione"].
Proof.
  destruct (proj1 (fresh_status_dialog_confirms_only_resume
                     RosterSample.accepting (RosterSample.filtered_by "all"))
                  RosterSample.rossi "sospeso") as (_ & _ & _ & _ & _ & _ & H & _).
  now rewrite (H eq_refl).
Defined.

(* ================================================================= *)
(** ** The roster: creating several patients *)

Lemma rowComplete_spec (r : Pazienti.BatchRow) :
  Pazienti.rowComplete r = true <->
  Pazienti.br_nome r <> "" /\ Pazienti.br_cognome r <> "" /\ Pazienti.br_tipo r <> "".
Proof.
  unfold Pazienti.rowComplete; simpl.
  rewrite !andb_true_iff, !negb_true_iff, !String.eqb_neq; tauto.
Qed.

Lemma newPatientOfRow_fields (ambulatorio : string) (r : Pazienti.BatchRow) :
  Pazienti.newPatientOfRow ambulatorio r =
  Pazienti.mkNewPatient
    (Pazienti.br_nome r) (Pazienti.br_cognome r) (Pazienti.br_tipo r) ambulatorio
    (if Pazienti.br_tipo_impianto r =? "" then None
     else Some (Pazienti.br_tipo_impianto r))
    (if Pazienti.br_data_inserimento_impianto r =? "" then None
     else Some (Pazienti.br_data_inserimento_impianto r)).
Proof.
  unfold Pazienti.newPatientOfRow; simpl.
  destruct (Pazienti.br_tipo_impianto r =? ""),
           (Pazienti.br_data_inserimento_impianto r =? ""); reflexivity.
Qed.

(** X15. Creating several patients sends one POST whose body holds, in
    the order of the form, one patient for every row that has a given
    name, a family name and a type: each with those three fields of
    the row and the site, with the implant type when the row has one
    and without that key when it has none, and likewise for the date
    of the implant.  Rows that lack a name or the type are left out
    without notice; when every row lacks one nothing is sent, an error
    is shown and the form stays as it is.  Whenever the server
    answers, the form is reset to one empty row and the dialog closed,
    also when the server reports patients it did not create; when the
    request fails the form is kept. *)
Theorem handleBatchCreate_sends_complete_rows :
  forall ambulatorio api dialogOpen rows dialogOpen' rows' effs,
    Pazienti.handleBatchCreate ambulatorio api dialogOpen rows
    = (dialogOpen', rows', effs) ->
    let complete := fun r =>
      negb (Pazienti.br_nome r =? "") && negb (Pazienti.br_cognome r =? "")
      && negb (Pazienti.br_tipo r =? "") in
    let sent := fun r =>
      Pazienti.mkNewPatient
        (Pazienti.br_nome r) (Pazienti.br_cognome r) (Pazienti.br_tipo r) ambulatorio
        (if Pazienti.br_tipo_impianto r =? "" then None
         else Some (Pazienti.br_tipo_impianto r))
        (if Pazienti.br_data_inserimento_impianto r =? "" then None
         else Some (Pazienti.br_data_inserimento_impianto r)) in
    let body := map sent (filter complete rows) in
    ((forall r, In r rows ->
                Pazienti.br_nome r = "" \/ Pazienti.br_cognome r = "" \/
                Pazienti.br_tipo r = "") ->
     effs = [Pazienti.Notify
               (Pazienti.ToastError "Inserisci almeno un paziente completo")] /\
     rows' = rows /\ dialogOpen' = dialogOpen) /\
    ((exists r, In r rows /\ Pazienti.br_nome r <> "" /\
                Pazienti.br_cognome r <> "" /\ Pazienti.br_tipo r <> "") ->
     exists rest,
       effs = Pazienti.PostPatientsBatch body :: rest /\
       (forall b, ~ In (Pazienti.PostPatientsBatch b) rest) /\
       ((exists c i e, api body = Pazienti.BatchResolved c i e) ->
        rows' = [Pazienti.emptyBatchRow] /\ dialogOpen' = false) /\
       ((exists d, api body = Pazienti.BatchRejected d) ->
        rows' = rows /\ dialogOpen' = dialogOpen)) /\
    (forall b, In (Pazienti.PostPatientsBatch b) effs -> b = body /\ b <> []).
Proof.
  intros ambulatorio api dialogOpen rows dialogOpen' rows' effs E complete sent body.
  assert (Hbody : body = map (Pazienti.newPatientOfRow ambulatorio)
                             (filter Pazienti.rowComplete rows)).
  { unfold body; change (filter complete rows) with (filter Pazienti.rowComplete rows).
    apply map_ext; intros r; symmetry; apply newPatientOfRow_fields. }
  assert (Hnone : (forall r, In r rows ->
                      Pazienti.br_nome r = "" \/ Pazienti.br_cognome r = "" \/
                      Pazienti.br_tipo r = "") ->
                  filter Pazienti.rowComplete rows = []).
  { intros H; destruct (filter Pazienti.rowComplete rows) as [|v l] eqn:Ev; [reflexivity|].
    assert (Hv : In v (filter Pazienti.rowComplete rows)) by (rewrite Ev; now left).
    apply filter_In in Hv as (Hv & Hc); apply rowComplete_spec in Hc.
    destruct (H v Hv) as [H1|[H1|H1]]; tauto. }
  assert (Hsome : (exists r, In r rows /\ Pazienti.br_nome r <> "" /\
                     Pazienti.br_cognome r <> "" /\ Pazienti.br_tipo r <> "") ->
                  filter Pazienti.rowComplete rows <> []).
  { intros (r & Hr & Hc) Hf.
    assert (Hin : In r (filter Pazienti.rowComplete rows))
      by (apply filter_In; split; [assumption | now apply rowComplete_spec]).
    rewrite Hf in Hin; destruct Hin. }
  rewrite Hbody; clear Hbody body.
  revert E; unfold Pazienti.handleBatchCreate.
  destruct (filter Pazienti.rowComplete rows) as [|v valid'] eqn:Ev.
  - cbn [List.length Nat.eqb]; intros [= <- <- <-].
    split; [auto|]; split.
    + intros H; apply Hsome in H; congruence.
    + intros b [H|[]]; discriminate H.
  - cbn [List.length Nat.eqb].
    destruct (api _) as [c i e|d] eqn:Eapi; intros [= <- <- <-].
    + split; [intros H; apply Hnone in H; discriminate|]; split.
      * intros _; eexists; split; [reflexivity|].
        split; [|split; [auto|]].
        -- intros b Hb.
           repeat (apply in_app_or in Hb as [Hb|Hb]);
             [destruct (0 <? c)%N | destruct (0 <? e)%N | ];
             repeat (destruct Hb as [Hb|Hb]; try discriminate Hb); try destruct Hb.
        -- intros (d & Hd); congruence.
      * intros b [[= <-]|Hb]; [split; [reflexivity | discriminate]|].
        exfalso.
        repeat (apply in_app_or in Hb as [Hb|Hb]);
          [destruct (0 <? c)%N | destruct (0 <? e)%N | ];
          repeat (destruct Hb as [Hb|Hb]; try discriminate Hb); try destruct Hb.
    + split; [intros H; apply Hnone in H; discriminate|]; split.
      * intros _; eexists; split; [reflexivity|].
        split; [|split; [|auto]].
        -- intros b [Hb|[]]; discriminate Hb.
        -- intros (c & i & e & He); congruence.
      * intros b [[= <-]|[Hb|[]]]; [split; [reflexivity | discriminate] | discriminate Hb].
Qed.

(** Of a complete row, a row without type and a complete row with an
    implant, the first and the third are sent, the third with its
    implant; the form is reset although the server refused one of
    them. *)
Lemma handleBatchCreate_sends_complete_rows_witness :
  exists rest,
    Pazienti.handleBatchCreate "pta_centro" RosterSample.creating_one true
      [RosterSample.row_neri; RosterSample.row_untyped; RosterSample.row_blu]
    = (false, [Pazienti.emptyBatchRow],
       Pazienti.PostPatientsBatch
         [Pazienti.mkNewPatient "Luca" "Neri" "PICC" "pta_centro" None None;
          Pazienti.mkNewPatient "Ugo" "Blu" "PICC" "pta_centro"
                                (Some "midline") (Some "2025-01-10")]
       :: rest).
Proof.
  destruct (Pazienti.handleBatchCreate "pta_centro" RosterSample.creating_one true
              [RosterSample.row_neri; RosterSample.row_untyped; RosterSample.row_blu])
    as [[o r] effs] eqn:E.
  destruct (handleBatchCreate_sends_complete_rows _ _ _ _ _ _ _ E) as (_ & H & _).
  destruct H as (rest & -> & _ & H & _).
  - exists RosterSample.row_neri; split; [simpl; auto | repeat split; discriminate].
  - destruct H as (-> & ->); [exists 1%N, 0%N, 1%N; reflexivity|].
    exists rest; reflexivity.
Defined.

Lemma filter_by_index_beyond {A : Type} (index : nat) (l : list A) :
  forall start, index < start ->
    Pazienti.filter_by_index (fun i => negb (i =? index)%nat) start l = l.
Proof.
  induction l as [|a l IH]; intros start H; simpl; [reflexivity|].
  destruct (Nat.eqb_spec start index); [lia|]; simpl.
  now rewrite IH by lia.
Qed.

Lemma filter_by_index_remove {A : Type} (index : nat) (l : list A) :
  forall start, start <= index ->
    Pazienti.filter_by_index (fun i => negb (i =? index)%nat) start l
    = (firstn (index - start) l ++ skipn (S (index - start)) l)%list.
Proof.
  induction l as [|a l IH]; intros start H; simpl.
  - now rewrite firstn_nil.
  - destruct (Nat.eqb_spec start index) as [->|Hne]; simpl.
    + rewrite Nat.sub_diag; simpl; apply filter_by_index_beyond; lia.
    + replace (index - start) with (S (index - S start)) by lia; simpl.
      now rewrite IH by lia.
Qed.

(** X16. Removing a row of the batch form never empties it: with one
    row left the removal does nothing.  With more rows, removing a
    position inside the form drops that row and keeps the others in
    order, and a position outside changes nothing.  Adding a row puts
    an empty row last, and removing that row again gives back the
    form. *)
Theorem removeBatchPatientRow_keeps_a_row :
  forall index rows,
    (rows <> [] -> Pazienti.removeBatchPatientRow index rows <> []) /\
    (List.length rows <= 1 -> Pazienti.removeBatchPatientRow index rows = rows) /\
    (1 < List.length rows -> index < List.length rows ->
     Pazienti.removeBatchPatientRow index rows
     = (firstn index rows ++ skipn (S index) rows)%list /\
     S (List.length (Pazienti.removeBatchPatientRow index rows)) = List.length rows) /\
    (List.length rows <= index -> Pazienti.removeBatchPatientRow index rows = rows) /\
    (rows <> [] ->
     Pazienti.removeBatchPatientRow (List.length rows) (Pazienti.addBatchPatientRow rows)
     = rows).
Proof.
  intros index rows; unfold Pazienti.removeBatchPatientRow, Pazienti.addBatchPatientRow.
  assert (Hrem : Pazienti.filter_by_index (fun i => negb (i =? index)%nat) 0 rows
                 = (firstn index rows ++ skipn (S index) rows)%list).
  { rewrite filter_by_index_remove by lia; now rewrite Nat.sub_0_r. }
  split; [|split; [|split; [|split]]].
  - intros Hne.
    destruct (Nat.ltb_spec 1 (List.length rows)) as [H|H]; [|assumption].
    rewrite Hrem; intros E; apply (f_equal (@List.length _)) in E.
    rewrite length_app, length_firstn, length_skipn in E; simpl in E; lia.
  - intros H; destruct (Nat.ltb_spec 1 (List.length rows)); [lia | reflexivity].
  - intros H Hi; destruct (Nat.ltb_spec 1 (List.length rows)); [|lia].
    rewrite Hrem; split; [reflexivity|].
    rewrite length_app, length_firstn, length_skipn; lia.
  - intros H; destruct (Nat.ltb_spec 1 (List.length rows)); [|reflexivity].
    rewrite Hrem, firstn_all2, skipn_all2 by lia; apply app_nil_r.
  - intros Hne; rewrite length_app; simpl.
    destruct rows as [|r rows]; [congruence|]; simpl.
    destruct (Nat.ltb_spec 1 (S (List.length rows + 1))); [|lia].
    f_equal; rewrite filter_by_index_remove by lia.
    replace (S (List.length rows) - 1) with (List.length rows) by lia.
    rewrite firstn_app, skipn_app.
    rewrite Nat.sub_diag, firstn_all2, skipn_all2 by lia.
    replace (S (List.length rows) - List.length rows) with 1 by lia.
    simpl; now rewrite !app_nil_r.
Qed.

Lemma removeBatchPatientRow_keeps_a_row_witness :
  Pazienti.removeBatchPatientRow 0 [RosterSample.row_neri] = [RosterSample.row_neri] /\
  Pazienti.removeBatchPatientRow 1
    (Pazienti.addBatchPatientRow [RosterSample.row_neri]) = [RosterSample.row_neri].
Proof.
  split.
  - apply (proj1 (proj2 (removeBatchPatientRow_keeps_a_row 0 [RosterSample.row_neri]))).
    simpl; lia.
  - apply (proj2 (proj2 (proj2 (proj2
             (removeBatchPatientRow_keeps_a_row 0 [RosterSample.row_neri]))))).
    discriminate.
Defined.

(* ================================================================= *)
(** ** The dialog that closes the agenda *)

Lemma toggleSlotOra_In (x y : string) (sel : list string) :
  In y (toggleSlotOra x sel) <-> (y = x /\ ~ In x sel) \/ (y <> x /\ In y sel).
Proof.
  unfold toggleSlotOra.
  destruct (JS.array_includes sel x) eqn:E.
  - apply array_includes_In in E; rewrite filter_neq_In; tauto.
  - assert (Hn : ~ In x sel) by (intros H; apply array_includes_In in H; congruence).
    rewrite in_app_iff; simpl.
    destruct (string_dec y x) as [->|Hne]; [tauto|].
    split; [intros [H|[H|[]]]; [tauto | congruence] | tauto].
Qed.

Lemma toggleSlotOra_includes (x h : string) (sel : list string) :
  JS.array_includes (toggleSlotOra x sel) h =
  xorb (JS.array_includes sel h) (h =? x).
Proof.
  apply eq_true_iff_eq; rewrite array_includes_In, toggleSlotOra_In.
  destruct (String.eqb_spec h x) as [->|Hne].
  - rewrite xorb_true_r, negb_true_iff.
    destruct (JS.array_includes sel x) eqn:E.
    + apply array_includes_In in E; split; [tauto | discriminate].
    + split; [reflexivity|]; intros _; left; split; [reflexivity|].
      intros H; apply array_includes_In in H; congruence.
  - rewrite xorb_false_r, array_includes_In; tauto.
Qed.

Lemma toggleSlotOra_NoDup (x : string) (sel : list string) :
  NoDup sel -> NoDup (toggleSlotOra x sel).
Proof.
  intros Hnd; unfold toggleSlotOra.
  destruct (JS.array_includes sel x) eqn:E; [now apply NoDup_filter|].
  apply NoDup_app; [assumption | repeat constructor; intros [] |].
  intros y Hy [<-|[]]; apply array_includes_In in Hy; congruence.
Qed.

(** X17. Whatever hours are clicked in the dialog, in whatever order,
    the hours selected are exactly those clicked an odd number of
    times, each of them once. *)
Theorem clicked_hours_selected_by_parity :
  forall clicks,
    let sel := fold_left (fun sel ora => toggleSlotOra ora sel) clicks [] in
    NoDup sel /\
    forall h, In h sel <-> Nat.odd (count_occ string_dec clicks h) = true.
Proof.
  intros clicks; cbv zeta.
  assert (Hgen : forall acc,
             NoDup acc ->
             NoDup (fold_left (fun sel ora => toggleSlotOra ora sel) clicks acc) /\
             forall h,
               JS.array_includes
                 (fold_left (fun sel ora => toggleSlotOra ora sel) clicks acc) h
               = xorb (JS.array_includes acc h)
                      (Nat.odd (count_occ string_dec clicks h))).
  { induction clicks as [|x clicks IH]; intros acc Hacc; simpl.
    - split; [assumption | intros h; now rewrite xorb_false_r].
    - destruct (IH (toggleSlotOra x acc) (toggleSlotOra_NoDup x acc Hacc)) as (Hnd & Hin).
      split; [assumption|]; intros h; rewrite Hin, toggleSlotOra_includes.
      destruct (string_dec x h) as [->|Hne].
      + rewrite String.eqb_refl, Nat.odd_succ, <- Nat.negb_odd.
        destruct (JS.array_includes acc h), (Nat.odd _); reflexivity.
      + assert (E : (h =? x) = false) by (apply String.eqb_neq; congruence).
        now rewrite E, xorb_false_r. }
  destruct (Hgen [] (NoDup_nil _)) as (Hnd & Hin).
  split; [assumption|]; intros h.
  now rewrite <- array_includes_In, Hin.
Qed.

(** Clicking 09:00, 09:30 and 09:00 again leaves 09:30 selected. *)
Lemma clicked_hours_selected_by_parity_witness :
  In "09:30" (fold_left (fun sel ora => toggleSlotOra ora sel)
                        ["09:00"; "09:30"; "09:00"] []).
Proof.
  apply (proj2 (clicked_hours_selected_by_parity ["09:00"; "09:30"; "09:00"]) "09:30").
  reflexivity.
Defined.

(** X18. The button of an hour in the dialog is disabled when the slot
    of that hour is closed for the type chosen in the form; with the
    choice "both" only the PICC column is looked at.  So with "both",
    an hour closed for MED alone can still be selected, and an hour
    closed for PICC alone cannot, although its MED slot is open. *)
Theorem hourButtonDisabled_looks_at_picc_for_both :
  forall st f ora,
    (closeSlotTipo f <> "both" ->
     hourButtonDisabled st f ora = isSlotClosed st ora (closeSlotTipo f)) /\
    (closeSlotTipo f = "both" ->
     hourButtonDisabled st f ora = isSlotClosed st ora "PICC" /\
     (forall cs, closedSlots st = [cs] -> cs_tipo cs = JS.Str "MED" ->
                 closure_matches cs ora "MED" ->
                 hourButtonDisabled st f ora = false /\
                 isSlotClosed st ora "MED" = true) /\
     (forall cs, closedSlots st = [cs] -> cs_tipo cs = JS.Str "PICC" ->
                 closure_matches cs ora "PICC" ->
                 hourButtonDisabled st f ora = true /\
                 isSlotClosed st ora "MED" = false)).
Proof.
  intros st f ora; unfold hourButtonDisabled; split.
  - intros H; apply String.eqb_neq in H; now rewrite H.
  - intros ->; simpl; split; [reflexivity | split].
    + intros cs Hl Ht Hm; split.
      * apply isSlotClosed_false; rewrite Hl; intros c [<-|[]] (_ & [Hu|He]).
        -- rewrite Ht in Hu; apply unset_not_str in Hu; [assumption | discriminate].
        -- congruence.
      * apply isSlotClosed_spec; exists cs; rewrite Hl; simpl; auto.
    + intros cs Hl Ht Hm; split.
      * apply isSlotClosed_spec; exists cs; rewrite Hl; simpl; auto.
      * apply isSlotClosed_false; rewrite Hl; intros c [<-|[]] (_ & [Hu|He]).
        -- rewrite Ht in Hu; apply unset_not_str in Hu; [assumption | discriminate].
        -- congruence.
Qed.

Lemma hourButtonDisabled_looks_at_picc_for_both_witness :
  hourButtonDisabled (Sample.with_closures [Sample.nine_med])
                     (Sample.close_form "slot" [] "both" "") "09:00" = false /\
  isSlotClosed (Sample.with_closures [Sample.nine_med]) "09:00" "MED" = true.
Proof.
  apply (proj1 (proj2 (proj2 (hourButtonDisabled_looks_at_picc_for_both
                                (Sample.with_closures [Sample.nine_med])
                                (Sample.close_form "slot" [] "both" "") "09:00")
                             eq_refl)) Sample.nine_med eq_refl eq_refl).
  unfold closure_matches; simpl; auto.
Defined.

(** X19. In the two modes the dialog offers, its confirm button is
    disabled exactly when confirming would send nothing: in slot mode
    with no hour selected.  In day mode it is always enabled and a
    request is always sent. *)
Theorem close_button_disabled_iff_nothing_sent :
  forall ambulatorio api st f,
    closeMode f = "slot" \/ closeMode f = "day" ->
    (closeButtonDisabled f = true <->
     snd (handleCloseAgenda ambulatorio api st f) = []) /\
    (closeButtonDisabled f = true <-> closeMode f = "slot" /\ closeSlotOre f = []) /\
    (closeMode f = "day" -> closeButtonDisabled f = false).
Proof.
  intros ambulatorio api st f Hmode.
  unfold closeButtonDisabled, handleCloseAgenda.
  destruct Hmode as [Hm|Hm]; rewrite Hm; simpl.
  - destruct (closeSlotOre f) as [|ora [|ora' ore]]; simpl.
    + repeat split; auto; discriminate.
    + destruct (api _); simpl; repeat split; intros; try discriminate;
      intuition discriminate.
    + destruct (api _); simpl; repeat split; intros; try discriminate;
      intuition discriminate.
  - destruct (api _); simpl; repeat split; intros; try discriminate;
      intuition discriminate.
Qed.

Lemma close_button_disabled_iff_nothing_sent_witness :
  snd (handleCloseAgenda "pta_centro" Sample.accepting_closure Sample.day
         (Sample.close_form "slot" [] "both" "")) = [].
Proof.
  apply (proj1 (proj1 (close_button_disabled_iff_nothing_sent
                         "pta_centro" Sample.accepting_closure Sample.day
                         (Sample.close_form "slot" [] "both" "")
                         (or_introl eq_refl)))).
  reflexivity.
Defined.

